(** * grey_lit_search: the retrieval pipeline of [utils.py]

    A shallow embedding of [src/grey_lit_search/utils.py].  The Python
    functions are written in a small state-and-exception monad over a
    [world] that holds the file system and the ordered trace of the
    externally visible actions (HTTP requests, file writes, warnings).

    What is outside the program is modelled as follows.
    - [os.path] is [posixpath]: [join], [basename] and [dirname] are the
      string functions of that module.
    - The file system is a finite map from resolved paths (lists of
      components) to nodes.  A path is walked component by component:
      [os.makedirs] makes every directory it names on its way, also one it
      leaves again through [..], and [open] needs every directory it
      leaves through [..] to exist.  The operations fail where the tree
      forces them to ([open] on a directory, a missing parent, a regular
      file in the way of [makedirs]) and where a name is refused: a NUL
      byte by Python ([ValueError]), a component of more than 255 bytes by
      Linux ([OSError], ENAMETOOLONG).  Permissions, quotas and the limit
      on the length of a whole path are not part of the operations;
      [Fs.path_fits] states that limit for the statements that need it.
      Text is a [string] of bytes, so encoding plays no role.
    - The network is a parameter: it maps the position of a request in the
      run and the request itself to a response or to a raised exception.
    - [logging] calls have no effect on the behaviour and are left out. *)

From stdpp Require Import gmap strings list pretty.
From Stdlib Require Import Ascii ZArith Lia.

Local Open Scope Z_scope.

(** ** Strings *)

Module Str.

Definition slash : ascii := "/"%char.

Definition is_slash (c : ascii) : bool := bool_decide (c = slash).

Fixpoint no_slash (s : string) : bool :=
  match s with
  | "" => true
  | String c r => negb (is_slash c) && no_slash r
  end.

Definition startswith_slash (s : string) : bool :=
  match s with
  | String c _ => is_slash c
  | "" => false
  end.

Fixpoint endswith_slash (s : string) : bool :=
  match s with
  | "" => false
  | String c "" => is_slash c
  | String _ r => endswith_slash r
  end.

Fixpoint all_slashes (s : string) : bool :=
  match s with
  | "" => true
  | String c r => is_slash c && all_slashes r
  end.

(** [s.rstrip('/')] *)
Fixpoint rstrip_slash (s : string) : string :=
  match s with
  | "" => ""
  | String c r =>
      match rstrip_slash r with
      | "" => if is_slash c then "" else String c ""
      | r' => String c r'
      end
  end.

(** [s.split('/')]: never empty, ["a//b"] gives ["a"; ""; "b"]. *)
Fixpoint split_slash (s : string) : list string :=
  match s with
  | "" => [""]
  | String c r =>
      if is_slash c then "" :: split_slash r
      else match split_slash r with
           | h :: t => String c h :: t
           | [] => [String c ""]
           end
  end.

(** ["0" * n] *)
Fixpoint zeros (n : nat) : string :=
  match n with
  | O => ""
  | S k => String "0" (zeros k)
  end.

(** [s.zfill(width)]: zeros go after a leading sign. *)
Definition zfill (width : nat) (s : string) : string :=
  if decide (width ≤ String.length s)%nat then s
  else
    let fill := zeros (width - String.length s) in
    match s with
    | String c r =>
        if bool_decide (c = "+"%char ∨ c = "-"%char)
        then String c (fill +:+ r)
        else fill +:+ s
    | "" => fill
    end.

(** [str(n)] for an [int]. *)
Definition str (n : Z) : string := pretty n.

End Str.

(** ** [os.path] (posixpath) *)

Module OsPath.
Import Str.

(** [os.path.join(a, b)] *)
Definition join (a b : string) : string :=
  if startswith_slash b then b
  else if bool_decide (a = "") || endswith_slash a then a +:+ b
  else a +:+ "/" +:+ b.

(** [(p[:i], p[i:])] for [i = p.rfind('/') + 1] *)
Fixpoint rsplit (p : string) : string * string :=
  match p with
  | "" => ("", "")
  | String c r =>
      let '(h, t) := rsplit r in
      match h with
      | "" => if is_slash c then (String c "", t) else ("", String c t)
      | _ => (String c h, t)
      end
  end.

(** [os.path.basename(p)] *)
Definition basename (p : string) : string := (rsplit p).2.

(** [os.path.dirname(p)] *)
Definition dirname (p : string) : string :=
  let head := (rsplit p).1 in
  if negb (bool_decide (head = "")) && negb (all_slashes head)
  then rstrip_slash head
  else head.

End OsPath.

(** ** Python exceptions *)

(** The exceptions the program can meet: those of [requests.exceptions], the
    [OSError] itself and its subclasses raised by the file system, the
    [ValueError] of a path with a NUL byte, and two that derive from
    [BaseException] only. *)
Inductive exn : Type :=
  | HTTPError | Timeout | ConnectTimeout | ReadTimeout | ConnectionError
  | TooManyRedirects | InvalidURL | RequestException
  | OSError | FileNotFoundError | FileExistsError | IsADirectoryError
  | NotADirectoryError | ValueError
  | KeyboardInterrupt | SystemExit.

(** [isinstance(e, requests.exceptions.HTTPError)] *)
Definition isinstance_HTTPError (e : exn) : bool :=
  match e with HTTPError => true | _ => false end.

(** [isinstance(e, requests.exceptions.Timeout)]: [ConnectTimeout] and
    [ReadTimeout] are its subclasses. *)
Definition isinstance_Timeout (e : exn) : bool :=
  match e with Timeout | ConnectTimeout | ReadTimeout => true | _ => false end.

(** [isinstance(e, Exception)] *)
Definition isinstance_Exception (e : exn) : bool :=
  match e with KeyboardInterrupt | SystemExit => false | _ => true end.

(** ** The world: file system and trace *)

Inductive node : Type := Dir | File (data : string).

Global Instance node_eq_dec : EqDecision node.
Proof. solve_decision. Defined.

Record request : Type := Request {
  url : string;
  allow_redirects : bool;
  headers_of : list (string * string);
  timeout_of : option Z
}.

Record response : Type := Response {
  status_code : Z;
  content : string;
  text : string
}.

Inductive event : Type :=
  | HttpGet (r : request)
  | FileWrite (path data : string)
  | FileAppend (path data : string)
  | Warn (category message : string).

Record world : Type := World {
  fs : gmap (list string) node;
  trace : list event
}.

Global Instance exn_eq_dec : EqDecision exn.
Proof. solve_decision. Defined.
Global Instance request_eq_dec : EqDecision request.
Proof. solve_decision. Defined.
Global Instance response_eq_dec : EqDecision response.
Proof. solve_decision. Defined.
Global Instance event_eq_dec : EqDecision event.
Proof. solve_decision. Defined.
Global Instance world_eq_dec : EqDecision world.
Proof. solve_decision. Defined.

Definition is_HttpGet (ev : event) : bool :=
  match ev with HttpGet _ => true | _ => false end.

(** ** The monad: state with exceptions; effects made before a raise stay *)

Inductive result (A : Type) : Type :=
  | Return (a : A)
  | Raise (e : exn).
Arguments Return {A} a.
Arguments Raise {A} e.

Global Instance result_eq_dec {A} `{EqDecision A} : EqDecision (result A).
Proof. solve_decision. Defined.

Definition M (A : Type) : Type := world → result A * world.

Definition ret {A} (a : A) : M A := λ w, (Return a, w).
Definition raise {A} (e : exn) : M A := λ w, (Raise e, w).
Definition bind {A B} (c : M A) (k : A → M B) : M B :=
  λ w, match c w with
       | (Return a, w') => k a w'
       | (Raise e, w') => (Raise e, w')
       end.
(** [try: body  except ...: handler e] *)
Definition try_except {A} (body : M A) (handler : exn → M A) : M A :=
  λ w, match body w with
       | (Return a, w') => (Return a, w')
       | (Raise e, w') => handler e w'
       end.

Notation "'do' x <- c ; k" := (bind c (λ x, k))
  (at level 10, x name, c at level 100, k at level 200).
Notation "c ;; k" := (bind c (λ _, k))
  (at level 100, k at level 200, right associativity).

(** ** The file system *)

Module Fs.
Import Str.

(** One step of the path walk: [""] and ["."] stay, [".."] goes up. *)
Definition push (stack : list string) (c : string) : list string :=
  if bool_decide (c = "" ∨ c = ".") then stack
  else if bool_decide (c = "..") then
    match last stack with
    | None => [".."]
    | Some l =>
        if bool_decide (l = "/") then stack
        else if bool_decide (l = "..") then stack ++ [".."]
        else removelast stack
    end
  else stack ++ [c].

(** Where the walk starts: the root or the working directory. *)
Definition root_of (p : string) : list string :=
  if startswith_slash p then ["/"] else [].

(** The resolved path: components below the root (first component ["/"])
    or below the working directory. *)
Definition resolve (p : string) : list string :=
  fold_left push (split_slash p) (root_of p).

(** The path is written as a directory: it ends in [/], [.] or [..]. *)
Definition names_dir (p : string) : bool :=
  match last (split_slash p) with
  | Some c => bool_decide (c = "" ∨ c = "." ∨ c = "..")
  | None => true
  end.

(** The root, the working directory and what is above it always exist. *)
Definition implicit_dir (k : list string) : bool :=
  forallb (λ c, bool_decide (c = "/" ∨ c = "..")) k.

Definition is_dir (m : gmap (list string) node) (k : list string) : bool :=
  implicit_dir k || match m !! k with Some Dir => true | _ => false end.

(** The limits of Linux on the length of one component and of a whole
    path (its final NUL included), in bytes. *)
Definition name_max : nat := 255.
Definition path_max : nat := 4096.

Fixpoint has_nul (s : string) : bool :=
  match s with
  | "" => false
  | String c r => bool_decide (c = "000"%char) || has_nul r
  end.

Definition too_long (c : string) : bool :=
  bool_decide (name_max < String.length c)%nat.

(** What the name of a new directory is refused for. *)
Definition name_error (c : string) : option exn :=
  if has_nul c then Some ValueError
  else if too_long c then Some OSError
  else None.

(** What a path is refused for before the tree is looked at: Python
    refuses a NUL byte, then the system refuses a long component. *)
Definition path_error (p : string) : option exn :=
  if has_nul p then Some ValueError
  else if existsb too_long (split_slash p) then Some OSError
  else None.

(** A path within every limit, that on its whole length included. *)
Definition path_fits (p : string) : bool :=
  bool_decide (path_error p = None)
  && bool_decide (String.length p < path_max)%nat.

(** No component of the path is [..]. *)
Definition no_dotdot (p : string) : bool :=
  forallb (λ c, negb (bool_decide (c = ".."))) (split_slash p).

(** The walk along the components of a path: a directory that is left
    through [..] has to exist. *)
Fixpoint walk_error (m : gmap (list string) node) (stack comps : list string)
  : option exn :=
  match comps with
  | [] => None
  | c :: rest =>
      if bool_decide (c = "..") && negb (is_dir m stack)
      then Some (match m !! stack with
                 | Some (File _) => NotADirectoryError
                 | _ => FileNotFoundError
                 end)
      else walk_error m (push stack c) rest
  end.

(** Where [open(p, "w")] or [open(p, "a")] may create or truncate a file. *)
Definition open_target (p : string) (m : gmap (list string) node)
  : exn + list string :=
  if bool_decide (p = "") then inl FileNotFoundError
  else
    match path_error p with
    | Some e => inl e
    | None =>
        match walk_error m (root_of p) (split_slash p) with
        | Some e => inl e
        | None =>
            let k := resolve p in
            if is_dir m k then inl IsADirectoryError
            else if names_dir p then
              inl (if endswith_slash p then IsADirectoryError else FileNotFoundError)
            else if is_dir m (removelast k) then inr k
            else match m !! removelast k with
                 | Some (File _) => inl NotADirectoryError
                 | _ => inl FileNotFoundError
                 end
        end
    end.

(** [with open(p, "w") as fid: fid.write(data)] (also mode ["wb"]) *)
Definition open_w (p data : string) : M unit :=
  λ w, match open_target p (fs w) with
       | inl e => (Raise e, w)
       | inr k => (Return tt,
                    World (<[k := File data]> (fs w)) (trace w ++ [FileWrite p data]))
       end.

(** [with open(p, "a") as fid: fid.write(data)] *)
Definition open_a (p data : string) : M unit :=
  λ w, match open_target p (fs w) with
       | inl e => (Raise e, w)
       | inr k =>
           let old := match fs w !! k with Some (File d) => d | _ => "" end in
           (Return tt,
             World (<[k := File (old +:+ data)]> (fs w)) (trace w ++ [FileAppend p data]))
       end.

(** [os.path.isfile(p)]: an error of the walk gives [False]. *)
Definition isfile (p : string) : M bool :=
  λ w, (Return (match path_error p, walk_error (fs w) (root_of p) (split_slash p),
                      fs w !! resolve p with
                | None, None, Some (File _) => negb (names_dir p)
                | _, _, _ => false
                end), w).

(** The directories along the components of a path, made in the order of
    the walk: a missing one is made, a regular file in the way stops the
    walk, and so does a name that is refused. *)
Fixpoint mkdir_walk (stack comps : list string) (m : gmap (list string) node)
  : option exn * gmap (list string) node :=
  match comps with
  | [] => (None, m)
  | c :: rest =>
      if bool_decide (c = "" ∨ c = "." ∨ c = "..") then mkdir_walk (push stack c) rest m
      else
        match name_error c with
        | Some e => (Some e, m)
        | None =>
            let k := stack ++ [c] in
            match m !! k with
            | Some Dir => mkdir_walk k rest m
            | Some (File _) =>
                (Some (if forallb (λ c', bool_decide (c' = "")) rest
                       then FileExistsError else NotADirectoryError), m)
            | None => mkdir_walk k rest (<[k := Dir]> m)
            end
        end
  end.

(** [os.makedirs(p, exist_ok=True)] *)
Definition makedirs (p : string) : M unit :=
  λ w, if bool_decide (p = "") then (Raise FileNotFoundError, w)
       else match mkdir_walk (root_of p) (split_slash p) (fs w) with
            | (None, m) => (Return tt, World m (trace w))
            | (Some e, m) => (Raise e, World m (trace w))
            end.

End Fs.

(** ** [requests] and [warnings] *)

Definition nl : string := String "010"%char "".

(** The number of requests made so far. *)
Definition requests_made (w : world) : nat :=
  length (filter (λ ev, is_HttpGet ev = true) (trace w)).

(** [needle in hay] *)
Fixpoint contains (needle hay : string) : bool :=
  String.prefix needle hay ||
  match hay with
  | "" => false
  | String _ r => contains needle r
  end.

(** A reading of the UTC clock. *)
Record datetime : Type := Datetime {
  year : Z; month : Z; day : Z; hour : Z; minute : Z; second : Z
}.

(** [f"{t:%Y%m%d_%H%M%S}"]: every field is a decimal number padded with
    zeros, the year to four digits and the others to two. *)
Definition strftime_Ymd_HMS (t : datetime) : string :=
  Str.zfill 4 (Str.str (year t)) +:+ Str.zfill 2 (Str.str (month t))
  +:+ Str.zfill 2 (Str.str (day t)) +:+ "_"
  +:+ Str.zfill 2 (Str.str (hour t)) +:+ Str.zfill 2 (Str.str (minute t))
  +:+ Str.zfill 2 (Str.str (second t)).

(** A record of the result iterator of [google.py]. *)
Record SearchResult : Type := Result {
  title : string;
  primary_link : string;
  do_download : bool
}.

(** ** The program: [utils.py] *)

Section Utils.
Import Str OsPath.

(** The network: the outcome of the [n]-th request of the run. *)
Variable http : nat → request → exn + response.

(** [get_search_results] of [google.py], which is not part of the sources
    at hand: the finite sequence of records parsed from a page. *)
Variable get_search_results : string → string → list SearchResult.

(** [datetime.utcnow()] *)
Variable utcnow : datetime.

(** [requests.get(...)]: the request is recorded, then answered. *)
Definition requests_get (r : request) : M response :=
  λ w, let w' := World (fs w) (trace w ++ [HttpGet r]) in
       match http (requests_made w) r with
       | inl e => (Raise e, w')
       | inr page => (Return page, w')
       end.

(** [page.raise_for_status()] *)
Definition raise_for_status (page : response) : M unit :=
  if bool_decide (400 ≤ status_code page < 600) then raise HTTPError else ret tt.

(** [warnings.warn(category(message))] *)
Definition warnings_warn (category message : string) : M unit :=
  λ w, (Return tt, World (fs w) (trace w ++ [Warn category message])).

Definition headers : list (string * string) :=
  [("User-Agent",
    "Mozilla/5.0 (Macintosh; Intel Mac OS X 10_15_7) AppleWebKit/537.36 (KHTML, like Gecko) Chrome/97.0.4692.99 Safari/537.36")].

Definition default_base_dir : string := "output".
Definition default_timeout : Z := 60.
Definition default_results : Z := 100.

Definition results_summary (search_num : Z) (title link base_dir : string) : M unit :=
  Fs.makedirs base_dir ;;
  let summary_file := join base_dir "results_summary.csv" in
  do present <- Fs.isfile summary_file ;
  (if negb present
   then Fs.open_w summary_file ("search number, title, link" +:+ nl)
   else ret tt) ;;
  Fs.open_a summary_file
    (zfill 3 (str search_num) +:+ ", " +:+ title +:+ ", " +:+ link +:+ nl).

Definition write_timeout_msg (fname link : string) : M unit :=
  Fs.makedirs (dirname fname) ;;
  Fs.open_w (fname +:+ ".timedout.txt")
    ("timed out when trying to download,"
     +:+ " please manually download using the link below" +:+ nl
     +:+ link).

Definition write_fail_msg (fname link : string) : M unit :=
  Fs.makedirs (dirname fname) ;;
  Fs.open_w (fname +:+ ".404error.txt")
    ("recieved 404 error when trying to download" +:+ nl +:+ link).

Definition write_generic_fail_msg (fname link : string) : M unit :=
  Fs.makedirs (dirname fname) ;;
  Fs.open_w (fname +:+ ".failed.txt")
    ("recieved an error when trying to download" +:+ nl +:+ link).

(** The [try] block of [save_pdf]. *)
Definition save_pdf_try (link fname : string) : M unit :=
  do page <- requests_get (Request link true headers (Some 60)) ;
  raise_for_status page ;;
  Fs.open_w fname (content page).

(** The [except] clauses of [save_pdf], tried from the top. *)
Definition save_pdf_except (fname link : string) (e : exn) : M unit :=
  if isinstance_HTTPError e then write_fail_msg fname link
  else if isinstance_Timeout e then write_timeout_msg fname link
  else if isinstance_Exception e then write_generic_fail_msg fname link
  else raise e.

(** The [timeout] argument is not used by the body: the request is made
    with the literal [60]. *)
Definition save_pdf (search_num : Z) (link base_dir : string) (timeout : Z) : M unit :=
  let save_dir := join base_dir (zfill 3 (str search_num)) in
  Fs.makedirs save_dir ;;
  let fname := join save_dir (basename link) in
  try_except (save_pdf_try link fname) (save_pdf_except fname link).

Definition save_link (search_num : Z) (link base_dir : string) : M unit :=
  let save_dir := join base_dir (zfill 3 (str search_num)) in
  Fs.makedirs save_dir ;;
  let fname := join save_dir "website_link.txt" in
  Fs.open_w fname link.

Definition save_google_search (url webpage_text base_dir : string) : M unit :=
  Fs.makedirs base_dir ;;
  Fs.open_w (join base_dir "google-search-term.txt") url ;;
  Fs.open_w (join base_dir "google-search-result.html") webpage_text.

Definition get_webpage (url : string) (results : Z) (base_dir : string) : M string :=
  do results <- (if bool_decide (results > 100)
                 then warnings_warn "SearchWarning"
                        "More than 100 search results not implemented, setting to 100" ;;
                      ret 100
                 else ret results) ;
  let url := url +:+ "&num=" +:+ str results in
  do webpage <- requests_get (Request url true headers None) ;
  save_google_search url (text webpage) base_dir ;;
  ret (text webpage).

(** [for indx, x in enumerate(xs, start): body(indx, x)] *)
Fixpoint for_enumerate {A} (body : Z → A → M unit) (start : Z) (xs : list A) : M unit :=
  match xs with
  | [] => ret tt
  | x :: xs' => body start x ;; for_enumerate body (start + 1) xs'
  end.

(** The body of the loop of [search_and_download]. *)
Definition process_result (search_time : string) (indx : Z) (search : SearchResult) : M unit :=
  results_summary indx (title search) (primary_link search) search_time ;;
  if do_download search
  then save_pdf indx (primary_link search) search_time default_timeout
  else save_link indx (primary_link search) search_time.

Definition search_and_download (url : string) (results : Z) : M unit :=
  let search_time := strftime_Ymd_HMS utcnow in
  do webpage <- get_webpage url results search_time ;
  let search := if contains "scholar.google" url then "scholar" else "google" in
  for_enumerate (process_result search_time) 0 (get_search_results webpage search).

End Utils.

(** ** Vocabulary of the statements *)

(** A string that is one ordinary path component. *)
Definition plain (c : string) : bool :=
  Str.no_slash c && negb (bool_decide (c = "" ∨ c = "." ∨ c = "..")).

(** What [os.path.join a] puts in front of a relative second argument. *)
Definition join_prefix (a : string) : string :=
  if bool_decide (a = "") || Str.endswith_slash a then a else a +:+ "/".

(** The three marker writers differ in suffix and message only. *)
Definition marker_write (suffix msg fname link : string) : M unit :=
  Fs.makedirs (OsPath.dirname fname) ;;
  Fs.open_w (fname +:+ suffix) (msg +:+ nl +:+ link).

Definition suffix_404 : string := ".404error.txt".
Definition suffix_timedout : string := ".timedout.txt".
Definition suffix_failed : string := ".failed.txt".
Definition msg_404 : string := "recieved 404 error when trying to download".
Definition msg_timedout : string :=
  "timed out when trying to download, please manually download using the link below".
Definition msg_failed : string := "recieved an error when trying to download".

(** The marker an exception leads to: suffix and message, by the order of
    the [except] clauses. *)
Definition marker_of (e : exn) : string * string :=
  if isinstance_HTTPError e then (suffix_404, msg_404)
  else if isinstance_Timeout e then (suffix_timedout, msg_timedout)
  else (suffix_failed, msg_failed).

(** The world after a file has been written. *)
Definition written (w : world) (k : list string) (p data : string) : world :=
  World (<[k := File data]> (fs w)) (trace w ++ [FileWrite p data]).

(** The request [save_pdf] makes for a link. *)
Definition pdf_request (link : string) : request :=
  Request link true headers (Some 60).


Definition summary_row (i : Z) (r : SearchResult) : string :=
  Str.zfill 3 (Str.str i) +:+ ", " +:+ title r +:+ ", " +:+ primary_link r +:+ nl.







(** The computation changes no path of the file system but those in [P],
    whatever its outcome. *)
Definition touches_only {A} (c : M A) (P : list string → Prop) : Prop :=
  ∀ w k, fs (c w).2 !! k ≠ fs w !! k → P k.

(** A non-empty initial part of the path [target]. *)
Definition on_the_way (target k : list string) : Prop :=
  ∃ i, (0 < i ≤ length target)%nat ∧ k = take i target.

(** A stack of the path walk: what exists implicitly comes first, and
    [..] stands nowhere else. *)
Definition settled (stack : list string) : Prop :=
  ∃ a b, stack = a ++ b ∧ Fs.implicit_dir a = true ∧ Forall (λ c, c ≠ "..") b.

(** Every directory on the way to [stack], and [stack] itself, exists. *)
Definition dirs_to (m : gmap (list string) node) (stack : list string) : Prop :=
  ∀ i, Fs.is_dir m (take i stack) = true.

(** The directory [a] can be used: its name is accepted, the walk to it
    succeeds and it exists. *)
Definition ready (m : gmap (list string) node) (a : string) : Prop :=
  Fs.path_error a = None
  ∧ Fs.walk_error m (Fs.root_of a) (Str.split_slash a) = None
  ∧ Fs.is_dir m (Fs.resolve a) = true.


Definition marker_suffixes : list string := [suffix_404; suffix_timedout; suffix_failed].

(** What opening the name [x] in the existing directory [dir] gives: the
    place of the file, unless the name is refused or a directory has it. *)
Definition open_name (m : gmap (list string) node) (dir : list string) (x : string)
  : exn + list string :=
  match Fs.name_error x with
  | Some e => inl e
  | None => if Fs.is_dir m (dir ++ [x]) then inl IsADirectoryError else inr (dir ++ [x])
  end.


(** Every character of the string passes the test. *)
Fixpoint all_chars (P : ascii → bool) (s : string) : bool :=
  match s with
  | "" => true
  | String c r => P c && all_chars P r
  end.

Definition is_digit (c : ascii) : bool :=
  match Ascii.is_nat c with Some _ => true | None => false end.

(** A digit, a sign or an underscore: what index strings and time stamps
    are made of. *)
Definition is_stamp_char (c : ascii) : bool :=
  is_digit c || bool_decide (c = "-"%char) || bool_decide (c = "_"%char).

Definition digit_value (c : ascii) : N :=
  match Ascii.is_nat c with Some d => N.of_nat d | None => 0%N end.

(** The number a string of digits denotes. *)
Fixpoint decimal_value (s : string) : N :=
  match s with
  | "" => 0%N
  | String c r => (digit_value c * 10 ^ N.of_nat (String.length r) + decimal_value r)%N
  end.

(** ** Concrete inputs *)

Definition w_empty : world := World ∅ [].
Definition net_404 (n : nat) (r : request) : exn + response := inr (Response 404 "nf" "nf").
Definition net_200 (n : nat) (r : request) : exn + response := inr (Response 200 "BODY" "BODY").
Definition net_timeout (n : nat) (r : request) : exn + response := inl ReadTimeout.
Definition w_squat : world :=
  World (<[ ["output"; "000"; "a.pdf.404error.txt"] := Dir ]>
         (<[ ["output"; "000"] := Dir ]> (<[ ["output"] := Dir ]> ∅))) [].
Definition w1_000 : world := (Fs.makedirs "output/000" w_empty).2.
Definition link_a : string := "http://h.org/a.pdf".
Definition link_docs : string := "http://h.org/docs/".

(** A link whose final segment has 250 bytes. *)
Definition link_long : string := "http://h.org/" +:+ Str.zeros 250.


(** Three results: a document, a page that is only recorded, a directory link. *)
Definition three_results (page kind : string) : list SearchResult :=
  [Result "Report, 2019" "http://h.org/a.pdf" true;
   Result "Home" "http://h.org/" false;
   Result "Docs" "http://h.org/docs/" true].

(** The page arrives; the first download times out, the second is a 404. *)
Definition net_mixed (n : nat) (r : request) : exn + response :=
  match n with
  | O => inr (Response 200 "" "<html>")
  | S O => inl ReadTimeout
  | _ => inr (Response 404 "nf" "nf")
  end.

Definition clock : datetime := Datetime 2024 3 7 9 5 1.

Definition net_503 (n : nat) (r : request) : exn + response :=
  inr (Response 503 "busy" "<html>busy</html>").
Definition net_interrupt (n : nat) (r : request) : exn + response := inl KeyboardInterrupt.
Definition net_down (n : nat) (r : request) : exn + response := inl ConnectionError.

(** [output] is a regular file. *)
Definition w_output_file : world := World (<[ ["output"] := File "x" ]> ∅) [].

(** A summary and a recorded link are there already. *)
Definition w_old_session : world :=
  World (<[ ["output"; "results_summary.csv"] := File "old" ]>
         (<[ ["output"; "001"; "website_link.txt"] := File "http://old/" ]>
          (<[ ["output"; "001"] := Dir ]> (<[ ["output"] := Dir ]> ∅)))) [].

(** Closed goals are settled by evaluation, equalities through their
    decision procedure. *)
Ltac run :=
  first [ lazymatch goal with |- ?P => apply (@bool_decide_unpack P _) end;
          vm_compute; exact I
        | vm_compute; reflexivity ].

(** * Facts about strings and paths *)

Section StringFacts.
Import Str OsPath.

Lemma sapp_nil_l (s : string) : "" +:+ s = s.
Proof. reflexivity. Qed.

Lemma sapp_cons (c : ascii) (a b : string) : String c a +:+ b = String c (a +:+ b).
Proof. reflexivity. Qed.

Lemma sapp_nil_r (s : string) : s +:+ "" = s.
Proof. induction s as [|c s IH]; [done|]. by rewrite sapp_cons, IH. Qed.

Lemma sapp_assoc (a b c : string) : (a +:+ b) +:+ c = a +:+ b +:+ c.
Proof. induction a as [|x a IH]; [done|]. by rewrite !sapp_cons, IH. Qed.

Lemma slength_app (a b : string) :
  String.length (a +:+ b) = (String.length a + String.length b)%nat.
Proof. induction a as [|x a IH]; [done|]. rewrite sapp_cons. simpl. by rewrite IH. Qed.

Lemma sapp_eq_nil (a b : string) : a +:+ b = "" → a = "" ∧ b = "".
Proof. destruct a; [done|]. by rewrite sapp_cons. Qed.

Lemma no_slash_app (a b : string) : no_slash (a +:+ b) = no_slash a && no_slash b.
Proof.
  induction a as [|x a IH]; [done|]. rewrite sapp_cons. simpl.
  rewrite IH. by destruct (is_slash x).
Qed.

Lemma no_slash_startswith (y : string) : no_slash y = true → startswith_slash y = false.
Proof. destruct y as [|c y]; [done|]. simpl. by destruct (is_slash c). Qed.

Lemma startswith_slash_app (a b : string) :
  a ≠ "" → startswith_slash (a +:+ b) = startswith_slash a.
Proof. by destruct a. Qed.

Lemma endswith_slash_inv (d : string) :
  endswith_slash d = true → ∃ a, d = a +:+ "/".
Proof.
  induction d as [|c d IH]; [done|]. destruct d as [|c' d].
  - simpl. unfold is_slash, slash. intros ->%bool_decide_eq_true. by exists "".
  - intros H. destruct (IH H) as [a Ha]. exists (String c a).
    by rewrite sapp_cons, <-Ha.
Qed.

Lemma endswith_slash_app_slash (a : string) : endswith_slash (a +:+ "/") = true.
Proof.
  induction a as [|c a IH]; [done|]. rewrite sapp_cons.
  destruct a as [|c' a]; [done|]. rewrite sapp_cons in *. exact IH.
Qed.

Lemma endswith_slash_app_noslash (x y : string) :
  y ≠ "" → no_slash y = true → endswith_slash (x +:+ y) = false.
Proof.
  intros Hy Hn. induction x as [|c x IH].
  - rewrite sapp_nil_l. clear Hy. induction y as [|c y IH]; [done|].
    simpl in Hn. apply andb_prop in Hn as [Hc Hn].
    destruct y as [|c' y]; [simpl; by destruct (is_slash c)|]. by apply IH.
  - rewrite sapp_cons. destruct (x +:+ y) eqn:E; [|done].
    by apply sapp_eq_nil in E as [_ ?].
Qed.

Lemma split_slash_noslash (y : string) : no_slash y = true → split_slash y = [y].
Proof.
  induction y as [|c y IH]; [done|]. simpl.
  destruct (is_slash c); [done|]. intros H. by rewrite IH.
Qed.

Lemma split_slash_nonempty (s : string) : split_slash s ≠ [].
Proof.
  destruct s as [|c s]; [done|]. simpl.
  destruct (is_slash c); [done|]. by destruct (split_slash s).
Qed.

Lemma split_slash_app_slash (a b : string) :
  split_slash (a +:+ String slash b) = split_slash a ++ split_slash b.
Proof.
  induction a as [|c a IH]; [done|]. rewrite sapp_cons. simpl.
  destruct (is_slash c); [by rewrite IH|]. rewrite IH.
  pose proof (split_slash_nonempty a). by destruct (split_slash a).
Qed.

Lemma split_slash_dir (d y : string) :
  d = "" ∨ endswith_slash d = true → no_slash y = true →
  ∃ l, split_slash d = l ++ [""] ∧ split_slash (d +:+ y) = l ++ [y].
Proof.
  intros [->|Hd] Hy.
  - exists []. by rewrite sapp_nil_l, (split_slash_noslash y).
  - apply endswith_slash_inv in Hd as [a ->]. exists (split_slash a).
    rewrite sapp_assoc. change ("/" +:+ y) with (String slash y).
    change "/" with (String slash "").
    by rewrite !split_slash_app_slash, (split_slash_noslash y).
Qed.

Lemma rsplit_noslash (y : string) : no_slash y = true → rsplit y = ("", y).
Proof.
  induction y as [|c y IH]; [done|]. simpl.
  destruct (is_slash c); [done|]. intros H. by rewrite IH.
Qed.

Lemma rsplit_dir (d y : string) :
  d = "" ∨ endswith_slash d = true → no_slash y = true → rsplit (d +:+ y) = (d, y).
Proof.
  intros Hd Hy. induction d as [|c d IH].
  - by rewrite sapp_nil_l, rsplit_noslash.
  - destruct Hd as [|Hd]; [done|]. rewrite sapp_cons. simpl.
    destruct d as [|c' d].
    + rewrite sapp_nil_l, rsplit_noslash by done. simpl in Hd. by rewrite Hd.
    + rewrite IH by (by right). done.
Qed.

Lemma basename_no_slash (p : string) : no_slash (basename p) = true.
Proof.
  unfold basename. induction p as [|c p IH]; [done|]. simpl.
  destruct (rsplit p) as [h t]. simpl in IH.
  destruct h; [|done]. destruct (is_slash c) eqn:E; [done|].
  simpl. by rewrite E.
Qed.

Lemma rstrip_slash_id (a : string) :
  a ≠ "" → endswith_slash a = false → rstrip_slash a = a.
Proof.
  induction a as [|c a IH]; [done|]. intros _ H. simpl.
  destruct a as [|c' a].
  - simpl in *. by rewrite H.
  - rewrite IH by done. done.
Qed.

Lemma rstrip_slash_app_slash (a : string) :
  rstrip_slash (a +:+ "/") = rstrip_slash a.
Proof.
  induction a as [|c a IH]; [done|]. rewrite sapp_cons. simpl. by rewrite IH.
Qed.

Lemma all_slashes_endswith (a : string) :
  a ≠ "" → all_slashes a = true → endswith_slash a = true.
Proof.
  induction a as [|c a IH]; [done|]. intros _. simpl.
  intros [Hc Ha]%andb_prop. destruct a as [|c' a]; [done|]. by apply IH.
Qed.

Lemma all_slashes_app (a b : string) :
  all_slashes (a +:+ b) = all_slashes a && all_slashes b.
Proof.
  induction a as [|c a IH]; [done|]. rewrite sapp_cons. simpl.
  rewrite IH. by destruct (is_slash c).
Qed.

End StringFacts.

Section PathFacts.
Import Str OsPath.

Lemma join_eq (a b : string) :
  startswith_slash b = false → join a b = join_prefix a +:+ b.
Proof.
  intros Hb. unfold join, join_prefix. rewrite Hb.
  destruct (bool_decide (a = "") || endswith_slash a); [done|].
  by rewrite sapp_assoc.
Qed.

Lemma join_prefix_dir (a : string) :
  join_prefix a = "" ∨ endswith_slash (join_prefix a) = true.
Proof.
  unfold join_prefix. destruct (bool_decide (a = "")) eqn:E; simpl.
  - left. by apply bool_decide_eq_true in E.
  - right. destruct (endswith_slash a) eqn:E'; [done|].
    apply endswith_slash_app_slash.
Qed.

Lemma plain_no_slash (c : string) : plain c = true → no_slash c = true.
Proof. unfold plain. by intros [? _]%andb_prop. Qed.

Lemma plain_nonempty (c : string) : plain c = true → c ≠ "".
Proof. by intros H ->. Qed.

Lemma push_plain (st : list string) (c : string) :
  plain c = true → Fs.push st c = st ++ [c].
Proof.
  unfold plain, Fs.push. intros [_ H]%andb_prop.
  apply negb_true_iff, bool_decide_eq_false in H.
  rewrite (bool_decide_eq_false_2 (c = "" ∨ c = ".")) by tauto.
  rewrite (bool_decide_eq_false_2 (c = "..")) by tauto. done.
Qed.

Lemma push_empty (st : list string) : Fs.push st "" = st.
Proof. done. Qed.

Lemma resolve_dir_app (d y : string) :
  d = "" ∨ endswith_slash d = true → no_slash y = true →
  Fs.resolve (d +:+ y) = Fs.push (Fs.resolve d) y.
Proof.
  intros Hd Hy. destruct (split_slash_dir d y Hd Hy) as (l & H1 & H2).
  unfold Fs.resolve, Fs.root_of. rewrite H1, H2, !fold_left_app. simpl.
  destruct Hd as [->|Hd].
  - by rewrite sapp_nil_l, no_slash_startswith.
  - rewrite startswith_slash_app; [done|]. by intros ->.
Qed.

Lemma names_dir_dir_app (d y : string) :
  d = "" ∨ endswith_slash d = true → no_slash y = true →
  Fs.names_dir (d +:+ y) = bool_decide (y = "" ∨ y = "." ∨ y = "..").
Proof.
  intros Hd Hy. destruct (split_slash_dir d y Hd Hy) as (l & _ & H2).
  unfold Fs.names_dir. by rewrite H2, last_snoc.
Qed.

Lemma resolve_app_slash (a : string) :
  a ≠ "" → Fs.resolve (a +:+ "/") = Fs.resolve a.
Proof.
  intros Ha. unfold Fs.resolve, Fs.root_of. change "/" with (String slash "").
  rewrite split_slash_app_slash, fold_left_app, startswith_slash_app by done.
  done.
Qed.

Lemma resolve_join_prefix (a : string) : Fs.resolve (join_prefix a) = Fs.resolve a.
Proof.
  unfold join_prefix. destruct (bool_decide (a = "")) eqn:E; simpl; [done|].
  destruct (endswith_slash a); [done|].
  apply resolve_app_slash. by apply bool_decide_eq_false in E.
Qed.

(** The file [y] of directory [a], and every name that extends it. *)
Lemma resolve_join_app (a y z : string) :
  no_slash y = true → plain (y +:+ z) = true →
  Fs.resolve (join a y +:+ z) = Fs.resolve a ++ [y +:+ z].
Proof.
  intros Hy Hp. rewrite join_eq by by apply no_slash_startswith.
  rewrite sapp_assoc, resolve_dir_app, resolve_join_prefix.
  - by apply push_plain.
  - apply join_prefix_dir.
  - by apply plain_no_slash.
Qed.

Lemma resolve_join (a y : string) :
  plain y = true → Fs.resolve (join a y) = Fs.resolve a ++ [y].
Proof.
  intros Hp. pose proof (resolve_join_app a y "") as H.
  rewrite !sapp_nil_r in H. apply H; [by apply plain_no_slash|done].
Qed.

Lemma names_dir_join_app (a y z : string) :
  no_slash y = true → plain (y +:+ z) = true →
  Fs.names_dir (join a y +:+ z) = false.
Proof.
  intros Hy Hp. rewrite join_eq by by apply no_slash_startswith.
  rewrite sapp_assoc, names_dir_dir_app.
  - unfold plain in Hp. apply andb_prop in Hp as [_ Hp].
    by apply negb_true_iff in Hp.
  - apply join_prefix_dir.
  - by apply plain_no_slash.
Qed.

Lemma join_nonempty (a y z : string) : y +:+ z ≠ "" → join a y +:+ z ≠ "".
Proof.
  intros H E. unfold join in E.
  repeat case_match; rewrite ?sapp_assoc in E;
    repeat (apply sapp_eq_nil in E as [? E]); simplify_eq; try done.
  all: by destruct y.
Qed.

Lemma join_not_endswith (a y : string) :
  y ≠ "" → no_slash y = true → endswith_slash (join a y) = false.
Proof.
  intros Hy Hn. rewrite join_eq by by apply no_slash_startswith.
  by apply endswith_slash_app_noslash.
Qed.

Lemma dirname_join (a y : string) :
  a ≠ "" → endswith_slash a = false → no_slash y = true →
  dirname (join a y) = a.
Proof.
  intros Ha He Hy. rewrite join_eq by by apply no_slash_startswith.
  unfold dirname. rewrite rsplit_dir by (done || apply join_prefix_dir). simpl.
  unfold join_prefix. rewrite He.
  rewrite (bool_decide_eq_false_2 (a = "")) by done. simpl.
  rewrite all_slashes_app, andb_true_r.
  destruct (all_slashes a) eqn:Es.
  { by rewrite all_slashes_endswith in He. }
  destruct (bool_decide (a +:+ "/" = "")) eqn:E.
  { apply bool_decide_eq_true in E. by apply sapp_eq_nil in E as [? _]. }
  simpl. by rewrite rstrip_slash_app_slash, rstrip_slash_id.
Qed.

Example join_examples :
  join "out" "000" = "out/000" ∧ join "out/" "000" = "out/000"
  ∧ join "out/000" "" = "out/000/" ∧ join "" "x" = "x" ∧ join "out" "/x" = "/x".
Proof. repeat split. Qed.

Example basename_examples :
  basename "http://h.org/a/b.pdf" = "b.pdf" ∧ basename "http://h.org/a/" = ""
  ∧ basename "http://h.org/a.pdf?x=1" = "a.pdf?x=1".
Proof. repeat split. Qed.

Example dirname_examples :
  dirname "out/000/b.pdf" = "out/000" ∧ dirname "out/000/" = "out/000"
  ∧ dirname "/x" = "/" ∧ dirname "x" = "".
Proof. repeat split. Qed.

Example resolve_examples :
  Fs.resolve "out//000/./b.pdf" = ["out"; "000"; "b.pdf"]
  ∧ Fs.resolve "/out/000/.." = ["/"; "out"]
  ∧ Fs.resolve "out/000/" = ["out"; "000"].
Proof. repeat split. Qed.

End PathFacts.

Section DecimalFacts.
Import Str.

Lemma all_chars_app (P : ascii → bool) (a b : string) :
  all_chars P (a +:+ b) = all_chars P a && all_chars P b.
Proof.
  induction a as [|c a IH]; [done|]. rewrite sapp_cons. simpl.
  by rewrite IH, andb_assoc.
Qed.

Lemma all_chars_impl (P Q : ascii → bool) (s : string) :
  (∀ c, P c = true → Q c = true) → all_chars P s = true → all_chars Q s = true.
Proof.
  intros HPQ. induction s as [|c s IH]; [done|]. simpl.
  intros [Hc Hs]%andb_prop. by rewrite (HPQ c Hc), IH.
Qed.

Lemma all_chars_zeros (n : nat) : all_chars is_digit (zeros n) = true.
Proof. induction n as [|n IH]; [done|]. simpl. by rewrite IH. Qed.

Lemma pretty_N_char_digit (x : N) : is_digit (pretty_N_char x) = true.
Proof. unfold pretty_N_char. by repeat case_match. Qed.

Lemma pretty_N_char_value (x : N) : (x < 10)%N → digit_value (pretty_N_char x) = x.
Proof.
  intros Hx.
  assert (x = 0 ∨ x = 1 ∨ x = 2 ∨ x = 3 ∨ x = 4 ∨ x = 5 ∨ x = 6 ∨ x = 7
          ∨ x = 8 ∨ x = 9)%N as Hc by lia.
  repeat (destruct Hc as [->|Hc]; [done|]). by subst.
Qed.

Lemma pretty_N_go_digits (x : N) (s : string) :
  all_chars is_digit s = true → all_chars is_digit (pretty_N_go x s) = true.
Proof.
  revert s. induction (N.lt_wf_0 x) as [x _ IH]; intros s Hs.
  destruct (decide (x = 0)%N) as [->|Hx]; [by rewrite pretty_N_go_0|].
  rewrite pretty_N_go_step by lia. apply IH.
  - apply N.div_lt; lia.
  - simpl. by rewrite pretty_N_char_digit.
Qed.

Lemma pretty_N_go_length (x : N) (s : string) :
  (String.length s ≤ String.length (pretty_N_go x s))%nat.
Proof.
  revert s. induction (N.lt_wf_0 x) as [x _ IH]; intros s.
  destruct (decide (x = 0)%N) as [->|Hx]; [by rewrite pretty_N_go_0|].
  rewrite pretty_N_go_step by lia.
  etrans; [|apply IH; apply N.div_lt; lia]. simpl. lia.
Qed.

Lemma pretty_N_go_value (x : N) (s : string) :
  decimal_value (pretty_N_go x s)
  = (x * 10 ^ N.of_nat (String.length s) + decimal_value s)%N.
Proof.
  revert s. induction (N.lt_wf_0 x) as [x _ IH]; intros s.
  destruct (decide (x = 0)%N) as [->|Hx]; [by rewrite pretty_N_go_0|].
  rewrite pretty_N_go_step by lia. rewrite IH by (apply N.div_lt; lia).
  simpl String.length. simpl decimal_value.
  rewrite pretty_N_char_value by (apply N.mod_lt; lia).
  rewrite Nat2N.inj_succ, N.pow_succ_r'.
  rewrite (N.div_mod x 10) at 3 by lia. lia.
Qed.

Lemma pretty_N_digits (x : N) : all_chars is_digit (pretty x) = true.
Proof.
  unfold pretty, pretty_N. case_decide; [done|]. by apply pretty_N_go_digits.
Qed.

Lemma pretty_N_value (x : N) : decimal_value (pretty x) = x.
Proof.
  unfold pretty, pretty_N. case_decide; [by subst|].
  rewrite pretty_N_go_value. simpl. lia.
Qed.

Lemma pretty_N_nonempty (x : N) : pretty x ≠ "".
Proof.
  intros E. pose proof (pretty_N_value x) as H. rewrite E in H. simpl in H.
  subst x. done.
Qed.

Lemma str_nonneg (n : Z) : 0 ≤ n → str n = pretty (Z.to_N n).
Proof. intros Hn. unfold str. destruct n as [|p|p]; [done|done|lia]. Qed.

Lemma str_digits (n : Z) : 0 ≤ n → all_chars is_digit (str n) = true.
Proof. intros Hn. rewrite str_nonneg by done. apply pretty_N_digits. Qed.

Lemma str_stamp (n : Z) : all_chars is_stamp_char (str n) = true.
Proof.
  assert (∀ x : N, all_chars is_stamp_char (pretty x) = true) as HN.
  { intros x. apply (all_chars_impl is_digit); [|apply pretty_N_digits].
    intros c Hc. unfold is_stamp_char. by rewrite Hc. }
  unfold str. destruct n as [|p|p]; [done|apply (HN (N.pos p))|].
  change (pretty (Z.neg p)) with ("-" +:+ pretty (N.pos p)).
  rewrite all_chars_app, (HN (N.pos p)). done.
Qed.

Lemma str_length_ge_3 (n : Z) : 100 ≤ n → (3 ≤ String.length (str n))%nat.
Proof.
  intros Hn. rewrite str_nonneg by lia. unfold pretty, pretty_N.
  case_decide; [lia|]. set (x := Z.to_N n). assert (100 ≤ x)%N by lia.
  assert (0 < x `div` 10)%N by (apply N.div_str_pos; lia).
  assert (0 < (x `div` 10) `div` 10)%N.
  { apply N.div_str_pos. split; [lia|]. apply N.div_le_lower_bound; lia. }
  rewrite 3!pretty_N_go_step by lia.
  etrans; [|apply pretty_N_go_length]. simpl. lia.
Qed.

Lemma zeros_length (n : nat) : String.length (zeros n) = n.
Proof. induction n as [|n IH]; [done|]. simpl. by rewrite IH. Qed.

Lemma zeros_value (n : nat) (s : string) :
  decimal_value (zeros n +:+ s) = decimal_value s.
Proof. induction n as [|n IH]; [done|]. simpl zeros. rewrite sapp_cons. simpl. by rewrite IH. Qed.

(** A string without a sign is padded on the left. *)
Lemma zfill_digits (w : nat) (s : string) :
  all_chars is_digit s = true →
  zfill w s = zeros (w - String.length s) +:+ s.
Proof.
  intros Hs. unfold zfill. case_decide as Hw.
  - by replace (w - String.length s)%nat with 0%nat by lia.
  - destruct s as [|c r]; [by rewrite sapp_nil_r|].
    simpl in Hs. apply andb_prop in Hs as [Hc _].
    rewrite bool_decide_eq_false_2; [done|].
    intros [->| ->]; done.
Qed.

Lemma zfill_length (w : nat) (s : string) : (w ≤ String.length (zfill w s))%nat.
Proof.
  unfold zfill. case_decide as Hw; [done|].
  destruct s as [|c r]; [by rewrite zeros_length; simpl; lia|].
  case_bool_decide; simpl; rewrite ?slength_app, zeros_length; simpl; lia.
Qed.

Lemma zfill_stamp (w : nat) (s : string) :
  all_chars is_stamp_char s = true → all_chars is_stamp_char (zfill w s) = true.
Proof.
  intros Hs. unfold zfill. case_decide as Hw; [done|].
  assert (∀ n, all_chars is_stamp_char (zeros n) = true) as Hz.
  { intros n. apply (all_chars_impl is_digit); [|apply all_chars_zeros].
    intros c Hc. unfold is_stamp_char. by rewrite Hc. }
  destruct s as [|c r]; [apply Hz|].
  simpl in Hs. apply andb_prop in Hs as [Hc Hr].
  case_bool_decide; simpl; rewrite ?all_chars_app, ?Hz, ?Hc, ?Hr; simpl;
    rewrite ?Hc, ?Hr; done.
Qed.

Lemma stamp_no_slash (s : string) : all_chars is_stamp_char s = true → no_slash s = true.
Proof.
  induction s as [|c s IH]; [done|]. simpl. intros [Hc Hs]%andb_prop.
  rewrite IH by done. rewrite andb_true_r.
  unfold is_slash. apply negb_true_iff, bool_decide_eq_false. by intros ->.
Qed.

Lemma stamp_plain (s : string) :
  all_chars is_stamp_char s = true → s ≠ "" → plain s = true.
Proof.
  intros Hs Hne. unfold plain. rewrite stamp_no_slash by done. simpl.
  apply negb_true_iff, bool_decide_eq_false. intros [->|[->| ->]]; done.
Qed.

(** The index string of the three writers. *)
Lemma index_plain (n : Z) : plain (zfill 3 (str n)) = true.
Proof.
  apply stamp_plain; [apply zfill_stamp, str_stamp|].
  intros E. pose proof (zfill_length 3 (str n)) as H. rewrite E in H. simpl in H. lia.
Qed.

Lemma index_value (n : Z) : 0 ≤ n → decimal_value (zfill 3 (str n)) = Z.to_N n.
Proof.
  intros Hn. rewrite zfill_digits by by apply str_digits.
  rewrite zeros_value, str_nonneg by done. apply pretty_N_value.
Qed.

Lemma index_inj (a b : Z) :
  0 ≤ a → 0 ≤ b → zfill 3 (str a) = zfill 3 (str b) → a = b.
Proof.
  intros Ha Hb E. apply (f_equal decimal_value) in E.
  rewrite !index_value in E by done. lia.
Qed.

Example zfill_7 : zfill 3 (str 7) = "007".
Proof. reflexivity. Qed.

Example zfill_999 : zfill 3 (str 999) = "999".
Proof. reflexivity. Qed.

Example zfill_1000 : zfill 3 (str 1000) = "1000".
Proof. reflexivity. Qed.

Example zfill_negative : zfill 3 (str (-5)) = "-05".
Proof. reflexivity. Qed.

End DecimalFacts.

Section FsFacts.
Import Str OsPath.
Implicit Types (m : gmap (list string) node) (k stack comps : list string).

Lemma is_dir_mono m m' k :
  (∀ k' v, m !! k' = Some v → m' !! k' = Some v) →
  Fs.is_dir m k = true → Fs.is_dir m' k = true.
Proof.
  intros Hmono. unfold Fs.is_dir. destruct (Fs.implicit_dir k); [done|]. simpl.
  destruct (m !! k) as [[|d]|] eqn:E; try done. by rewrite (Hmono _ _ E).
Qed.

Lemma is_dir_insert_dir m k : Fs.is_dir (<[k := Dir]> m) k = true.
Proof. unfold Fs.is_dir. rewrite lookup_insert_eq. apply orb_true_r. Qed.

Lemma is_dir_insert_ne m k k' (v : node) :
  k' ≠ k → Fs.is_dir (<[k := v]> m) k' = Fs.is_dir m k'.
Proof. intros Hne. unfold Fs.is_dir. by rewrite lookup_insert_ne. Qed.

Lemma is_dir_false_not_dir m k : Fs.is_dir m k = false → m !! k ≠ Some Dir.
Proof. unfold Fs.is_dir. intros [_ H]%orb_false_elim E. by rewrite E in H. Qed.

(** A file written where no directory is leaves every directory there. *)
Lemma is_dir_insert_file m k (d : string) k' :
  Fs.is_dir m k = false → Fs.is_dir m k' = true →
  Fs.is_dir (<[k := File d]> m) k' = true.
Proof.
  intros Hk Hk'. rewrite is_dir_insert_ne; [done|]. intros ->. congruence.
Qed.

Lemma implicit_dir_take k (i : nat) :
  Fs.implicit_dir k = true → Fs.implicit_dir (take i k) = true.
Proof.
  unfold Fs.implicit_dir. revert i. induction k as [|c k IH]; intros [|i]; simpl; try done.
  intros [Hc Hk]%andb_prop. by rewrite Hc, IH.
Qed.

Lemma implicit_dir_app k k' :
  Fs.implicit_dir (k ++ k') = Fs.implicit_dir k && Fs.implicit_dir k'.
Proof. unfold Fs.implicit_dir. apply forallb_app. Qed.

(** ** Names and their limits *)

Lemma has_nul_app (a b : string) : Fs.has_nul (a +:+ b) = Fs.has_nul a || Fs.has_nul b.
Proof.
  induction a as [|c a IH]; [done|]. rewrite sapp_cons. simpl.
  by rewrite IH, orb_assoc.
Qed.

Lemma has_nul_split (p : string) : Fs.has_nul p = existsb Fs.has_nul (split_slash p).
Proof.
  induction p as [|c p IH]; [done|]. simpl.
  destruct (is_slash c) eqn:E.
  - simpl. rewrite <-IH. unfold is_slash, slash in E. apply bool_decide_eq_true in E.
    by subst c.
  - pose proof (split_slash_nonempty p) as Hne.
    destruct (split_slash p) as [|h t]; [done|]. simpl in *.
    by rewrite IH, orb_assoc.
Qed.

Lemma name_error_None (c : string) :
  Fs.name_error c = None ↔ Fs.has_nul c = false ∧ Fs.too_long c = false.
Proof.
  unfold Fs.name_error.
  destruct (Fs.has_nul c), (Fs.too_long c); split; try done; by intros [? ?].
Qed.

Lemma path_error_comps (p : string) :
  Forall (λ c, Fs.name_error c = None) (split_slash p) → Fs.path_error p = None.
Proof.
  intros H. unfold Fs.path_error. rewrite has_nul_split.
  assert (existsb Fs.has_nul (split_slash p) = false
          ∧ existsb Fs.too_long (split_slash p) = false) as [-> ->]; [|done].
  induction H as [|c l Hc _ [IH1 IH2]]; [done|]. simpl.
  apply name_error_None in Hc as [-> ->]. by rewrite IH1, IH2.
Qed.

(** Below a directory whose path is accepted, only the new name counts. *)
Lemma path_error_dir_app (d x : string) :
  d = "" ∨ endswith_slash d = true → no_slash x = true →
  Fs.path_error d = None → Fs.path_error (d +:+ x) = Fs.name_error x.
Proof.
  intros Hd Hx Hp. destruct (split_slash_dir d x Hd Hx) as (l & H1 & H2).
  unfold Fs.path_error in *. rewrite has_nul_app, H2. rewrite H1 in Hp.
  rewrite !existsb_app in *. simpl in *. rewrite !orb_false_r in *.
  unfold Fs.name_error.
  destruct (Fs.has_nul d); [done|]. simpl.
  destruct (existsb Fs.too_long l); [by destruct (Fs.too_long "")|]. simpl.
  by destruct (Fs.has_nul x), (Fs.too_long x).
Qed.

Lemma path_error_join_prefix (a : string) :
  Fs.path_error a = None → Fs.path_error (join_prefix a) = None.
Proof.
  intros Hp. unfold join_prefix.
  destruct (bool_decide (a = "") || endswith_slash a); [done|].
  unfold Fs.path_error in *. rewrite has_nul_app. change "/" with (String slash "").
  rewrite split_slash_app_slash, existsb_app. simpl.
  destruct (Fs.has_nul a); [done|]. simpl.
  by destruct (existsb Fs.too_long (split_slash a)).
Qed.

Lemma path_error_join_app (a y z : string) :
  no_slash y = true → no_slash z = true → Fs.path_error a = None →
  Fs.path_error (join a y +:+ z) = Fs.name_error (y +:+ z).
Proof.
  intros Hy Hz Hp. rewrite join_eq by by apply no_slash_startswith.
  rewrite sapp_assoc. apply path_error_dir_app.
  - apply join_prefix_dir.
  - by rewrite no_slash_app, Hy, Hz.
  - by apply path_error_join_prefix.
Qed.

Lemma path_fits_error (p : string) : Fs.path_fits p = true → Fs.path_error p = None.
Proof. unfold Fs.path_fits. by intros [?%bool_decide_eq_true _]%andb_prop. Qed.

(** ** The walk *)

Lemma push_name stack (c : string) :
  ¬ (c = "" ∨ c = "." ∨ c = "..") → Fs.push stack c = stack ++ [c].
Proof.
  intros H. unfold Fs.push.
  rewrite (bool_decide_eq_false_2 (c = "" ∨ c = ".")) by tauto.
  by rewrite (bool_decide_eq_false_2 (c = "..")) by tauto.
Qed.

Lemma push_stay stack (c : string) : c = "" ∨ c = "." → Fs.push stack c = stack.
Proof. intros H. unfold Fs.push. by rewrite bool_decide_eq_true_2. Qed.

Lemma settled_root (p : string) : settled (Fs.root_of p).
Proof.
  exists (Fs.root_of p), []. rewrite app_nil_r. split; [done|]. split; [|done].
  unfold Fs.root_of. by destruct (startswith_slash p).
Qed.

Lemma dirs_to_root m (p : string) : dirs_to m (Fs.root_of p).
Proof.
  intros i. unfold Fs.is_dir. rewrite implicit_dir_take; [done|].
  unfold Fs.root_of. by destruct (startswith_slash p).
Qed.

Lemma dirs_to_mono m m' stack :
  (∀ k v, m !! k = Some v → m' !! k = Some v) → dirs_to m stack → dirs_to m' stack.
Proof. intros Hm H i. by eapply is_dir_mono. Qed.

Lemma dirs_to_snoc m stack (c : string) :
  dirs_to m stack → Fs.is_dir m (stack ++ [c]) = true → dirs_to m (stack ++ [c]).
Proof.
  intros H Hc i. destruct (decide (i ≤ length stack)%nat) as [Hle|Hgt].
  - rewrite take_app_le by done. apply H.
  - rewrite take_ge; [done|]. rewrite length_app. simpl. lia.
Qed.

Lemma dirs_to_top m stack : dirs_to m stack → Fs.is_dir m stack = true.
Proof. intros H. specialize (H (length stack)). by rewrite firstn_all in H. Qed.

Lemma settled_push stack (c : string) : settled stack → settled (Fs.push stack c).
Proof.
  intros (a & b & -> & Ha & Hb). unfold Fs.push.
  case_bool_decide as H1; [by exists a, b|].
  case_bool_decide as H2.
  - destruct (last (a ++ b)) as [l|] eqn:El.
    + case_bool_decide as Hl1; [by exists a, b|].
      case_bool_decide as Hl2.
      * subst l. destruct b as [|x b _] using rev_ind.
        -- rewrite app_nil_r in *. exists (a ++ [".."]), []. rewrite app_nil_r.
           split; [done|]. split; [|done]. by rewrite implicit_dir_app, Ha.
        -- rewrite app_assoc, last_snoc in El. simplify_eq.
           apply Forall_app in Hb as [_ Hx]. by inversion Hx.
      * destruct b as [|x b _] using rev_ind.
        -- rewrite app_nil_r in *. exfalso.
           destruct a as [|y a _] using rev_ind; [done|].
           rewrite last_snoc in El. simplify_eq.
           rewrite implicit_dir_app in Ha. apply andb_prop in Ha as [_ Ha].
           simpl in Ha. rewrite andb_true_r in Ha. apply bool_decide_eq_true in Ha.
           tauto.
        -- rewrite app_assoc, removelast_last. exists a, b.
           split; [done|]. split; [done|]. by apply Forall_app in Hb as [? _].
    + exists [".."], []. done.
  - exists a, (b ++ [c]). rewrite app_assoc. split; [done|]. split; [done|].
    apply Forall_app. split; [done|]. by constructor.
Qed.

(** Going up from a directory that exists, with its parents, ends in one. *)
Lemma dirs_to_up m stack : settled stack → dirs_to m stack → dirs_to m (Fs.push stack "..").
Proof.
  intros (a & b & -> & Ha & Hb) H. unfold Fs.push. simpl.
  destruct (last (a ++ b)) as [l|] eqn:El.
  - case_bool_decide as Hl1; [done|].
    case_bool_decide as Hl2.
    + subst l. destruct b as [|x b _] using rev_ind.
      * rewrite app_nil_r in *. intros i. unfold Fs.is_dir.
        rewrite implicit_dir_take; [done|]. by rewrite implicit_dir_app, Ha.
      * rewrite app_assoc, last_snoc in El. simplify_eq.
        apply Forall_app in Hb as [_ Hx]. by inversion Hx.
    + intros i. destruct (a ++ b) as [|x l0 _] using rev_ind; [done|].
      rewrite removelast_last.
      destruct (decide (i ≤ length l0)%nat) as [Hle|Hgt].
      * specialize (H i). by rewrite take_app_le in H.
      * rewrite take_ge by lia. specialize (H (length l0)).
        by rewrite take_app_length in H.
  - intros i. unfold Fs.is_dir. by rewrite implicit_dir_take.
Qed.

Lemma walk_error_app m (l1 l2 : list string) : ∀ stack,
  Fs.walk_error m stack (l1 ++ l2)
  = match Fs.walk_error m stack l1 with
    | Some e => Some e
    | None => Fs.walk_error m (fold_left Fs.push l1 stack) l2
    end.
Proof.
  induction l1 as [|c l1 IH]; intros stack; simpl; [done|].
  destruct (bool_decide (c = "..") && negb (Fs.is_dir m stack)); [done|]. apply IH.
Qed.

Lemma walk_error_last m (l : list string) (c : string) stack :
  c ≠ ".." → Fs.walk_error m stack (l ++ [c]) = Fs.walk_error m stack l.
Proof.
  intros Hc. rewrite walk_error_app. destruct (Fs.walk_error m stack l); [done|].
  simpl. by rewrite (bool_decide_eq_false_2 (c = "..")).
Qed.

Lemma walk_error_mono m m' comps : ∀ stack,
  (∀ k, Fs.is_dir m k = true → Fs.is_dir m' k = true) →
  Fs.walk_error m stack comps = None → Fs.walk_error m' stack comps = None.
Proof.
  induction comps as [|c comps IH]; intros stack Hm; simpl; [done|].
  destruct (bool_decide (c = "..")); simpl; [|by apply IH].
  destruct (Fs.is_dir m stack) eqn:E; simpl; [|done].
  rewrite (Hm _ E). simpl. by apply IH.
Qed.

Lemma root_of_join_prefix (a x : string) :
  no_slash x = true → Fs.root_of (join_prefix a +:+ x) = Fs.root_of a.
Proof.
  intros Hx. unfold Fs.root_of, join_prefix.
  destruct (bool_decide (a = "")) eqn:E; simpl.
  - apply bool_decide_eq_true in E as ->. by rewrite sapp_nil_l, no_slash_startswith.
  - apply bool_decide_eq_false in E.
    destruct (endswith_slash a); [by rewrite startswith_slash_app|].
    rewrite sapp_assoc. by rewrite startswith_slash_app.
Qed.

(** The walk to a name below a directory is the walk to the directory. *)
Lemma walk_error_join_app m (a y z : string) :
  no_slash y = true → plain (y +:+ z) = true →
  Fs.walk_error m (Fs.root_of (join a y +:+ z)) (split_slash (join a y +:+ z))
  = Fs.walk_error m (Fs.root_of a) (split_slash a).
Proof.
  intros Hy Hp. pose proof (plain_no_slash _ Hp) as Hn.
  rewrite join_eq by by apply no_slash_startswith.
  rewrite sapp_assoc, root_of_join_prefix by done.
  destruct (split_slash_dir (join_prefix a) (y +:+ z) (join_prefix_dir a) Hn)
    as (l & H1 & H2).
  rewrite H2, walk_error_last.
  2:{ intros E. by rewrite E in Hp. }
  unfold join_prefix in H1.
  destruct (bool_decide (a = "") || endswith_slash a).
  - rewrite H1. by rewrite walk_error_last.
  - change "/" with (String slash "") in H1.
    rewrite split_slash_app_slash in H1. simpl in H1.
    apply app_inj_tail in H1 as [-> _]. done.
Qed.

(** ** [makedirs] *)

Lemma mkdir_walk_mono comps : ∀ stack m e m',
  Fs.mkdir_walk stack comps m = (e, m') →
  ∀ k v, m !! k = Some v → m' !! k = Some v.
Proof.
  induction comps as [|c comps IH]; intros stack m e m' H k v Hk; simpl in H.
  { by simplify_eq. }
  case_bool_decide; [by eapply IH|].
  destruct (Fs.name_error c); [by simplify_eq|].
  destruct (m !! (stack ++ [c])) as [[|d]|] eqn:E.
  - by eapply IH.
  - by simplify_eq.
  - eapply IH; [done|]. rewrite lookup_insert_ne; [done|]. by intros <-; simplify_eq.
Qed.

(** [makedirs] makes directories only, and only where nothing was. *)
Lemma mkdir_walk_new comps : ∀ stack m e m',
  Fs.mkdir_walk stack comps m = (e, m') →
  ∀ k, m' !! k ≠ m !! k → m !! k = None ∧ m' !! k = Some Dir.
Proof.
  induction comps as [|c comps IH]; intros stack m e m' H k Hk; simpl in H.
  { by simplify_eq. }
  case_bool_decide; [by eapply IH|].
  destruct (Fs.name_error c); [by simplify_eq|].
  destruct (m !! (stack ++ [c])) as [[|d]|] eqn:E.
  - by eapply IH.
  - by simplify_eq.
  - destruct (decide (k = stack ++ [c])) as [->|Hne].
    + split; [done|]. eapply mkdir_walk_mono; [done|]. apply lookup_insert_eq.
    + rewrite <-(lookup_insert_ne m (stack ++ [c]) k Dir) by done.
      eapply IH; [done|]. by rewrite lookup_insert_ne.
Qed.

Lemma mkdir_walk_names comps : ∀ stack m m',
  Fs.mkdir_walk stack comps m = (None, m') →
  Forall (λ c, Fs.name_error c = None) comps.
Proof.
  induction comps as [|c comps IH]; intros stack m m' H; simpl in H; [done|].
  case_bool_decide as Hc.
  { constructor; [|by eapply IH]. by destruct Hc as [->|[->| ->]]. }
  destruct (Fs.name_error c) eqn:En; [done|]. constructor; [done|].
  destruct (m !! (stack ++ [c])) as [[|d]|]; [by eapply IH|done|by eapply IH].
Qed.

(** After a successful [makedirs] every directory of the walk exists, so
    the same walk succeeds. *)
Lemma mkdir_walk_reach comps : ∀ stack m m',
  Fs.mkdir_walk stack comps m = (None, m') →
  settled stack → dirs_to m stack →
  dirs_to m' (fold_left Fs.push comps stack)
  ∧ Fs.walk_error m' stack comps = None.
Proof.
  induction comps as [|c comps IH]; intros stack m m' H Hs Hd; simpl in H.
  { by simplify_eq. }
  simpl. case_bool_decide as Hc.
  - destruct (IH _ _ _ H (settled_push _ c Hs)) as (Hd' & Hw').
    { destruct Hc as [->|[->| ->]]; [done|done|by apply dirs_to_up]. }
    split; [done|].
    rewrite (is_dir_mono m m' stack (mkdir_walk_mono _ _ _ _ _ H)) by by apply dirs_to_top.
    by rewrite andb_false_r.
  - rewrite (push_name _ _ Hc) in *.
    rewrite (bool_decide_eq_false_2 (c = "..")) by tauto. simpl.
    pose proof (settled_push stack c Hs) as Hs'. rewrite (push_name _ _ Hc) in Hs'.
    destruct (Fs.name_error c); [done|].
    destruct (m !! (stack ++ [c])) as [[|d]|] eqn:E; [|done|].
    + apply (IH _ _ _ H Hs'). apply dirs_to_snoc; [done|].
      unfold Fs.is_dir. by rewrite E, orb_true_r.
    + apply (IH _ _ _ H Hs'). apply dirs_to_snoc; [|apply is_dir_insert_dir].
      eapply dirs_to_mono; [|done]. intros k v Hk.
      rewrite lookup_insert_ne; [done|]. by intros <-; simplify_eq.
Qed.

Lemma mkdir_walk_idem comps : ∀ stack m m',
  Fs.mkdir_walk stack comps m = (None, m') →
  Fs.mkdir_walk stack comps m' = (None, m').
Proof.
  induction comps as [|c comps IH]; intros stack m m' H; simpl in *; [done|].
  case_bool_decide; [by eapply IH|].
  destruct (Fs.name_error c); [done|].
  destruct (m !! (stack ++ [c])) as [[|d]|] eqn:E.
  - rewrite (mkdir_walk_mono _ _ _ _ _ H _ _ E). by eapply IH.
  - done.
  - rewrite (mkdir_walk_mono _ _ _ _ _ H (stack ++ [c]) Dir) by apply lookup_insert_eq.
    by eapply IH.
Qed.

(** A walk that finds every directory there is not disturbed by a file
    written where no directory is. *)
Lemma mkdir_walk_insert_file comps : ∀ stack m k (d : string),
  Fs.mkdir_walk stack comps m = (None, m) → m !! k ≠ Some Dir →
  Fs.mkdir_walk stack comps (<[k := File d]> m) = (None, <[k := File d]> m).
Proof.
  induction comps as [|c comps IH]; intros stack m k d H Hk; simpl in *; [done|].
  case_bool_decide; [by apply IH|].
  destruct (Fs.name_error c); [done|].
  destruct (m !! (stack ++ [c])) as [[|d']|] eqn:E.
  - rewrite lookup_insert_ne by (intros ->; congruence). rewrite E. by apply IH.
  - done.
  - pose proof (mkdir_walk_mono _ _ _ _ _ H (stack ++ [c]) Dir) as Hm.
    rewrite lookup_insert_eq in Hm. specialize (Hm eq_refl). congruence.
Qed.

Lemma fold_push_prefix comps : ∀ stack,
  forallb (λ c, negb (bool_decide (c = ".."))) comps = true →
  ∃ l, fold_left Fs.push comps stack = stack ++ l.
Proof.
  induction comps as [|c comps IH]; intros stack; simpl.
  { intros _. exists []. by rewrite app_nil_r. }
  intros [Hc H]%andb_prop. apply negb_true_iff, bool_decide_eq_false in Hc.
  destruct (decide (c = "" ∨ c = ".")) as [Hs|Hn].
  - rewrite push_stay by done. by apply IH.
  - rewrite push_name by tauto. destruct (IH (stack ++ [c]) H) as (l & ->).
    exists (c :: l). by rewrite <-app_assoc.
Qed.

(** Without [..], the directories made are on the way to the target. *)
Lemma mkdir_walk_way comps : ∀ stack m e m',
  forallb (λ c, negb (bool_decide (c = ".."))) comps = true →
  Fs.mkdir_walk stack comps m = (e, m') →
  ∀ k, m' !! k ≠ m !! k →
  ∃ i, (length stack < i ≤ length (fold_left Fs.push comps stack))%nat
       ∧ k = take i (fold_left Fs.push comps stack).
Proof.
  induction comps as [|c comps IH]; intros stack m e m' Hno H k Hk; simpl in H.
  { by simplify_eq. }
  simpl in Hno. apply andb_prop in Hno as [Hc Hno].
  apply negb_true_iff, bool_decide_eq_false in Hc. simpl.
  case_bool_decide as Hs.
  { rewrite push_stay in * by tauto. by eapply IH. }
  rewrite push_name in * by done.
  assert (∀ m0, Fs.mkdir_walk (stack ++ [c]) comps m0 = (e, m') → m' !! k ≠ m0 !! k →
            ∃ i, (length stack < i ≤ length (fold_left Fs.push comps (stack ++ [c])))%nat
                 ∧ k = take i (fold_left Fs.push comps (stack ++ [c]))) as Hstep.
  { intros m0 H0 Hne. destruct (IH _ _ _ _ Hno H0 k Hne) as (i & Hi & ->).
    exists i. split; [|done]. rewrite length_app in Hi. simpl in Hi. lia. }
  destruct (Fs.name_error c); [by simplify_eq|].
  destruct (m !! (stack ++ [c])) as [[|d]|] eqn:E.
  - by apply (Hstep m).
  - by simplify_eq.
  - destruct (decide (k = stack ++ [c])) as [->|Hne].
    + destruct (fold_push_prefix comps (stack ++ [c]) Hno) as (l & ->).
      exists (S (length stack)). rewrite !length_app. simpl. split; [lia|].
      rewrite <-app_assoc.
      replace (S (length stack)) with (length (stack ++ [c]))
        by (rewrite length_app; simpl; lia).
      by rewrite app_assoc, take_app_length.
    + apply Hstep with (m0 := <[stack ++ [c] := Dir]> m); [done|].
      by rewrite lookup_insert_ne.
Qed.

(** What a successful [os.makedirs(p, exist_ok=True)] leaves. *)
Lemma makedirs_ok (p : string) (w w1 : world) :
  Fs.makedirs p w = (Return tt, w1) →
  p ≠ "" ∧ trace w1 = trace w
  ∧ Fs.is_dir (fs w1) (Fs.resolve p) = true
  ∧ (∀ k v, fs w !! k = Some v → fs w1 !! k = Some v)
  ∧ (∀ k, fs w1 !! k ≠ fs w !! k → fs w !! k = None ∧ fs w1 !! k = Some Dir)
  ∧ Fs.makedirs p w1 = (Return tt, w1).
Proof.
  unfold Fs.makedirs. case_bool_decide as Hp; [done|].
  destruct (Fs.mkdir_walk (Fs.root_of p) (split_slash p) (fs w)) as [[e|] m] eqn:E; [done|].
  intros [= <-]. simpl. split_and!; try done.
  - apply dirs_to_top.
    by apply (mkdir_walk_reach _ _ _ _ E (settled_root p) (dirs_to_root _ p)).
  - by apply (mkdir_walk_mono _ _ _ _ _ E).
  - by apply (mkdir_walk_new _ _ _ _ _ E).
  - by rewrite (mkdir_walk_idem _ _ _ _ E).
Qed.

Lemma makedirs_ready (p : string) (w w1 : world) :
  Fs.makedirs p w = (Return tt, w1) →
  ready (fs w1) p ∧ dirs_to (fs w1) (Fs.resolve p).
Proof.
  unfold Fs.makedirs. case_bool_decide as Hp; [done|].
  destruct (Fs.mkdir_walk (Fs.root_of p) (split_slash p) (fs w)) as [[e|] m] eqn:E; [done|].
  intros [= <-]. simpl.
  destruct (mkdir_walk_reach _ _ _ _ E (settled_root p) (dirs_to_root _ p)) as (Hd & Hw).
  split; [|done]. split_and!; [|done|by apply dirs_to_top].
  apply path_error_comps. by apply (mkdir_walk_names _ _ _ _ E).
Qed.

(** What a failing [makedirs] leaves: an [Exception], and all that was
    there. *)
Lemma makedirs_raise (p : string) (w w1 : world) (e : exn) :
  Fs.makedirs p w = (Raise e, w1) →
  isinstance_Exception e = true ∧ trace w1 = trace w
  ∧ (∀ k v, fs w !! k = Some v → fs w1 !! k = Some v)
  ∧ (∀ k, fs w1 !! k ≠ fs w !! k → fs w !! k = None ∧ fs w1 !! k = Some Dir).
Proof.
  unfold Fs.makedirs. case_bool_decide as Hp; [by intros [= <- <-]|].
  destruct (Fs.mkdir_walk (Fs.root_of p) (split_slash p) (fs w)) as [[e'|] m] eqn:E; [|done].
  intros [= <- <-]. simpl. split_and!; [|done| |].
  - clear Hp. revert E. generalize (Fs.root_of p) (fs w).
    induction (split_slash p) as [|c comps IH]; intros stack m0 E; simpl in E; [done|].
    case_bool_decide; [by eapply IH|].
    unfold Fs.name_error in E.
    destruct (Fs.has_nul c); [by simplify_eq|].
    destruct (Fs.too_long c); [by simplify_eq|].
    destruct (m0 !! (stack ++ [c])) as [[|d]|]; [by eapply IH| |by eapply IH].
    simplify_eq. by destruct (forallb _ comps).
  - by apply (mkdir_walk_mono _ _ _ _ _ E).
  - by apply (mkdir_walk_new _ _ _ _ _ E).
Qed.

Lemma makedirs_trace (p : string) (w : world) : trace (Fs.makedirs p w).2 = trace w.
Proof.
  unfold Fs.makedirs. case_bool_decide; [done|].
  by destruct (Fs.mkdir_walk (Fs.root_of p) (split_slash p) (fs w)) as [[e|] m].
Qed.

(** Without [..] in the path, what [makedirs] makes is on the way to its
    target. *)
Lemma makedirs_way (p : string) (w : world) (k : list string) :
  Fs.no_dotdot p = true →
  fs (Fs.makedirs p w).2 !! k ≠ fs w !! k → on_the_way (Fs.resolve p) k.
Proof.
  intros Hno Hk. unfold Fs.makedirs in Hk. case_bool_decide; [done|].
  destruct (Fs.mkdir_walk (Fs.root_of p) (split_slash p) (fs w)) as [e m] eqn:Hc.
  assert (m !! k ≠ fs w !! k) as Hne by by destruct e.
  destruct (mkdir_walk_way _ _ _ _ _ Hno Hc k Hne) as (i & Hi & ->).
  exists i. split; [|done]. unfold Fs.resolve. lia.
Qed.

(** ** [open] *)

(** [open] fails on a path that names a directory. *)
Lemma open_target_names_dir (p : string) m :
  Fs.names_dir p = true → ∃ e, Fs.open_target p m = inl e ∧ isinstance_Exception e = true.
Proof.
  intros Hn. unfold Fs.open_target. rewrite Hn.
  case_bool_decide; [by eexists|].
  unfold Fs.path_error. destruct (Fs.has_nul p); [by eexists|].
  destruct (existsb _ _); [by eexists|].
  destruct (Fs.walk_error _ _ _) as [e|] eqn:Ew.
  - exists e. split; [done|]. clear -Ew. revert Ew. generalize (Fs.root_of p).
    induction (split_slash p) as [|c comps IH]; intros stack Ew; simpl in Ew; [done|].
    destruct (bool_decide (c = "..") && negb (Fs.is_dir m stack)); [|by eapply IH].
    simplify_eq. by repeat case_match.
  - destruct (Fs.is_dir m (Fs.resolve p)); [by eexists|].
    destruct (endswith_slash p); by eexists.
Qed.

Lemma walk_error_exception m comps : ∀ stack e,
  Fs.walk_error m stack comps = Some e →
  e = NotADirectoryError ∨ e = FileNotFoundError.
Proof.
  induction comps as [|c comps IH]; intros stack e Ew; simpl in Ew; [done|].
  destruct (bool_decide (c = "..") && negb (Fs.is_dir m stack)); [|by eapply IH].
  simplify_eq. repeat case_match; auto.
Qed.

Lemma open_target_cases (p : string) m e :
  Fs.open_target p m = inl e →
  e = FileNotFoundError ∨ e = NotADirectoryError ∨ e = IsADirectoryError
  ∨ e = ValueError ∨ e = OSError.
Proof.
  unfold Fs.open_target. case_bool_decide; [intros [= <-]; auto|].
  unfold Fs.path_error. destruct (Fs.has_nul p); [intros [= <-]; auto|].
  destruct (existsb _ _); [intros [= <-]; auto 6|].
  destruct (Fs.walk_error _ _ _) as [e'|] eqn:Ew.
  { intros [= <-]. apply walk_error_exception in Ew as [->| ->]; auto. }
  repeat case_match; intros [= <-]; auto.
Qed.

Lemma open_target_exception (p : string) m e :
  Fs.open_target p m = inl e → isinstance_Exception e = true.
Proof.
  intros H. apply open_target_cases in H. by destruct H as [->|[->|[->|[->| ->]]]].
Qed.

Lemma open_target_inr (p : string) m (k : list string) :
  Fs.open_target p m = inr k →
  k = Fs.resolve p ∧ Fs.names_dir p = false ∧ Fs.is_dir m k = false.
Proof.
  unfold Fs.open_target. repeat case_match; intros; by simplify_eq.
Qed.

(** A file [y ++ z] of a directory [a] that can be used is opened for
    writing unless its name is refused or a directory has that name. *)
Lemma open_in_dir (a y z : string) m :
  no_slash y = true → plain (y +:+ z) = true → ready m a →
  Fs.open_target (join a y +:+ z) m = open_name m (Fs.resolve a) (y +:+ z).
Proof.
  intros Hy Hp (He & Hw & Hdir).
  assert (join a y +:+ z ≠ "") as Hne by (apply join_nonempty; by apply plain_nonempty).
  pose proof (resolve_join_app a y z Hy Hp) as Hk.
  assert (no_slash z = true) as Hz.
  { apply plain_no_slash in Hp. rewrite no_slash_app in Hp. by apply andb_prop in Hp as [_ ?]. }
  pose proof (path_error_join_app a y z Hy Hz He) as Hpe.
  unfold Fs.open_target, open_name. rewrite bool_decide_eq_false_2 by done. rewrite Hpe.
  destruct (Fs.name_error (y +:+ z)); [done|].
  rewrite walk_error_join_app, Hw, Hk by done.
  destruct (Fs.is_dir m (Fs.resolve a ++ [y +:+ z])); [done|].
  by rewrite names_dir_join_app, removelast_last, Hdir.
Qed.

Lemma open_file_in_dir (a y : string) m :
  plain y = true → Fs.name_error y = None → ready m a →
  Fs.open_target (join a y) m
  = if Fs.is_dir m (Fs.resolve a ++ [y]) then inl IsADirectoryError
    else inr (Fs.resolve a ++ [y]).
Proof.
  intros Hp Hn Hr. pose proof (open_in_dir a y "" m) as H.
  rewrite !sapp_nil_r in H. unfold open_name in H.
  rewrite H, Hn; [done|by apply plain_no_slash|done..].
Qed.

Lemma open_name_inr m (dir : list string) (x : string) k :
  open_name m dir x = inr k →
  k = dir ++ [x] ∧ Fs.name_error x = None ∧ Fs.is_dir m k = false.
Proof. unfold open_name. repeat case_match; intros; by simplify_eq. Qed.


Lemma open_name_free m (dir : list string) (x : string) :
  Fs.name_error x = None → Fs.is_dir m (dir ++ [x]) = false →
  open_name m dir x = inr (dir ++ [x]).
Proof. intros Hn Hd. unfold open_name. by rewrite Hn, Hd. Qed.

(** A file written where no directory is leaves the directory usable. *)
Lemma ready_insert_file m (a : string) k (d : string) :
  Fs.is_dir m k = false → ready m a → ready (<[k := File d]> m) a.
Proof.
  intros Hk (He & Hw & Hdir). split_and!; [done| |by apply is_dir_insert_file].
  eapply walk_error_mono; [|done]. intros k'. by apply is_dir_insert_file.
Qed.

End FsFacts.

(** * The retrieval dispatcher *)

Section SavePdfFacts.
Import Str OsPath.

Variable http : nat → request → exn + response.

Lemma write_fail_msg_marker (fname link : string) :
  write_fail_msg fname link = marker_write suffix_404 msg_404 fname link.
Proof. reflexivity. Qed.

Lemma write_timeout_msg_marker (fname link : string) :
  write_timeout_msg fname link = marker_write suffix_timedout msg_timedout fname link.
Proof. reflexivity. Qed.

Lemma write_generic_fail_msg_marker (fname link : string) :
  write_generic_fail_msg fname link = marker_write suffix_failed msg_failed fname link.
Proof. reflexivity. Qed.

Lemma save_pdf_except_marker (fname link : string) (e : exn) :
  isinstance_Exception e = true →
  save_pdf_except fname link e
  = marker_write (marker_of e).1 (marker_of e).2 fname link.
Proof. intros He. unfold save_pdf_except, marker_of. rewrite He. by repeat case_match. Qed.

Lemma marker_of_suffix (e : exn) :
  (marker_of e).1 ∈ marker_suffixes
  ∧ no_slash (marker_of e).1 = true ∧ (3 ≤ String.length (marker_of e).1)%nat.
Proof.
  unfold marker_of, marker_suffixes. repeat case_match; simpl;
    (split; [set_solver|split; [done|lia]]).
Qed.

Lemma makedirs_same_fs (p : string) (w1 w2 : world) :
  Fs.makedirs p w1 = (Return tt, w1) → fs w2 = fs w1 →
  Fs.makedirs p w2 = (Return tt, w2).
Proof.
  unfold Fs.makedirs. intros H E. rewrite E. destruct w1 as [m1 t1], w2 as [m2 t2].
  simpl in *. subst m2. case_bool_decide; [done|].
  destruct (Fs.mkdir_walk _ _ m1) as [[e|] m]; by simplify_eq.
Qed.

Lemma plain_app_suffix (b sfx : string) :
  no_slash b = true → no_slash sfx = true → (3 ≤ String.length sfx)%nat →
  plain (b +:+ sfx) = true.
Proof.
  intros Hb Hs Hl. unfold plain. rewrite no_slash_app, Hb, Hs. simpl.
  apply negb_true_iff, bool_decide_eq_false. intros H.
  assert (String.length (b +:+ sfx) ≤ 2)%nat as Hlen.
  { destruct H as [->|[->| ->]]; simpl; lia. }
  rewrite slength_app in Hlen. lia.
Qed.

Lemma save_dir_shape (base_dir : string) (n : Z) :
  let save_dir := join base_dir (zfill 3 (str n)) in
  save_dir ≠ "" ∧ endswith_slash save_dir = false
  ∧ Fs.resolve save_dir = Fs.resolve base_dir ++ [zfill 3 (str n)].
Proof.
  pose proof (index_plain n) as Hp. simpl. split_and!.
  - pose proof (join_nonempty base_dir (zfill 3 (str n)) "") as H.
    rewrite !sapp_nil_r in H. apply H. by apply plain_nonempty.
  - apply join_not_endswith; [by apply plain_nonempty|by apply plain_no_slash].
  - by apply resolve_join.
Qed.

(** A file [b ++ sfx] of the result's directory. *)
Lemma open_in_save_dir (base_dir : string) (n : Z) (b sfx : string)
    (m : gmap (list string) node) :
  let save_dir := join base_dir (zfill 3 (str n)) in
  no_slash b = true → plain (b +:+ sfx) = true → ready m save_dir →
  Fs.open_target (join save_dir b +:+ sfx) m
  = open_name m (Fs.resolve base_dir ++ [zfill 3 (str n)]) (b +:+ sfx).
Proof.
  intros save_dir Hb Hp Hr.
  destruct (save_dir_shape base_dir n) as (_ & _ & Hres). fold save_dir in Hres.
  by rewrite open_in_dir, Hres.
Qed.

(** The same for a path that is within the limits. *)
Lemma open_fitting (base_dir : string) (n : Z) (b sfx : string)
    (m : gmap (list string) node) :
  let save_dir := join base_dir (zfill 3 (str n)) in
  let k := Fs.resolve base_dir ++ [zfill 3 (str n); b +:+ sfx] in
  no_slash b = true → plain (b +:+ sfx) = true → ready m save_dir →
  Fs.path_fits (join save_dir b +:+ sfx) = true → Fs.is_dir m k = false →
  Fs.open_target (join save_dir b +:+ sfx) m = inr k.
Proof.
  intros save_dir k Hb Hp Hr Hfit Hk.
  unfold save_dir. rewrite (open_in_save_dir base_dir n b sfx m Hb Hp Hr).
  fold save_dir. unfold k in *.
  replace (Fs.resolve base_dir ++ [zfill 3 (str n); b +:+ sfx])
    with ((Fs.resolve base_dir ++ [zfill 3 (str n)]) ++ [b +:+ sfx]) in *
    by by rewrite <-app_assoc.
  apply open_name_free; [|done].
  apply path_fits_error in Hfit. destruct Hr as (He & _).
  rewrite path_error_join_app in Hfit; try done.
  apply plain_no_slash in Hp. rewrite no_slash_app in Hp.
  by apply andb_prop in Hp as [_ ?].
Qed.

(** What a marker writer does once the result's directory exists: it
    opens the marker, and the outcome of [open] is its outcome. *)
Lemma marker_outcome (sfx msg : string) (base_dir link : string) (n : Z) (w1 w2 : world) :
  let save_dir := join base_dir (zfill 3 (str n)) in
  let fname := join save_dir (basename link) in
  Fs.makedirs save_dir w1 = (Return tt, w1) → fs w2 = fs w1 →
  marker_write sfx msg fname link w2
  = match Fs.open_target (fname +:+ sfx) (fs w1) with
    | inl e => (Raise e, w2)
    | inr k => (Return tt, written w2 k (fname +:+ sfx) (msg +:+ nl +:+ link))
    end.
Proof.
  intros save_dir fname Hmk Hfs.
  destruct (save_dir_shape base_dir n) as (Hne & Hend & Hres). fold save_dir in Hne, Hend, Hres.
  pose proof (basename_no_slash link) as Hb.
  unfold marker_write, bind, fname. rewrite dirname_join by done.
  rewrite (makedirs_same_fs _ _ _ Hmk Hfs).
  unfold Fs.open_w, written. fold save_dir.
  destruct w2 as [m2 t2]. simpl in *. by subst m2.
Qed.

Lemma open_target_generic (p : string) (m : gmap (list string) node) (e : exn) :
  Fs.open_target p m = inl e →
  isinstance_Exception e = true ∧ marker_of e = (suffix_failed, msg_failed).
Proof.
  intros H. apply open_target_cases in H.
  destruct H as [->|[->|[->|[->| ->]]]]; by split.
Qed.

(** The [try] block: one request, then at most one file. *)
Lemma save_pdf_try_outcome (link fname : string) (w1 : world) :
  let w2 := World (fs w1) (trace w1 ++ [HttpGet (pdf_request link)]) in
  save_pdf_try http link fname w1
  = match http (requests_made w1) (pdf_request link) with
    | inl e => (Raise e, w2)
    | inr page =>
        if bool_decide (400 ≤ status_code page < 600) then (Raise HTTPError, w2)
        else match Fs.open_target fname (fs w1) with
             | inl e => (Raise e, w2)
             | inr k => (Return tt, written w2 k fname (content page))
             end
    end.
Proof.
  unfold save_pdf_try, bind, requests_get, pdf_request. simpl.
  destruct (http _ _) as [e|page]; [done|].
  unfold raise_for_status. case_bool_decide; [done|].
  unfold ret, Fs.open_w. simpl. by destruct (Fs.open_target _ _).
Qed.

Lemma save_pdf_try_raise (link fname : string) (w1 w2 : world) (e : exn) :
  save_pdf_try http link fname w1 = (Raise e, w2) →
  w2 = World (fs w1) (trace w1 ++ [HttpGet (pdf_request link)]).
Proof.
  rewrite save_pdf_try_outcome. repeat case_match; intros; by simplify_eq.
Qed.

Lemma save_pdf_after_makedirs (n : Z) (link base_dir : string) (timeout : Z) (w w1 : world) :
  let save_dir := join base_dir (zfill 3 (str n)) in
  let fname := join save_dir (basename link) in
  Fs.makedirs save_dir w = (Return tt, w1) →
  save_pdf http n link base_dir timeout w
  = try_except (save_pdf_try http link fname) (save_pdf_except fname link) w1.
Proof. intros save_dir fname H. unfold save_pdf, bind. fold save_dir. by rewrite H. Qed.

(** A failed attempt is handed to the marker writer of the exception's
    class, and the outcome of opening the marker is the outcome of
    [save_pdf]. *)
Lemma save_pdf_handled (n : Z) (link base_dir : string) (timeout : Z)
    (w w1 w2 : world) (e : exn) :
  let save_dir := join base_dir (zfill 3 (str n)) in
  let fname := join save_dir (basename link) in
  let sfx := (marker_of e).1 in
  Fs.makedirs save_dir w = (Return tt, w1) →
  save_pdf_try http link fname w1 = (Raise e, w2) →
  isinstance_Exception e = true →
  w2 = World (fs w1) (trace w1 ++ [HttpGet (pdf_request link)])
  ∧ Fs.open_target (fname +:+ sfx) (fs w1)
    = open_name (fs w1) (Fs.resolve base_dir ++ [zfill 3 (str n)]) (basename link +:+ sfx)
  ∧ save_pdf http n link base_dir timeout w
    = match Fs.open_target (fname +:+ sfx) (fs w1) with
      | inl e' => (Raise e', w2)
      | inr k =>
          (Return tt, written w2 k (fname +:+ sfx) ((marker_of e).2 +:+ nl +:+ link))
      end.
Proof.
  intros save_dir fname sfx Hmk Htry He.
  pose proof (save_pdf_try_raise _ _ _ _ _ Htry) as Hw2.
  assert (fs w2 = fs w1) as Hfs by by subst w2.
  destruct (marker_of_suffix e) as (_ & Hs & Hl). fold sfx in Hs, Hl.
  split_and!; [done| |].
  - unfold fname, save_dir. apply open_in_save_dir.
    + apply basename_no_slash.
    + apply plain_app_suffix; [apply basename_no_slash|done..].
    + by apply makedirs_ready in Hmk as (? & _).
  - unfold save_dir, fname. rewrite (save_pdf_after_makedirs _ _ _ _ _ _ Hmk).
    fold save_dir fname. unfold try_except. rewrite Htry.
    rewrite save_pdf_except_marker by done.
    apply makedirs_ok in Hmk as (_ & _ & _ & _ & _ & Hidem).
    unfold fname, save_dir. by rewrite (marker_outcome _ _ _ _ _ w1 w2).
Qed.

(** The marker of a failed attempt can be written when its path is within
    the limits and no directory has its name. *)
Lemma marker_fits (n : Z) (link base_dir sfx : string) (w w1 : world) :
  let save_dir := join base_dir (zfill 3 (str n)) in
  let fname := join save_dir (basename link) in
  let k := Fs.resolve base_dir ++ [zfill 3 (str n); basename link +:+ sfx] in
  Fs.makedirs save_dir w = (Return tt, w1) →
  no_slash sfx = true → (3 ≤ String.length sfx)%nat →
  Fs.path_fits (fname +:+ sfx) = true → Fs.is_dir (fs w1) k = false →
  Fs.open_target (fname +:+ sfx) (fs w1) = inr k.
Proof.
  intros save_dir fname k Hmk Hs Hl Hfit Hk.
  apply open_fitting; try done.
  - apply basename_no_slash.
  - apply plain_app_suffix; [apply basename_no_slash|done..].
  - by apply makedirs_ready in Hmk as (? & _).
Qed.

(** It cannot when its name is refused or a directory has its name. *)
Lemma marker_refused (n : Z) (link base_dir sfx : string) (w w1 : world) :
  let save_dir := join base_dir (zfill 3 (str n)) in
  let fname := join save_dir (basename link) in
  let k := Fs.resolve base_dir ++ [zfill 3 (str n); basename link +:+ sfx] in
  Fs.makedirs save_dir w = (Return tt, w1) →
  no_slash sfx = true → (3 ≤ String.length sfx)%nat →
  Fs.name_error (basename link +:+ sfx) ≠ None ∨ Fs.is_dir (fs w1) k = true →
  ∃ e, Fs.open_target (fname +:+ sfx) (fs w1) = inl e.
Proof.
  intros save_dir fname k Hmk Hs Hl Hbad.
  unfold fname, save_dir. rewrite open_in_save_dir.
  - unfold open_name. destruct (Fs.name_error _) as [e|] eqn:En; [by exists e|].
    destruct Hbad as [|Hd]; [done|]. unfold k in Hd.
    replace (Fs.resolve base_dir ++ [zfill 3 (str n); basename link +:+ sfx])
      with ((Fs.resolve base_dir ++ [zfill 3 (str n)]) ++ [basename link +:+ sfx]) in Hd
      by by rewrite <-app_assoc.
    rewrite Hd. by eexists.
  - apply basename_no_slash.
  - apply plain_app_suffix; [apply basename_no_slash|done..].
  - by apply makedirs_ready in Hmk as (? & _).
Qed.

End SavePdfFacts.

(** * The outcomes of [save_pdf] *)

Section SavePdfOutcomes.
Import Str OsPath.

Variable http : nat → request → exn + response.

(** An error status makes the attempt raise [HTTPError]. *)
Lemma error_status_raises (link fname : string) (w1 : world) (page : response) :
  http (requests_made w1) (pdf_request link) = inr page →
  400 ≤ status_code page < 600 →
  save_pdf_try http link fname w1
  = (Raise HTTPError, World (fs w1) (trace w1 ++ [HttpGet (pdf_request link)])).
Proof.
  intros Hp Hs. rewrite save_pdf_try_outcome, Hp.
  by rewrite bool_decide_eq_true_2.
Qed.

(** An exception of the request is the exception of the attempt. *)
Lemma request_exception_raises (link fname : string) (w1 : world) (e : exn) :
  http (requests_made w1) (pdf_request link) = inl e →
  save_pdf_try http link fname w1
  = (Raise e, World (fs w1) (trace w1 ++ [HttpGet (pdf_request link)])).
Proof. intros Hp. by rewrite save_pdf_try_outcome, Hp. Qed.

(** C1, as amended: a download attempt of [save_pdf] that fails is handed
    to the first [except] clause that matches: an [HTTPError] gives
    [<fname>.404error.txt], a [Timeout] gives [<fname>.timedout.txt], any
    other [Exception] gives [<fname>.failed.txt], each with its fixed
    message, a newline and the link.  When the path of the marker is within
    the limits of the system and no directory has its name, exactly that
    one file is written and nothing else.  When the name of the marker is
    refused or a directory has its name, opening it fails: the error leaves
    [save_pdf] and no marker is written. *)
Theorem save_pdf_failure_marker (n : Z) (link base_dir : string) (timeout : Z)
    (w w1 w2 : world) (e : exn) :
  let save_dir := join base_dir (zfill 3 (str n)) in
  let fname := join save_dir (basename link) in
  let sfx := (marker_of e).1 in
  let msg := (marker_of e).2 in
  let k := Fs.resolve base_dir ++ [zfill 3 (str n); basename link +:+ sfx] in
  Fs.makedirs save_dir w = (Return tt, w1) →
  save_pdf_try http link fname w1 = (Raise e, w2) →
  isinstance_Exception e = true →
  (sfx, msg)
  = (if isinstance_HTTPError e
     then (".404error.txt", "recieved 404 error when trying to download")
     else if isinstance_Timeout e
     then (".timedout.txt",
           "timed out when trying to download, please manually download using the link below")
     else (".failed.txt", "recieved an error when trying to download"))
  ∧ (Fs.path_fits (fname +:+ sfx) = true → Fs.is_dir (fs w1) k = false →
     save_pdf http n link base_dir timeout w
     = (Return tt,
         World (<[k := File (msg +:+ nl +:+ link)]> (fs w1))
               (trace w1 ++ [HttpGet (pdf_request link);
                             FileWrite (fname +:+ sfx) (msg +:+ nl +:+ link)])))
  ∧ (Fs.name_error (basename link +:+ sfx) ≠ None ∨ Fs.is_dir (fs w1) k = true →
     ∃ e', Fs.open_target (fname +:+ sfx) (fs w1) = inl e'
           ∧ save_pdf http n link base_dir timeout w
             = (Raise e', World (fs w1) (trace w1 ++ [HttpGet (pdf_request link)]))).
Proof.
  intros save_dir fname sfx msg k Hmk Htry He.
  split. { unfold sfx, msg, marker_of. by repeat case_match. }
  destruct (save_pdf_handled http n link base_dir timeout w w1 w2 e Hmk Htry He)
    as (Hw2 & _ & Hrun).
  destruct (marker_of_suffix e) as (_ & Hs & Hl).
  subst save_dir fname sfx msg k. split.
  - intros Hfit Hk.
    rewrite Hrun, (marker_fits n link base_dir _ w w1 Hmk Hs Hl Hfit Hk).
    rewrite Hw2. unfold written. simpl. by rewrite <-app_assoc.
  - intros Hbad.
    destruct (marker_refused n link base_dir _ w w1 Hmk Hs Hl Hbad) as (e' & Ho).
    exists e'. split; [exact Ho|]. by rewrite Hrun, Ho, Hw2.
Qed.

(** C2, as amended: when the attempt raises an [HTTPError], a [Timeout] or
    any other [Exception], the path of the marker is within the limits of
    the system and no directory has its name, [save_pdf] returns normally
    and the only change is one file directly inside the result's directory.
    The failure is not contained when the marker cannot be opened: the
    error of [open] then leaves [save_pdf], with nothing written. *)
Theorem save_pdf_contains_failure (n : Z) (link base_dir : string) (timeout : Z)
    (w w1 w2 : world) (e : exn) :
  let save_dir := join base_dir (zfill 3 (str n)) in
  let fname := join save_dir (basename link) in
  let sfx := (marker_of e).1 in
  let k := Fs.resolve base_dir ++ [zfill 3 (str n); basename link +:+ sfx] in
  Fs.makedirs save_dir w = (Return tt, w1) →
  save_pdf_try http link fname w1 = (Raise e, w2) →
  isinstance_Exception e = true →
  (Fs.path_fits (fname +:+ sfx) = true → Fs.is_dir (fs w1) k = false →
   ∃ w' data,
     save_pdf http n link base_dir timeout w = (Return tt, w')
     ∧ fs w' !! k = Some (File data)
     ∧ (∀ k', k' ≠ k → fs w' !! k' = fs w1 !! k')
     ∧ Fs.is_dir (fs w') (removelast k) = true
     ∧ removelast k = Fs.resolve save_dir)
  ∧ (∀ e', Fs.open_target (fname +:+ sfx) (fs w1) = inl e' →
       save_pdf http n link base_dir timeout w = (Raise e', w2) ∧ fs w2 = fs w1).
Proof.
  intros save_dir fname sfx k Hmk Htry He.
  destruct (save_pdf_handled http n link base_dir timeout w w1 w2 e Hmk Htry He)
    as (Hw2 & _ & Hrun).
  destruct (marker_of_suffix e) as (_ & Hs & Hl).
  assert (fs w2 = fs w1) as Hfs by by subst w2.
  destruct (save_dir_shape base_dir n) as (_ & _ & Hres).
  subst save_dir fname sfx k. split.
  - intros Hfit Hk.
    rewrite (marker_fits n link base_dir _ w w1 Hmk Hs Hl Hfit Hk) in Hrun.
    set (k := Fs.resolve base_dir ++ [zfill 3 (str n); basename link +:+ (marker_of e).1]) in *.
    assert (removelast k = Fs.resolve (join base_dir (zfill 3 (str n)))) as Hpar.
    { unfold k. replace (Fs.resolve base_dir ++ [zfill 3 (str n); basename link +:+ (marker_of e).1])
        with ((Fs.resolve base_dir ++ [zfill 3 (str n)]) ++ [basename link +:+ (marker_of e).1])
        by by rewrite <-app_assoc.
      by rewrite removelast_last. }
    eexists _, _. split; [exact Hrun|]. simpl. split_and!.
    + apply lookup_insert_eq.
    + intros k' Hne. by rewrite lookup_insert_ne, Hfs.
    + rewrite is_dir_insert_ne, Hfs, Hpar.
      * by apply makedirs_ok in Hmk as (_ & _ & ? & _).
      * intros E. apply (f_equal length) in E. rewrite Hpar, Hres in E.
        unfold k in E. rewrite !length_app in E. simpl in E. lia.
    + done.
  - intros e' Ho. by rewrite Hrun, Ho.
Qed.

(** C5, as amended: when the response is a 2xx, the link's final path
    segment is an ordinary file name, the path of the file is within the
    limits of the system and no directory has that name, the body is
    written as it is to [<base_dir>/<index>/<segment>], replacing what was
    there, and the call returns with the file complete. *)
Theorem save_pdf_success_writes_body (n : Z) (link base_dir : string) (timeout : Z)
    (w w1 : world) (page : response) :
  let save_dir := join base_dir (zfill 3 (str n)) in
  let fname := join save_dir (basename link) in
  let k := Fs.resolve base_dir ++ [zfill 3 (str n); basename link] in
  Fs.makedirs save_dir w = (Return tt, w1) →
  http (requests_made w1) (pdf_request link) = inr page →
  200 ≤ status_code page < 300 →
  plain (basename link) = true →
  Fs.path_fits fname = true →
  Fs.is_dir (fs w1) k = false →
  Fs.resolve fname = k
  ∧ save_pdf http n link base_dir timeout w
    = (Return tt,
        World (<[k := File (content page)]> (fs w1))
              (trace w1 ++ [HttpGet (pdf_request link); FileWrite fname (content page)])).
Proof.
  intros save_dir fname k Hmk Hp Hs Hb Hfit Hk.
  destruct (save_dir_shape base_dir n) as (_ & _ & Hres). fold save_dir in Hres.
  assert (Fs.resolve fname = k) as Hfk.
  { unfold fname. rewrite resolve_join, Hres by done. by rewrite <-app_assoc. }
  split; [done|].
  unfold save_dir, fname. rewrite (save_pdf_after_makedirs _ _ _ _ _ _ _ Hmk).
  fold save_dir fname. unfold try_except.
  rewrite save_pdf_try_outcome, Hp.
  rewrite bool_decide_eq_false_2 by lia.
  pose proof (open_fitting base_dir n (basename link) "" (fs w1)) as Ho.
  simpl in Ho. rewrite !sapp_nil_r in Ho. fold save_dir fname k in Ho.
  rewrite Ho; try done.
  - unfold written. simpl. by rewrite <-app_assoc.
  - apply basename_no_slash.
  - by apply makedirs_ready in Hmk as (? & _).
Qed.

End SavePdfOutcomes.

(** * The link recorder and the summary logger *)

Section RecorderFacts.
Import Str OsPath.

Lemma names_dir_join (a y : string) : plain y = true → Fs.names_dir (join a y) = false.
Proof.
  intros Hp. pose proof (names_dir_join_app a y "") as H.
  rewrite !sapp_nil_r in H. apply H; [by apply plain_no_slash|done].
Qed.

Lemma isfile_in_dir (a y : string) (w : world) :
  plain y = true → Fs.name_error y = None → ready (fs w) a →
  Fs.isfile (join a y) w
  = (Return (match fs w !! (Fs.resolve a ++ [y]) with
             | Some (File _) => true
             | _ => false
             end), w).
Proof.
  intros Hp Hn (He & Hw & _). unfold Fs.isfile.
  pose proof (path_error_join_app a y "" (plain_no_slash _ Hp) eq_refl He) as H1.
  pose proof (walk_error_join_app (fs w) a y "" (plain_no_slash _ Hp)) as H2.
  rewrite !sapp_nil_r in H1, H2.
  rewrite H1, Hn, H2, Hw, resolve_join, names_dir_join by done.
  by destruct (fs w !! _) as [[|?]|].
Qed.

Lemma not_implicit_name (dir : list string) (y : string) (l : list string) :
  plain y = true → Fs.implicit_dir (dir ++ y :: l) = false.
Proof.
  intros Hp. rewrite implicit_dir_app. simpl.
  rewrite (bool_decide_eq_false_2 (y = "/" ∨ y = "..")); [apply andb_false_r|].
  intros [->| ->]; done.
Qed.

(** [save_link] in full: the result's directory, then one file. *)
Lemma save_link_run (n : Z) (link base_dir : string) (w : world) :
  let save_dir := join base_dir (zfill 3 (str n)) in
  let fname := join save_dir "website_link.txt" in
  let k := Fs.resolve base_dir ++ [zfill 3 (str n); "website_link.txt"] in
  save_link n link base_dir w
  = match Fs.makedirs save_dir w with
    | (Raise e, w1) => (Raise e, w1)
    | (Return _, w1) =>
        if Fs.is_dir (fs w1) k then (Raise IsADirectoryError, w1)
        else (Return tt,
               World (<[k := File link]> (fs w1)) (trace w1 ++ [FileWrite fname link]))
    end
  ∧ ∀ w1, Fs.makedirs save_dir w = (Return tt, w1) →
          Fs.is_dir (fs w1) (removelast k) = true
          ∧ removelast k = Fs.resolve save_dir ∧ Fs.resolve fname = k
          ∧ Fs.open_target fname (fs w1)
            = if Fs.is_dir (fs w1) k then inl IsADirectoryError else inr k.
Proof.
  intros save_dir fname k.
  destruct (save_dir_shape base_dir n) as (_ & _ & Hres). fold save_dir in Hres.
  assert (Fs.resolve save_dir ++ ["website_link.txt"] = k) as Hk.
  { rewrite Hres. unfold k. by rewrite <-app_assoc. }
  assert (∀ w1, Fs.makedirs save_dir w = (Return tt, w1) →
            Fs.open_target fname (fs w1)
            = if Fs.is_dir (fs w1) k then inl IsADirectoryError else inr k) as Hopen.
  { intros w1 Hmk. unfold fname. rewrite open_file_in_dir, Hk; [done|done|reflexivity|].
    by apply makedirs_ready in Hmk as (? & _). }
  split.
  - unfold save_link, bind. fold save_dir fname.
    destruct (Fs.makedirs save_dir w) as [[[]|e] w1] eqn:Hmk; [|done].
    unfold Fs.open_w. rewrite (Hopen w1 eq_refl).
    by destruct (Fs.is_dir (fs w1) k).
  - intros w1 Hmk. rewrite <-Hk at 1 2. rewrite removelast_last. split_and!; [|done| |by apply Hopen].
    + by apply makedirs_ok in Hmk as (_ & _ & ? & _).
    + unfold fname. by rewrite resolve_join.
Qed.

(** [results_summary] in full: the session directory, the header when the
    summary does not exist yet, then the row. *)
Lemma results_summary_run (n : Z) (title link base_dir : string) (w : world) :
  let summary_file := join base_dir "results_summary.csv" in
  let k := Fs.resolve base_dir ++ ["results_summary.csv"] in
  let row := zfill 3 (str n) +:+ ", " +:+ title +:+ ", " +:+ link +:+ nl in
  let header := "search number, title, link" +:+ nl in
  results_summary n title link base_dir w
  = match Fs.makedirs base_dir w with
    | (Raise e, w1) => (Raise e, w1)
    | (Return _, w1) =>
        match fs w1 !! k with
        | Some Dir => (Raise IsADirectoryError, w1)
        | Some (File old) =>
            (Return tt,
              World (<[k := File (old +:+ row)]> (fs w1))
                    (trace w1 ++ [FileAppend summary_file row]))
        | None =>
            (Return tt,
              World (<[k := File (header +:+ row)]> (fs w1))
                    (trace w1 ++ [FileWrite summary_file header;
                                  FileAppend summary_file row]))
        end
    end.
Proof.
  intros summary_file k row header.
  unfold results_summary, bind. fold summary_file row header.
  destruct (Fs.makedirs base_dir w) as [[[]|e] w1] eqn:Hmk; [|done].
  apply makedirs_ready in Hmk as (Hr & _).
  assert (Fs.implicit_dir k = false) as Himp.
  { unfold k. by apply not_implicit_name. }
  assert (∀ m, ready m base_dir →
            Fs.open_target summary_file m
            = if Fs.is_dir m k then inl IsADirectoryError else inr k) as Hopen.
  { intros m Hm. unfold summary_file. by rewrite open_file_in_dir. }
  unfold summary_file at 1. rewrite isfile_in_dir by done. fold k summary_file.
  destruct (fs w1 !! k) as [[|old]|] eqn:Ek; simpl.
  - unfold Fs.open_w. rewrite Hopen by done. unfold Fs.is_dir. by rewrite Ek, orb_true_r.
  - unfold ret, Fs.open_a. rewrite Hopen by done. unfold Fs.is_dir.
    rewrite Himp, Ek. simpl. by rewrite Ek.
  - assert (Fs.is_dir (fs w1) k = false) as Hnd by (unfold Fs.is_dir; by rewrite Himp, Ek).
    unfold Fs.open_w. rewrite Hopen, Hnd by done.
    unfold Fs.open_a. simpl. rewrite Hopen by by apply ready_insert_file.
    unfold Fs.is_dir. rewrite Himp, lookup_insert_eq. simpl.
    by rewrite lookup_insert_eq, insert_insert_eq, <-app_assoc.
Qed.

(** C6: [save_link], for a result that is not downloaded, makes the result's
    directory [<base_dir>/<index>] if needed and writes exactly one file
    there, [website_link.txt], whose content is the link as it is.  There
    is no failure classification: an error of [makedirs] or of [open]
    leaves [save_link] as it was raised, with no marker written. *)
Theorem save_link_writes_link (n : Z) (link base_dir : string) (w : world) :
  let save_dir := join base_dir (zfill 3 (str n)) in
  let fname := join save_dir "website_link.txt" in
  let k := Fs.resolve base_dir ++ [zfill 3 (str n); "website_link.txt"] in
  match save_link n link base_dir w with
  | (Return _, w') =>
      ∃ w1, Fs.makedirs save_dir w = (Return tt, w1)
            ∧ Fs.is_dir (fs w') (Fs.resolve base_dir ++ [zfill 3 (str n)]) = true
            ∧ Fs.resolve fname = k
            ∧ fs w' = <[k := File link]> (fs w1)
            ∧ trace w' = trace w ++ [FileWrite fname link]
  | (Raise e, w') =>
      trace w' = trace w
      ∧ (Fs.makedirs save_dir w = (Raise e, w')
         ∨ (Fs.makedirs save_dir w = (Return tt, w')
            ∧ Fs.open_target fname (fs w') = inl e))
  end.
Proof.
  intros save_dir fname k.
  destruct (save_link_run n link base_dir w) as (Hrun & Hdir).
  fold save_dir fname k in Hrun, Hdir. rewrite Hrun.
  pose proof (makedirs_trace save_dir w) as Htr.
  destruct (Fs.makedirs save_dir w) as [[[]|e] w1] eqn:Hmk; simpl in Htr.
  2:{ split; [done|]. by left. }
  destruct (Hdir w1 eq_refl) as (Hd & Hpar & Hk & Hopen).
  destruct (Fs.is_dir (fs w1) k) eqn:Ek.
  - split; [done|]. right. by split.
  - exists w1. simpl. split_and!; try done; [|by rewrite Htr].
    destruct (save_dir_shape base_dir n) as (_ & _ & Hres). fold save_dir in Hres.
    rewrite is_dir_insert_ne, <-Hres, <-Hpar; [done|].
    intros E. apply (f_equal length) in E. unfold k in E.
    rewrite !length_app in E. simpl in E. lia.
Qed.

(** C8: [results_summary] appends exactly the row
    [<index padded to 3>, <title>, <link>] and a newline, with title and
    link put in as they are, commas included; when the summary file does
    not exist yet it is first created with the header row
    [search number, title, link]. *)
Theorem results_summary_row (n : Z) (title link base_dir : string) (w w1 : world) :
  let summary_file := join base_dir "results_summary.csv" in
  let k := Fs.resolve base_dir ++ ["results_summary.csv"] in
  let row := zfill 3 (str n) +:+ ", " +:+ title +:+ ", " +:+ link +:+ nl in
  let header := "search number, title, link" +:+ nl in
  Fs.makedirs base_dir w = (Return tt, w1) →
  fs w1 !! k ≠ Some Dir →
  ∃ w',
    results_summary n title link base_dir w = (Return tt, w')
    ∧ Fs.resolve summary_file = k
    ∧ fs w' = <[k := File (match fs w !! k with
                           | Some (File old) => old
                           | _ => header
                           end +:+ row)]> (fs w1)
    ∧ trace w' = trace w
                 ++ match fs w !! k with
                    | Some (File _) => []
                    | _ => [FileWrite summary_file header]
                    end
                 ++ [FileAppend summary_file row].
Proof.
  intros summary_file k row header Hmk Hk.
  pose proof (results_summary_run n title link base_dir w) as Hrun.
  fold summary_file k row header in Hrun. simpl in Hrun. rewrite Hmk in Hrun.
  pose proof (makedirs_trace base_dir w) as Htr. rewrite Hmk in Htr. simpl in Htr.
  assert (fs w1 !! k = fs w !! k) as Hsame.
  { destruct (decide (fs w1 !! k = fs w !! k)) as [|Hne]; [done|].
    apply makedirs_ok in Hmk as (_ & _ & _ & _ & Hnew & _).
    by destruct (Hnew k Hne) as (_ & Hd). }
  rewrite <-Hsame.
  destruct (fs w1 !! k) as [[|old]|] eqn:Ek; [done|..];
    eexists; (split; [exact Hrun|]); simpl; rewrite Htr;
    (split; [by apply resolve_join|done]).
Qed.

End RecorderFacts.

(** * The query runner *)

Section QueryFacts.
Import Str OsPath.

Variable http : nat → request → exn + response.

Lemma open_w_trace (p data : string) (w : world) :
  ∃ tail, trace (Fs.open_w p data w).2 = trace w ++ tail
          ∧ Forall (λ ev, ∃ p' d, ev = FileWrite p' d) tail.
Proof.
  unfold Fs.open_w. destruct (Fs.open_target p (fs w)).
  - exists []. by rewrite app_nil_r.
  - eexists [_]. split; [done|]. repeat constructor. by eexists _, _.
Qed.

Lemma save_google_search_trace (url webpage_text base_dir : string) (w : world) :
  ∃ tail, trace (save_google_search url webpage_text base_dir w).2 = trace w ++ tail
          ∧ Forall (λ ev, ∃ p' d, ev = FileWrite p' d) tail.
Proof.
  unfold save_google_search, bind.
  pose proof (makedirs_trace base_dir w) as Hmk.
  destruct (Fs.makedirs base_dir w) as [[[]|e] w1]; simpl in Hmk.
  2:{ exists []. by rewrite app_nil_r. }
  destruct (open_w_trace (join base_dir "google-search-term.txt") url w1)
    as (t1 & Ht1 & Hf1).
  destruct (Fs.open_w (join base_dir "google-search-term.txt") url w1)
    as [[[]|e] w2]; simpl in Ht1.
  2:{ exists t1. simpl. by rewrite Ht1, Hmk. }
  destruct (open_w_trace (join base_dir "google-search-result.html") webpage_text w2)
    as (t2 & Ht2 & Hf2).
  exists (t1 ++ t2). split; [|by apply Forall_app].
  destruct (Fs.open_w (join base_dir "google-search-result.html") webpage_text w2)
    as [[[]|e] w3]; simpl in *; by rewrite Ht2, Ht1, Hmk, <-app_assoc.
Qed.

(** C7: [get_webpage] asks for the page at [url ++ "&num=" ++ str(results)].
    A count above 100 first gives the warning [SearchWarning] and is
    replaced by 100; the run goes on.  A count of at most 100 is used as it
    is and no warning is given: after the request only files are written.
    So 150 becomes [&num=100] and 50 stays [&num=50]. *)
Theorem get_webpage_num (url : string) (results : Z) (base_dir : string) (w : world) :
  let clamped := if bool_decide (results > 100) then 100 else results in
  let query := url +:+ "&num=" +:+ str clamped in
  let warning :=
    if bool_decide (results > 100)
    then [Warn "SearchWarning"
            "More than 100 search results not implemented, setting to 100"]
    else [] in
  (∃ tail,
     trace (get_webpage http url results base_dir w).2
     = trace w ++ warning ++ HttpGet (Request query true headers None) :: tail
     ∧ Forall (λ ev, ∃ p d, ev = FileWrite p d) tail)
  ∧ (results = 150 → query = url +:+ "&num=100" ∧ warning ≠ [])
  ∧ (results = 50 → query = url +:+ "&num=50" ∧ warning = []).
Proof.
  intros clamped query warning. split; [|by split; intros ->].
  unfold get_webpage.
  assert (∀ w0,
    ∃ tail,
      trace ((do webpage <- requests_get http (Request query true headers None) ;
              save_google_search query (text webpage) base_dir ;; ret (text webpage)) w0).2
      = trace w0 ++ HttpGet (Request query true headers None) :: tail
      ∧ Forall (λ ev, ∃ p d, ev = FileWrite p d) tail) as Hrest.
  { intros w0. unfold bind at 1. unfold requests_get.
    destruct (http _ _) as [e|page]; [by exists []|].
    unfold bind.
    destruct (save_google_search_trace query (text page) base_dir
                (World (fs w0) (trace w0 ++ [HttpGet (Request query true headers None)])))
      as (tail & Ht & Hf).
    destruct (save_google_search _ _ _ _) as [[[]|e] w3]; simpl in *;
      exists tail; by rewrite Ht, <-app_assoc. }
  unfold bind at 1. unfold query, warning, clamped.
  case_bool_decide as Hr.
  - unfold bind at 1. unfold warnings_warn, ret.
    destruct (Hrest (World (fs w) (trace w ++ [Warn "SearchWarning"
      "More than 100 search results not implemented, setting to 100"])))
      as (tail & Ht & Hf).
    exists tail. split; [|done]. rewrite app_assoc. exact Ht.
  - unfold ret at 1. destruct (Hrest w) as (tail & Ht & Hf).
    exists tail. split; [|done]. exact Ht.
Qed.

End QueryFacts.

(** * What a call of [save_pdf] can change *)

Section SavePdfOutcome.
Import Str OsPath.

Variable http : nat → request → exn + response.

Lemma names_dir_plain (a y : string) :
  no_slash y = true → Fs.names_dir (join a y) = false → plain y = true.
Proof.
  intros Hy H. rewrite join_eq in H by by apply no_slash_startswith.
  rewrite names_dir_dir_app in H by (done || apply join_prefix_dir).
  unfold plain. by rewrite Hy, H.
Qed.

Lemma no_dotdot_plain (c : string) : plain c = true → Fs.no_dotdot c = true.
Proof.
  intros Hp. unfold Fs.no_dotdot. rewrite split_slash_noslash by by apply plain_no_slash.
  simpl. rewrite (bool_decide_eq_false_2 (c = "..")); [done|]. by intros ->.
Qed.

Lemma no_dotdot_join (a y : string) :
  Fs.no_dotdot a = true → plain y = true → Fs.no_dotdot (join a y) = true.
Proof.
  intros Ha Hp. pose proof (plain_no_slash _ Hp) as Hn. unfold Fs.no_dotdot in *.
  rewrite join_eq by by apply no_slash_startswith.
  destruct (split_slash_dir (join_prefix a) y (join_prefix_dir a) Hn) as (l & H1 & H2).
  rewrite H2, forallb_app. simpl.
  rewrite (bool_decide_eq_false_2 (y = "..")) by by intros ->.
  rewrite andb_true_r. unfold join_prefix in H1.
  destruct (bool_decide (a = "") || endswith_slash a).
  - rewrite H1, forallb_app in Ha. by apply andb_prop in Ha as [? _].
  - change "/" with (String slash "") in H1.
    rewrite split_slash_app_slash in H1. simpl in H1.
    by apply app_inj_tail in H1 as [<- _].
Qed.

(** With the result's directory made, [save_pdf] makes one request and then
    either writes one file directly inside that directory, where no
    directory was, or raises: an exception of the request that is no
    [Exception], or the error of opening a marker, whose name is refused
    or taken by a directory. *)
Lemma save_pdf_outcome (n : Z) (link base_dir : string) (timeout : Z) (w w1 : world) :
  let save_dir := join base_dir (zfill 3 (str n)) in
  let w2 := World (fs w1) (trace w1 ++ [HttpGet (pdf_request link)]) in
  Fs.makedirs save_dir w = (Return tt, w1) →
  (∃ name p data,
     save_pdf http n link base_dir timeout w
     = (Return tt, written w2 (Fs.resolve base_dir ++ [zfill 3 (str n); name]) p data)
     ∧ Fs.is_dir (fs w1) (Fs.resolve base_dir ++ [zfill 3 (str n); name]) = false)
  ∨ (∃ e, save_pdf http n link base_dir timeout w = (Raise e, w2)
          ∧ ((isinstance_Exception e = false
              ∧ http (requests_made w1) (pdf_request link) = inl e)
             ∨ ∃ sfx, sfx ∈ marker_suffixes
                      ∧ open_name (fs w1) (Fs.resolve base_dir ++ [zfill 3 (str n)])
                          (basename link +:+ sfx) = inl e)).
Proof.
  intros save_dir w2 Hmk.
  destruct (save_dir_shape base_dir n) as (_ & _ & Hres). fold save_dir in Hres.
  set (fname := join save_dir (basename link)).
  destruct (save_pdf_try http link fname w1) as [[[]|e] w2'] eqn:Htry.
  - left. unfold save_dir. rewrite (save_pdf_after_makedirs _ _ _ _ _ _ _ Hmk).
    fold save_dir fname. unfold try_except. rewrite Htry.
    rewrite save_pdf_try_outcome in Htry.
    destruct (http _ _) as [e|page]; [done|]. case_bool_decide; [done|].
    destruct (Fs.open_target fname (fs w1)) as [e|k] eqn:Ho; [done|].
    apply open_target_inr in Ho as (-> & Hn & Hd).
    apply names_dir_plain in Hn; [|apply basename_no_slash].
    unfold fname in Htry, Hd. rewrite resolve_join, Hres, <-app_assoc in Htry, Hd by done.
    simplify_eq. by eexists _, _, _.
  - pose proof (save_pdf_try_raise _ _ _ _ _ _ Htry) as ->. fold w2 in Htry.
    destruct (isinstance_Exception e) eqn:He.
    + destruct (save_pdf_handled http n link base_dir timeout w w1 w2 e Hmk Htry He)
        as (_ & Hopen & Hrun).
      rewrite Hrun, Hopen.
      destruct (open_name _ _ _) as [e'|k] eqn:Eo.
      * right. exists e'. split; [done|]. right. exists (marker_of e).1.
        split; [apply marker_of_suffix|done].
      * left. apply open_name_inr in Eo as (-> & _ & Hd).
        rewrite <-app_assoc in *. by eexists _, _, _.
    + right. exists e. split.
      * unfold save_dir. rewrite (save_pdf_after_makedirs _ _ _ _ _ _ _ Hmk).
        fold save_dir fname. unfold try_except. rewrite Htry.
        unfold save_pdf_except. rewrite He. by destruct e.
      * left. split; [done|]. rewrite save_pdf_try_outcome in Htry.
        destruct (http _ _) as [e'|page]; [by simplify_eq|].
        case_bool_decide; [simplify_eq; by simpl in He|].
        destruct (Fs.open_target fname (fs w1)) as [e'|k] eqn:Ho; [|done].
        apply open_target_exception in Ho. simplify_eq. congruence.
Qed.

(** What [save_pdf] changes after the directory is made is at most one
    name directly inside it. *)
Lemma save_pdf_after_dir (n : Z) (link base_dir : string) (timeout : Z) (w w1 : world) :
  Fs.makedirs (join base_dir (zfill 3 (str n))) w = (Return tt, w1) →
  ∀ k, fs (save_pdf http n link base_dir timeout w).2 !! k ≠ fs w1 !! k →
       ∃ name d, k = Fs.resolve base_dir ++ [zfill 3 (str n); name]
                 ∧ fs (save_pdf http n link base_dir timeout w).2 !! k = Some (File d)
                 ∧ Fs.is_dir (fs w1) k = false.
Proof.
  intros Hmk k Hk.
  destruct (save_pdf_outcome n link base_dir timeout w w1 Hmk)
    as [(name & p & data & Hrun & Hd)|(e & Hrun & _)]; rewrite Hrun in *; simpl in *; [|done].
  destruct (decide (k = Fs.resolve base_dir ++ [zfill 3 (str n); name])) as [->|Hne].
  - exists name, data. by rewrite lookup_insert_eq.
  - by rewrite lookup_insert_ne in Hk.
Qed.

(** A call of [save_pdf] writes no file but directly inside the result's
    directory, whatever the path to it. *)
Lemma save_pdf_new_file (n : Z) (link base_dir : string) (timeout : Z) (w : world)
    (k : list string) (d : string) :
  fs (save_pdf http n link base_dir timeout w).2 !! k = Some (File d) →
  fs w !! k ≠ Some (File d) →
  ∃ name, k = Fs.resolve base_dir ++ [zfill 3 (str n); name].
Proof.
  intros Hk Hw.
  destruct (Fs.makedirs (join base_dir (zfill 3 (str n))) w) as [[[]|e] w1] eqn:Hmk.
  - destruct (decide (fs (save_pdf http n link base_dir timeout w).2 !! k = fs w1 !! k))
      as [Hsame|Hdiff].
    + exfalso. rewrite Hsame in Hk.
      apply makedirs_ok in Hmk as (_ & _ & _ & _ & Hnew & _).
      destruct (decide (fs w1 !! k = fs w !! k)) as [E|Hne]; [congruence|].
      destruct (Hnew k Hne) as (_ & ?). congruence.
    + destruct (save_pdf_after_dir n link base_dir timeout w w1 Hmk k Hdiff)
        as (name & _ & -> & _). by exists name.
  - exfalso. unfold save_pdf, bind in Hk. rewrite Hmk in Hk. simpl in Hk.
    apply makedirs_raise in Hmk as (_ & _ & _ & Hnew).
    destruct (decide (fs w1 !! k = fs w !! k)) as [E|Hne]; [congruence|].
    destruct (Hnew k Hne) as (_ & ?). congruence.
Qed.

(** Without [..] in [base_dir], the keys a call of [save_pdf] can change
    are the directories on the way to the result's directory and names
    directly inside it. *)
Lemma save_pdf_footprint (n : Z) (link base_dir : string) (timeout : Z) (w : world) :
  let target := Fs.resolve base_dir ++ [zfill 3 (str n)] in
  Fs.no_dotdot base_dir = true →
  ∀ k, fs (save_pdf http n link base_dir timeout w).2 !! k ≠ fs w !! k →
       on_the_way target k ∨ ∃ name, k = target ++ [name].
Proof.
  intros target Hno k Hk.
  destruct (save_dir_shape base_dir n) as (_ & _ & Hres).
  set (save_dir := join base_dir (zfill 3 (str n))) in *.
  assert (Fs.no_dotdot save_dir = true) as Hno' by by apply no_dotdot_join, index_plain.
  pose proof (makedirs_way save_dir w k Hno') as Hway. rewrite Hres in Hway.
  destruct (Fs.makedirs save_dir w) as [[[]|e] w1] eqn:Hmk; simpl in Hway.
  - destruct (decide (fs w1 !! k = fs w !! k)) as [Hsame|Hdiff]; [|left; by apply Hway].
    right. rewrite <-Hsame in Hk.
    destruct (save_pdf_after_dir n link base_dir timeout w w1 Hmk k Hk) as (name & _ & -> & _).
    exists name. unfold target. by rewrite <-app_assoc.
  - left. apply Hway. unfold save_pdf, bind in Hk. fold save_dir in Hk.
    by rewrite Hmk in Hk.
Qed.

End SavePdfOutcome.

(** * A link that ends in a slash *)

Section EmptySegment.
Import Str OsPath.

Variable http : nat → request → exn + response.

Lemma join_empty_segment (base_dir : string) (n : Z) :
  let save_dir := join base_dir (zfill 3 (str n)) in
  join save_dir "" = save_dir +:+ "/" ∧ Fs.names_dir (join save_dir "") = true.
Proof.
  intros save_dir.
  destruct (save_dir_shape base_dir n) as (Hne & Hend & _). fold save_dir in Hne, Hend.
  assert (join save_dir "" = save_dir +:+ "/") as Hj.
  { rewrite join_eq by done. unfold join_prefix.
    rewrite Hend, bool_decide_eq_false_2 by done. simpl. by rewrite sapp_nil_r. }
  split; [done|]. rewrite join_eq by done.
  by rewrite names_dir_dir_app by (done || apply join_prefix_dir).
Qed.

(** For every link whose final path segment is empty and a 2xx response:
    opening [<base_dir>/<index>/] as a file fails, and when the path
    [<base_dir>/<index>/.failed.txt] is within the limits and nothing takes
    its place, the generic-failure marker is written there, inside the
    result's directory. *)
Lemma save_pdf_empty_segment_run (n : Z) (link base_dir : string) (timeout : Z)
    (w w1 : world) (page : response) :
  let save_dir := join base_dir (zfill 3 (str n)) in
  let k := Fs.resolve base_dir ++ [zfill 3 (str n); ".failed.txt"] in
  let marker := "recieved an error when trying to download" +:+ nl +:+ link in
  basename link = "" →
  Fs.makedirs save_dir w = (Return tt, w1) →
  http (requests_made w1) (pdf_request link) = inr page →
  200 ≤ status_code page < 300 →
  Fs.path_fits (save_dir +:+ "/" +:+ ".failed.txt") = true →
  Fs.is_dir (fs w1) k = false →
  join save_dir (basename link) = save_dir +:+ "/"
  ∧ (∃ e, Fs.open_target (save_dir +:+ "/") (fs w1) = inl e)
  ∧ Fs.resolve (save_dir +:+ "/" +:+ ".failed.txt") = k
  ∧ save_pdf http n link base_dir timeout w
    = (Return tt,
        World (<[k := File marker]> (fs w1))
              (trace w1 ++ [HttpGet (pdf_request link);
                            FileWrite (save_dir +:+ "/" +:+ ".failed.txt") marker])).
Proof.
  intros save_dir k marker Hb Hmk Hp Hs _ Hk.
  destruct (join_empty_segment base_dir n) as (Hj & Hn). fold save_dir in Hj, Hn.
  destruct (save_dir_shape base_dir n) as (_ & _ & Hres). fold save_dir in Hres.
  destruct (open_target_names_dir _ (fs w1) Hn) as (e & Ho & He).
  destruct (open_target_generic _ _ _ Ho) as (_ & Hm).
  rewrite Hj in Ho.
  assert (save_pdf_try http link (join save_dir (basename link)) w1
          = (Raise e, World (fs w1) (trace w1 ++ [HttpGet (pdf_request link)]))) as Htry.
  { rewrite save_pdf_try_outcome, Hp, Hb, Hj, Ho.
    by rewrite bool_decide_eq_false_2 by lia. }
  destruct (save_pdf_handled http n link base_dir timeout w w1 _ e Hmk Htry He)
    as (_ & Hopen & Hrun).
  rewrite Hopen, Hm, Hb in Hrun. simpl in Hrun.
  rewrite open_name_free in Hrun; [|reflexivity|by rewrite <-app_assoc].
  fold save_dir in Hrun. rewrite Hj in Hrun.
  split_and!.
  - by rewrite Hb.
  - by exists e.
  - rewrite <-(sapp_assoc save_dir "/" ".failed.txt"), <-Hj.
    pose proof (resolve_join_app save_dir "" ".failed.txt") as H.
    rewrite sapp_nil_l in H. rewrite H, Hres by done. unfold k. by rewrite <-app_assoc.
  - rewrite Hrun. unfold written, k. simpl. by rewrite sapp_assoc, <-!app_assoc.
Qed.

(** C9, as stated, fails for every link: no call of [save_pdf] writes a
    file [<index>.failed.txt] directly in [base_dir]. *)
Lemma save_pdf_no_marker_beside_directory :
  ¬ ∃ (net : nat → request → exn + response) (n : Z) (link base_dir : string)
      (timeout : Z) (w : world) (d : string),
      basename link = ""
      ∧ fs (save_pdf net n link base_dir timeout w).2
          !! Fs.resolve (join base_dir (zfill 3 (str n) +:+ ".failed.txt"))
        = Some (File d)
      ∧ fs w !! Fs.resolve (join base_dir (zfill 3 (str n) +:+ ".failed.txt"))
        ≠ Some (File d).
Proof.
  intros (net & n & link & base_dir & timeout & w & d & _ & Hk & Hw).
  pose proof (index_plain n) as Hp.
  pose proof (resolve_join_app base_dir (zfill 3 (str n)) ".failed.txt") as Hr.
  rewrite join_eq in Hr by by apply no_slash_startswith, plain_no_slash.
  rewrite sapp_assoc in Hr. rewrite <-join_eq in Hr.
  2:{ destruct (zfill 3 (str n)) eqn:E; [done|]. rewrite sapp_cons. simpl.
      apply plain_no_slash in Hp. simpl in Hp. by destruct (is_slash a). }
  rewrite Hr in Hk, Hw.
  2,4:by apply plain_no_slash.
  2,3:apply plain_app_suffix; [by apply plain_no_slash|done|simpl; lia].
  apply save_pdf_new_file in Hk as (name & E); [|done].
  apply (f_equal length) in E. rewrite !length_app in E. simpl in E. lia.
Qed.

End EmptySegment.

(** * The index string *)

Section IndexString.
Import Str OsPath.

Variable http : nat → request → exn + response.

(** C10: for every index [n >= 0] the three writers use the same string:
    [str(n)] padded on the left with zeros to at least three characters, so
    an index of 1000 or more is its plain decimal form, and different
    indices give different strings.  Whenever its file can be opened,
    [results_summary] returns and the row it appends starts with that
    string.  Whenever the directory of that name can be made under
    [base_dir], [save_pdf] and [save_link] leave it there, whatever their
    outcome; [save_pdf] writes no file but directly inside it, and
    [save_link] writes [website_link.txt] inside it. *)
Theorem index_string_agrees (n : Z) :
  0 ≤ n →
  let idx := zfill 3 (str n) in
  idx = zeros (3 - String.length (str n)) +:+ str n
  ∧ (3 ≤ String.length idx)%nat
  ∧ (1000 ≤ n → idx = str n)
  ∧ (∀ m, 0 ≤ m → zfill 3 (str m) = idx → m = n)
  ∧ (∀ title link base_dir w w1,
       Fs.makedirs base_dir w = (Return tt, w1) →
       fs w1 !! (Fs.resolve base_dir ++ ["results_summary.csv"]) ≠ Some Dir →
       ∃ w', results_summary n title link base_dir w = (Return tt, w')
             ∧ last (trace w')
               = Some (FileAppend (join base_dir "results_summary.csv")
                         (idx +:+ ", " +:+ title +:+ ", " +:+ link +:+ nl)))
  ∧ (∀ link base_dir timeout w w1,
       Fs.makedirs (join base_dir idx) w = (Return tt, w1) →
       Fs.is_dir (fs (save_pdf http n link base_dir timeout w).2)
         (Fs.resolve base_dir ++ [idx]) = true
       ∧ ∀ k d, fs (save_pdf http n link base_dir timeout w).2 !! k = Some (File d) →
                fs w !! k ≠ Some (File d) →
                ∃ name, k = Fs.resolve base_dir ++ [idx; name])
  ∧ (∀ link base_dir w w1,
       Fs.makedirs (join base_dir idx) w = (Return tt, w1) →
       Fs.is_dir (fs (save_link n link base_dir w).2) (Fs.resolve base_dir ++ [idx]) = true
       ∧ (Fs.is_dir (fs w1) (Fs.resolve base_dir ++ [idx; "website_link.txt"]) = false →
          fs (save_link n link base_dir w).2
            !! (Fs.resolve base_dir ++ [idx; "website_link.txt"]) = Some (File link))).
Proof.
  intros Hn idx. split_and!.
  - by apply zfill_digits, str_digits.
  - apply zfill_length.
  - intros Hbig. unfold idx, zfill. pose proof (str_length_ge_3 n). by case_decide; [|lia].
  - intros m Hm E. by apply index_inj.
  - subst idx. intros title link base_dir w w1 Hmk Hk.
    rewrite results_summary_run, Hmk.
    destruct (fs w1 !! _) as [[|old]|]; [done|..]; eexists; (split; [reflexivity|]); simpl.
    + by rewrite last_snoc.
    + by rewrite last_app.
  - subst idx. intros link base_dir timeout w w1 Hmk. split.
    + destruct (save_dir_shape base_dir n) as (_ & _ & Hres).
      pose proof Hmk as (_ & _ & Hd & _)%makedirs_ok. rewrite Hres in Hd.
      destruct (save_pdf_outcome http n link base_dir timeout w w1 Hmk)
        as [(name & p & data & Hw & _)|(e & Hw & _)]; rewrite Hw; simpl; [|done].
      rewrite is_dir_insert_ne; [done|].
      intros E. apply (f_equal length) in E. rewrite !length_app in E. simpl in E. lia.
    + intros k d. apply save_pdf_new_file.
  - subst idx. intros link base_dir w w1 Hmk.
    destruct (save_link_run n link base_dir w) as (Heq & Hdir).
    rewrite Heq, Hmk.
    destruct (Hdir w1 Hmk) as (Hd & Hpar & _).
    destruct (save_dir_shape base_dir n) as (_ & _ & Hres).
    rewrite Hpar, Hres in Hd.
    destruct (Fs.is_dir (fs w1) (Fs.resolve base_dir ++ [zfill 3 (str n); "website_link.txt"]))
      eqn:Ek; simpl; [by split|].
    split; [|intros _; apply lookup_insert_eq].
    rewrite is_dir_insert_ne; [done|].
    intros E. apply (f_equal length) in E. rewrite !length_app in E. simpl in E. lia.
Qed.

End IndexString.

(** * A whole session *)

Section SessionFacts.
Import Str OsPath.

Lemma resolve_plain (y : string) : plain y = true → Fs.resolve y = [y].
Proof.
  intros Hp. pose proof (resolve_join "" y Hp) as H.
  rewrite join_eq in H by by apply no_slash_startswith, plain_no_slash.
  exact H.
Qed.


Lemma strftime_stamp (t : datetime) : all_chars is_stamp_char (strftime_Ymd_HMS t) = true.
Proof.
  unfold strftime_Ymd_HMS.
  by rewrite !all_chars_app, !zfill_stamp by apply str_stamp.
Qed.

Lemma strftime_plain (t : datetime) : plain (strftime_Ymd_HMS t) = true.
Proof.
  apply stamp_plain; [apply strftime_stamp|].
  intros E. apply (f_equal String.length) in E. unfold strftime_Ymd_HMS in E.
  rewrite !slength_app in E. pose proof (zfill_length 4 (str (year t))). simpl in E. lia.
Qed.






Lemma index_not_name (n : Z) (name : string) :
  all_chars is_stamp_char name = false → zfill 3 (str n) ≠ name.
Proof.
  intros Hname E. rewrite <-E in Hname.
  by rewrite zfill_stamp in Hname by apply str_stamp.
Qed.










End SessionFacts.

Section SessionSteps.
Import Str OsPath.

Variable http : nat → request → exn + response.


End SessionSteps.

Section SessionRun.
Import Str OsPath.

Variable http : nat → request → exn + response.
Variable get_search_results : string → string → list SearchResult.
Variable utcnow : datetime.

Lemma requests_made_warn (m : gmap (list string) node) (t : list event) (c msg : string) :
  requests_made (World m (t ++ [Warn c msg])) = requests_made (World m t).
Proof. unfold requests_made. simpl. by rewrite filter_app, app_nil_r. Qed.




End SessionRun.

(** * Concrete runs *)

(** C1, as stated, fails: the request ends in an error status, the name of
    the marker would have 263 bytes, which the system refuses, and the
    [OSError] of the marker writer leaves [save_pdf] with no marker
    written. *)
Lemma save_pdf_marker_too_long :
  save_pdf_try net_404 link_long (OsPath.join "output/000" (OsPath.basename link_long)) w1_000
  = (Raise HTTPError, World (fs w1_000) [HttpGet (pdf_request link_long)])
  ∧ String.length (OsPath.basename link_long +:+ ".404error.txt") = 263%nat
  ∧ save_pdf net_404 0 link_long "output" 60 w_empty
    = (Raise OSError, World (fs w1_000) [HttpGet (pdf_request link_long)])
  ∧ fs w1_000 = <[ ["output"; "000"] := Dir ]> (<[ ["output"] := Dir ]> ∅).
Proof. split; [run|]. split; [run|]. split; run. Qed.

Lemma save_pdf_failure_marker_witness :
  save_pdf net_404 0 link_a "output" 60 w_empty
  = (Return tt,
      World (<[ ["output"; "000"; "a.pdf.404error.txt"]
                := File ("recieved 404 error when trying to download" +:+ nl +:+ link_a) ]>
             (fs w1_000))
            [HttpGet (pdf_request link_a);
             FileWrite "output/000/a.pdf.404error.txt"
               ("recieved 404 error when trying to download" +:+ nl +:+ link_a)])
  ∧ ∃ e', save_pdf net_404 0 link_a "output" 60 w_squat
          = (Raise e', World (fs w_squat) (trace w_squat ++ [HttpGet (pdf_request link_a)])).
Proof.
  split.
  - destruct (save_pdf_failure_marker net_404 0 link_a "output" 60 w_empty w1_000
                (World (fs w1_000) [HttpGet (pdf_request link_a)]) HTTPError
                ltac:(run) ltac:(run) ltac:(run)) as (_ & H & _).
    etrans; [apply H; run|run].
  - destruct (save_pdf_failure_marker net_404 0 link_a "output" 60 w_squat w_squat
                (World (fs w_squat) [HttpGet (pdf_request link_a)]) HTTPError
                ltac:(run) ltac:(run) ltac:(run)) as (_ & _ & H).
    destruct H as (e' & _ & Hrun); [right; run|]. by exists e'.
Defined.

(** C2, as stated, fails: the request ends in an error status, the marker's
    place is taken by a directory, and the [IsADirectoryError] of the marker
    writer leaves [save_pdf]. *)
Lemma save_pdf_marker_blocked :
  save_pdf_try net_404 link_a "output/000/a.pdf" w_squat
  = (Raise HTTPError, World (fs w_squat) [HttpGet (pdf_request link_a)])
  ∧ save_pdf net_404 0 link_a "output" 60 w_squat
    = (Raise IsADirectoryError, World (fs w_squat) [HttpGet (pdf_request link_a)]).
Proof. split; run. Qed.

Lemma save_pdf_contains_failure_witness :
  (∃ w' data,
     save_pdf net_timeout 7 link_a "output" 60 w_empty = (Return tt, w')
     ∧ fs w' !! (Fs.resolve "output" ++ ["007"; "a.pdf" +:+ ".timedout.txt"])
       = Some (File data))
  ∧ save_pdf net_404 0 link_long "output" 60 w_empty
    = (Raise OSError, World (fs w1_000) [HttpGet (pdf_request link_long)]).
Proof.
  split.
  - destruct (save_pdf_contains_failure net_timeout 7 link_a "output" 60 w_empty
                (Fs.makedirs "output/007" w_empty).2
                (World (fs (Fs.makedirs "output/007" w_empty).2) [HttpGet (pdf_request link_a)])
                ReadTimeout ltac:(run) ltac:(run) ltac:(run)) as (H & _).
    destruct H as (w' & data & Hrun & Hk & _); [run|run|].
    exists w', data. split; [exact Hrun|exact Hk].
  - destruct (save_pdf_contains_failure net_404 0 link_long "output" 60 w_empty w1_000
                (World (fs w1_000) [HttpGet (pdf_request link_long)])
                HTTPError ltac:(run) ltac:(run) ltac:(run)) as (_ & H).
    destruct (H OSError ltac:(run)) as (Hrun & _). exact Hrun.
Defined.

Lemma save_pdf_success_writes_body_witness :
  Fs.resolve "output/000/a.pdf" = ["output"; "000"; "a.pdf"]
  ∧ save_pdf net_200 0 link_a "output" 60 w_empty
    = (Return tt,
        World (<[ ["output"; "000"; "a.pdf"] := File "BODY" ]> (fs w1_000))
              [HttpGet (pdf_request link_a); FileWrite "output/000/a.pdf" "BODY"]).
Proof.
  destruct (save_pdf_success_writes_body net_200 0 link_a "output" 60 w_empty w1_000
              (Response 200 "BODY" "BODY") ltac:(run) ltac:(run) ltac:(simpl; lia)
              ltac:(run) ltac:(run) ltac:(run)) as (H1 & H2).
  split; [run|]. etrans; [exact H2|run].
Defined.

(** C5, as stated, fails: the response is a 200 with body ["BODY"], the
    link ends in [/], and no file with that content exists afterwards; the
    only file is a marker. *)
Lemma save_pdf_empty_segment_no_document :
  net_200 0%nat (pdf_request link_docs) = inr (Response 200 "BODY" "BODY")
  ∧ OsPath.basename link_docs = ""
  ∧ fs (save_pdf net_200 0 link_docs "output" 60 w_empty).2
    = <[ ["output"; "000"; ".failed.txt"]
         := File ("recieved an error when trying to download" +:+ nl +:+ link_docs) ]>
      (<[ ["output"; "000"] := Dir ]> (<[ ["output"] := Dir ]> ∅))
  ∧ ¬ ∃ k, fs (save_pdf net_200 0 link_docs "output" 60 w_empty).2 !! k = Some (File "BODY").
Proof.
  assert (fs (save_pdf net_200 0 link_docs "output" 60 w_empty).2
    = <[ ["output"; "000"; ".failed.txt"]
         := File ("recieved an error when trying to download" +:+ nl +:+ link_docs) ]>
      (<[ ["output"; "000"] := Dir ]> (<[ ["output"] := Dir ]> ∅))) as E by run.
  split_and!; [done|done|exact E|].
  rewrite E. intros [k Hk].
  repeat (rewrite lookup_insert in Hk; case_decide; [by simplify_eq|]).
  by rewrite lookup_empty in Hk.
Qed.

(** C3: [save_pdf] does not use its [timeout] argument.  Whatever value is
    passed the call behaves the same, and with [timeout = 5] the request
    still carries the literal bound [60]. *)
Theorem save_pdf_timeout_unused :
  (∀ http n link base_dir t1 t2 w,
     save_pdf http n link base_dir t1 w = save_pdf http n link base_dir t2 w)
  ∧ trace (save_pdf net_200 0 link_a "output" 5 w_empty).2
    = [HttpGet (Request link_a true headers (Some 60));
       FileWrite "output/000/a.pdf" "BODY"].
Proof. split; [reflexivity|run]. Qed.

Lemma save_link_writes_link_witness :
  ∃ w',
    save_link 1 "http://h.org/" "output" w_empty = (Return tt, w')
    ∧ fs w' !! ["output"; "001"; "website_link.txt"] = Some (File "http://h.org/")
    ∧ trace w' = [FileWrite "output/001/website_link.txt" "http://h.org/"].
Proof.
  pose proof (save_link_writes_link 1 "http://h.org/" "output" w_empty) as H.
  destruct (save_link 1 "http://h.org/" "output" w_empty) as [[[]|e] w'] eqn:E.
  - destruct H as (w1 & Hmk & _ & _ & Hfs & Htr).
    exists w'. split; [reflexivity|]. split; [|exact Htr].
    rewrite Hfs. apply lookup_insert_eq.
  - exfalso. revert E. vm_compute. discriminate.
Defined.

Lemma results_summary_row_witness :
  ∃ w',
    results_summary 3 "Report, 2019" "http://h.org/a.pdf" "output" w_empty = (Return tt, w')
    ∧ Fs.resolve "output/results_summary.csv" = ["output"; "results_summary.csv"]
    ∧ fs w' = <[ ["output"; "results_summary.csv"]
                 := File ("search number, title, link" +:+ nl
                          +:+ "003, Report, 2019, http://h.org/a.pdf" +:+ nl) ]>
              (fs (Fs.makedirs "output" w_empty).2)
    ∧ trace w' = [FileWrite "output/results_summary.csv" ("search number, title, link" +:+ nl);
                  FileAppend "output/results_summary.csv"
                    ("003, Report, 2019, http://h.org/a.pdf" +:+ nl)].
Proof.
  apply (results_summary_row 3 "Report, 2019" "http://h.org/a.pdf" "output" w_empty
           (Fs.makedirs "output" w_empty).2).
  - run.
  - vm_compute. discriminate.
Defined.

(** C9, as amended: for some link whose final path segment is empty,
    [save_pdf] with a 2xx response writes no document: opening the path of
    the result's directory as a file fails, and the generic-failure marker
    is the file [.failed.txt] inside the result's directory,
    [<base_dir>/<index>/.failed.txt]; it is the only file there is, and
    nothing is written directly in [base_dir]. *)
Theorem save_pdf_empty_segment_marker :
  ∃ link : string,
    OsPath.basename link = ""
    ∧ net_200 0%nat (pdf_request link) = inr (Response 200 "BODY" "BODY")
    ∧ OsPath.join (OsPath.join "output" (Str.zfill 3 (Str.str 0))) (OsPath.basename link)
      = "output/000/"
    ∧ Fs.open_target "output/000/" (fs w1_000) = inl IsADirectoryError
    ∧ save_pdf net_200 0 link "output" 60 w_empty
      = (Return tt,
          World (<[ ["output"; "000"; ".failed.txt"]
                    := File ("recieved an error when trying to download" +:+ nl +:+ link) ]>
                 (<[ ["output"; "000"] := Dir ]> (<[ ["output"] := Dir ]> ∅)))
                [HttpGet (pdf_request link);
                 FileWrite "output/000/.failed.txt"
                   ("recieved an error when trying to download" +:+ nl +:+ link)])
    ∧ Fs.resolve "output/000/.failed.txt" = Fs.resolve "output/000" ++ [".failed.txt"].
Proof.
  exists link_docs. split; [reflexivity|]. split; [reflexivity|]. split; [reflexivity|].
  split; [run|].
  destruct (save_pdf_empty_segment_run net_200 0 link_docs "output" 60 w_empty w1_000
              (Response 200 "BODY" "BODY") ltac:(run) ltac:(run) ltac:(run) ltac:(simpl; lia)
              ltac:(run) ltac:(run)) as (_ & _ & _ & Hrun).
  split; [|run]. etrans; [exact Hrun|run].
Qed.

Lemma index_string_agrees_witness :
  Str.zfill 3 (Str.str 1234) = Str.str 1234
  ∧ (∃ w', results_summary 1234 "T" "http://l" "out" w_empty = (Return tt, w')
           ∧ last (trace w')
             = Some (FileAppend (OsPath.join "out" "results_summary.csv")
                       (Str.zfill 3 (Str.str 1234) +:+ ", " +:+ "T" +:+ ", "
                        +:+ "http://l" +:+ nl)))
  ∧ Fs.is_dir (fs (save_pdf net_404 1234 link_a "out" 60 w_empty).2)
      (Fs.resolve "out" ++ [Str.zfill 3 (Str.str 1234)]) = true
  ∧ fs (save_link 1234 "http://l" "out" w_empty).2
      !! (Fs.resolve "out" ++ [Str.zfill 3 (Str.str 1234); "website_link.txt"])
    = Some (File "http://l").
Proof.
  destruct (index_string_agrees net_404 1234 ltac:(lia)) as (_ & _ & H3 & _ & H5 & H6 & H7).
  split; [apply H3; lia|]. split; [|split].
  - apply (H5 "T" "http://l" "out" w_empty (Fs.makedirs "out" w_empty).2); [run|].
    vm_compute. discriminate.
  - by destruct (H6 link_a "out" 60 w_empty (Fs.makedirs "out/1234" w_empty).2 ltac:(run))
      as (H & _).
  - destruct (H7 "http://l" "out" w_empty (Fs.makedirs "out/1234" w_empty).2 ltac:(run))
      as (_ & H).
    apply H. run.
Defined.

Lemma get_webpage_num_witness :
  ∃ tail,
    trace (get_webpage net_200 "http://g.com/search?q=x" 150 "output" w_empty).2
    = [Warn "SearchWarning" "More than 100 search results not implemented, setting to 100";
       HttpGet (Request "http://g.com/search?q=x&num=100" true headers None)] ++ tail.
Proof.
  destruct (get_webpage_num net_200 "http://g.com/search?q=x" 150 "output" w_empty)
    as ((tail & Ht & _) & _ & _).
  exists tail. exact Ht.
Defined.





(** * Further properties of [save_pdf] and the marker writers *)

Section SavePdfMore.
Import Str OsPath.

Variable http : nat → request → exn + response.

(** X1: An exception of the request that is no [Exception] (a
    [KeyboardInterrupt], a [SystemExit]) passes every [except] clause:
    [save_pdf] raises it again and writes no marker. *)
Theorem save_pdf_base_exception_propagates (n : Z) (link base_dir : string) (timeout : Z)
    (w w1 : world) (e : exn) :
  let save_dir := join base_dir (zfill 3 (str n)) in
  Fs.makedirs save_dir w = (Return tt, w1) →
  http (requests_made w1) (pdf_request link) = inl e →
  isinstance_Exception e = false →
  save_pdf http n link base_dir timeout w
  = (Raise e, World (fs w1) (trace w1 ++ [HttpGet (pdf_request link)])).
Proof.
  intros save_dir Hmk Hreq He.
  unfold save_dir in Hmk. rewrite (save_pdf_after_makedirs _ _ _ _ _ _ _ Hmk).
  unfold try_except. rewrite (request_exception_raises http link _ w1 e Hreq).
  unfold save_pdf_except. rewrite He. by destruct e.
Qed.

(** X2: Every error status, not only 404, is handed to the writer of the
    [.404error.txt] marker.  When the path of the marker is within the
    limits of the system and no directory has its name, the marker with
    the 404 message is the one file written, and the body of the error page
    is dropped.  When the name of the marker is refused or a directory has
    its name, the error of opening it leaves [save_pdf] and nothing is
    written. *)
Theorem save_pdf_error_status_marker (n : Z) (link base_dir : string) (timeout : Z)
    (w w1 : world) (page : response) :
  let save_dir := join base_dir (zfill 3 (str n)) in
  let fname := join save_dir (basename link) in
  let k := Fs.resolve base_dir ++ [zfill 3 (str n); basename link +:+ ".404error.txt"] in
  let marker := "recieved 404 error when trying to download" +:+ nl +:+ link in
  Fs.makedirs save_dir w = (Return tt, w1) →
  http (requests_made w1) (pdf_request link) = inr page →
  400 ≤ status_code page < 600 →
  (Fs.path_fits (fname +:+ ".404error.txt") = true → Fs.is_dir (fs w1) k = false →
   save_pdf http n link base_dir timeout w
   = (Return tt,
       World (<[k := File marker]> (fs w1))
             (trace w1 ++ [HttpGet (pdf_request link);
                           FileWrite (fname +:+ ".404error.txt") marker])))
  ∧ (Fs.name_error (basename link +:+ ".404error.txt") ≠ None
     ∨ Fs.is_dir (fs w1) k = true →
     ∃ e, Fs.open_target (fname +:+ ".404error.txt") (fs w1) = inl e
          ∧ save_pdf http n link base_dir timeout w
            = (Raise e, World (fs w1) (trace w1 ++ [HttpGet (pdf_request link)]))).
Proof.
  intros save_dir fname k marker Hmk Hp Hs.
  pose proof (error_status_raises http link fname w1 page Hp Hs) as Htry.
  destruct (save_pdf_handled http n link base_dir timeout w w1 _ HTTPError Hmk Htry eq_refl)
    as (_ & _ & Hrun).
  simpl in Hrun. subst save_dir fname k marker. split.
  - intros Hfit Hk.
    rewrite Hrun, (marker_fits n link base_dir suffix_404 w w1 Hmk eq_refl ltac:(simpl; lia)
                     Hfit Hk).
    unfold written. simpl. by rewrite <-app_assoc.
  - intros Hbad.
    destruct (marker_refused n link base_dir suffix_404 w w1 Hmk eq_refl ltac:(simpl; lia)
                Hbad) as (e & Ho).
    exists e. split; [exact Ho|]. by rewrite Hrun, Ho.
Qed.

(** X3: Once the result's directory is made, a call of [save_pdf] makes exactly
    one request and writes at most one file, whatever the outcome: there is
    no second attempt. *)
Theorem save_pdf_single_attempt (n : Z) (link base_dir : string) (timeout : Z)
    (w w1 : world) :
  let save_dir := join base_dir (zfill 3 (str n)) in
  let w' := (save_pdf http n link base_dir timeout w).2 in
  Fs.makedirs save_dir w = (Return tt, w1) →
  requests_made w' = S (requests_made w)
  ∧ ∃ tail, trace w' = trace w ++ HttpGet (pdf_request link) :: tail
            ∧ (tail = [] ∨ ∃ p d, tail = [FileWrite p d]).
Proof.
  intros save_dir w' Hmk.
  pose proof (makedirs_trace (join base_dir (zfill 3 (str n))) w) as Htr.
  unfold save_dir in Hmk. rewrite Hmk in Htr. simpl in Htr.
  assert (∃ tail, trace w' = trace w ++ HttpGet (pdf_request link) :: tail
                  ∧ (tail = [] ∨ ∃ p d, tail = [FileWrite p d])) as (tail & Ht & Htail).
  { unfold w'.
    destruct (save_pdf_outcome http n link base_dir timeout w w1 Hmk)
      as [(name & p & d & Hrun & _)|(e & Hrun & _)]; rewrite Hrun; simpl; rewrite Htr.
    - exists [FileWrite p d]. split; [by rewrite <-app_assoc|]. right. by eexists _, _.
    - exists []. split; [done|]. by left. }
  split; [|by exists tail].
  unfold requests_made. rewrite Ht, filter_app, length_app.
  destruct Htail as [->|(p & d & ->)]; simpl; lia.
Qed.

(** What exists outside the result's directory is kept by [save_pdf]. *)
Lemma save_pdf_keeps_outside (n : Z) (link base_dir : string) (timeout : Z)
    (w : world) (k : list string) (v : node) :
  fs w !! k = Some v →
  (∀ name, k ≠ Fs.resolve base_dir ++ [zfill 3 (str n); name]) →
  fs (save_pdf http n link base_dir timeout w).2 !! k = Some v.
Proof.
  intros Hv Hout.
  destruct (Fs.makedirs (join base_dir (zfill 3 (str n))) w) as [[[]|e] w1] eqn:Hmk.
  - pose proof Hmk as (_ & _ & _ & Hmono & _)%makedirs_ok.
    destruct (save_pdf_outcome http n link base_dir timeout w w1 Hmk)
      as [(name & p & d & Hrun & _)|(e & Hrun & _)]; rewrite Hrun; simpl.
    + rewrite lookup_insert_ne; [by apply Hmono|]. intros E. by apply (Hout name).
    + by apply Hmono.
  - unfold save_pdf, bind. rewrite Hmk. simpl.
    apply makedirs_raise in Hmk as (_ & _ & Hmono & _). by apply Hmono.
Qed.

(** X5: The marker writers need a directory part: for a bare file name
    [os.path.dirname] is empty, [os.makedirs("")] raises
    [FileNotFoundError], and nothing is written. *)
Theorem marker_writers_bare_name (fname link : string) (w : world) :
  no_slash fname = true →
  write_timeout_msg fname link w = (Raise FileNotFoundError, w)
  ∧ write_fail_msg fname link w = (Raise FileNotFoundError, w)
  ∧ write_generic_fail_msg fname link w = (Raise FileNotFoundError, w).
Proof.
  intros Hn.
  assert (dirname fname = "") as Hd.
  { unfold dirname. by rewrite rsplit_noslash. }
  unfold write_timeout_msg, write_fail_msg, write_generic_fail_msg, bind.
  by rewrite Hd.
Qed.

(** X6: Called on their own with [fname = join(d, b)], for a directory path
    [d] that is not empty and does not end in [/] and that [makedirs] can
    make, each marker writer first makes [d] with its parents and then
    opens the marker beside the place of the file.  When the path of the
    marker is within the limits of the system and no directory has its
    name, the marker is written into [d], which need not have been there.
    When the name of the marker is refused or a directory has its name, the
    writer raises the error of [open]; the directory stays made and no
    marker is written. *)
Theorem marker_writers_make_directory (d b link : string) (w w1 : world) :
  d ≠ "" → endswith_slash d = false → no_slash b = true →
  Fs.makedirs d w = (Return tt, w1) →
  let outcome (write : string → string → M unit) (sfx msg : string) :=
    (Fs.path_fits (join d b +:+ sfx) = true →
     Fs.is_dir (fs w1) (Fs.resolve d ++ [b +:+ sfx]) = false →
     write (join d b) link w
     = (Return tt,
         written w1 (Fs.resolve d ++ [b +:+ sfx]) (join d b +:+ sfx) (msg +:+ nl +:+ link)))
    ∧ (Fs.name_error (b +:+ sfx) ≠ None
       ∨ Fs.is_dir (fs w1) (Fs.resolve d ++ [b +:+ sfx]) = true →
       ∃ e, Fs.open_target (join d b +:+ sfx) (fs w1) = inl e
            ∧ write (join d b) link w = (Raise e, w1)) in
  outcome write_timeout_msg ".timedout.txt" msg_timedout
  ∧ outcome write_fail_msg ".404error.txt" msg_404
  ∧ outcome write_generic_fail_msg ".failed.txt" msg_failed.
Proof.
  intros Hd He Hb Hmk outcome.
  pose proof Hmk as (Hr & _)%makedirs_ready.
  assert (∀ sfx msg, no_slash sfx = true → (3 ≤ String.length sfx)%nat →
            outcome (marker_write sfx msg) sfx msg) as Hgen.
  { intros sfx msg Hs Hl.
    pose proof (plain_app_suffix b sfx Hb Hs Hl) as Hp.
    assert (marker_write sfx msg (join d b) link w
            = match open_name (fs w1) (Fs.resolve d) (b +:+ sfx) with
              | inl e => (Raise e, w1)
              | inr k => (Return tt, written w1 k (join d b +:+ sfx) (msg +:+ nl +:+ link))
              end) as Hrun.
    { unfold marker_write, bind. rewrite dirname_join, Hmk by done. unfold Fs.open_w.
      rewrite open_in_dir by done. by destruct (open_name _ _ _). }
    split.
    - intros Hfit Hfree. rewrite Hrun, open_name_free; [done| |done].
      apply path_fits_error in Hfit. destruct Hr as (Hpe & _).
      by rewrite path_error_join_app in Hfit.
    - intros Hbad. rewrite open_in_dir, Hrun by done. unfold open_name.
      destruct (Fs.name_error (b +:+ sfx)) as [e|]; [by exists e|].
      destruct Hbad as [|Hdir]; [done|]. rewrite Hdir. by eexists. }
  split; [|split].
  - exact (Hgen suffix_timedout msg_timedout eq_refl ltac:(simpl; lia)).
  - exact (Hgen suffix_404 msg_404 eq_refl ltac:(simpl; lia)).
  - exact (Hgen suffix_failed msg_failed eq_refl ltac:(simpl; lia)).
Qed.

End SavePdfMore.

(** * Further properties of the query runner and the recorders *)

Section RunnerMore.
Import Str OsPath.

Variable http : nat → request → exn + response.
Variable get_search_results : string → string → list SearchResult.
Variable utcnow : datetime.

Lemma makedirs_with_trace (p : string) (m : gmap (list string) node) (t t' : list event) :
  Fs.makedirs p (World m t')
  = ((Fs.makedirs p (World m t)).1, World (fs (Fs.makedirs p (World m t)).2) t').
Proof.
  unfold Fs.makedirs. simpl. case_bool_decide; [done|].
  by destruct (Fs.mkdir_walk _ _ m) as [[e|] m'].
Qed.

(** [save_google_search] in full, once the directory is made. *)
Lemma save_google_search_run (url webpage_text base_dir : string) (w w1 : world) :
  let p1 := join base_dir "google-search-term.txt" in
  let p2 := join base_dir "google-search-result.html" in
  let k1 := Fs.resolve base_dir ++ ["google-search-term.txt"] in
  let k2 := Fs.resolve base_dir ++ ["google-search-result.html"] in
  Fs.makedirs base_dir w = (Return tt, w1) →
  save_google_search url webpage_text base_dir w
  = if Fs.is_dir (fs w1) k1 then (Raise IsADirectoryError, w1)
    else if Fs.is_dir (fs w1) k2 then (Raise IsADirectoryError, written w1 k1 p1 url)
    else (Return tt, written (written w1 k1 p1 url) k2 p2 webpage_text).
Proof.
  intros p1 p2 k1 k2 Hmk. unfold save_google_search, bind. rewrite Hmk.
  apply makedirs_ready in Hmk as (Hr & _).
  unfold Fs.open_w at 1. fold p1. unfold p1.
  rewrite open_file_in_dir; [|done|reflexivity|done]. fold k1 p1.
  destruct (Fs.is_dir (fs w1) k1) eqn:E1; [done|].
  unfold Fs.open_w. simpl. fold p2. unfold p2.
  rewrite open_file_in_dir; [|done|reflexivity|by apply ready_insert_file].
  fold k2 p2. rewrite is_dir_insert_ne.
  - by destruct (Fs.is_dir (fs w1) k2).
  - unfold k1, k2. intros E. by simplify_eq.
Qed.

(** X7: [save_google_search] writes the query into [google-search-term.txt] and
    the page into [google-search-result.html] of [base_dir], replacing what
    was there.  The two writes are not atomic: when only the second one
    fails, the first file is already written and stays. *)
Theorem save_google_search_files (url webpage_text base_dir : string) (w w1 : world) :
  let p1 := join base_dir "google-search-term.txt" in
  let p2 := join base_dir "google-search-result.html" in
  let k1 := Fs.resolve base_dir ++ ["google-search-term.txt"] in
  let k2 := Fs.resolve base_dir ++ ["google-search-result.html"] in
  Fs.makedirs base_dir w = (Return tt, w1) →
  Fs.is_dir (fs w1) k1 = false →
  (Fs.is_dir (fs w1) k2 = false →
   save_google_search url webpage_text base_dir w
   = (Return tt,
       World (<[k2 := File webpage_text]> (<[k1 := File url]> (fs w1)))
             (trace w ++ [FileWrite p1 url; FileWrite p2 webpage_text])))
  ∧ (Fs.is_dir (fs w1) k2 = true →
     save_google_search url webpage_text base_dir w
     = (Raise IsADirectoryError,
         World (<[k1 := File url]> (fs w1)) (trace w ++ [FileWrite p1 url]))).
Proof.
  intros p1 p2 k1 k2 Hmk H1.
  pose proof (save_google_search_run url webpage_text base_dir w w1 Hmk) as Hrun.
  fold p1 p2 k1 k2 in Hrun. rewrite H1 in Hrun.
  pose proof (makedirs_trace base_dir w) as Htr. rewrite Hmk in Htr. simpl in Htr.
  split; intros H2; rewrite H2 in Hrun; rewrite Hrun; unfold written; simpl;
    by rewrite Htr, <-?app_assoc.
Qed.

(** X8: [get_webpage] does not look at the status of the response: the text of
    any page, an error page included, is saved and returned, and the saved
    query is the URL that was requested, with its [&num=] part. *)
Theorem get_webpage_saves_any_status (url : string) (results : Z) (base_dir : string)
    (w w1 : world) (page : response) :
  let clamped := if bool_decide (results > 100) then 100 else results in
  let query := url +:+ "&num=" +:+ str clamped in
  let warning :=
    if bool_decide (results > 100)
    then [Warn "SearchWarning"
            "More than 100 search results not implemented, setting to 100"]
    else [] in
  let k1 := Fs.resolve base_dir ++ ["google-search-term.txt"] in
  let k2 := Fs.resolve base_dir ++ ["google-search-result.html"] in
  Fs.makedirs base_dir w = (Return tt, w1) →
  http (requests_made w) (Request query true headers None) = inr page →
  Fs.is_dir (fs w1) k1 = false → Fs.is_dir (fs w1) k2 = false →
  get_webpage http url results base_dir w
  = (Return (text page),
      World (<[k2 := File (text page)]> (<[k1 := File query]> (fs w1)))
            (trace w ++ warning
             ++ [HttpGet (Request query true headers None);
                 FileWrite (join base_dir "google-search-term.txt") query;
                 FileWrite (join base_dir "google-search-result.html") (text page)])).
Proof.
  intros clamped query warning k1 k2 Hmk Hpage H1 H2.
  assert (∀ t, requests_made (World (fs w) t) = requests_made w →
    (do webpage <- requests_get http (Request query true headers None) ;
     save_google_search query (text webpage) base_dir ;; ret (text webpage))
      (World (fs w) t)
    = (Return (text page),
        World (<[k2 := File (text page)]> (<[k1 := File query]> (fs w1)))
              (t ++ [HttpGet (Request query true headers None);
                     FileWrite (join base_dir "google-search-term.txt") query;
                     FileWrite (join base_dir "google-search-result.html") (text page)])))
    as Hrest.
  { intros t Hreq. unfold bind at 1. unfold requests_get. rewrite Hreq, Hpage. simpl.
    unfold bind at 1.
    assert (Fs.makedirs base_dir (World (fs w) (t ++ [HttpGet (Request query true headers None)]))
            = (Return tt, World (fs w1) (t ++ [HttpGet (Request query true headers None)])))
      as Hmk'.
    { rewrite (makedirs_with_trace _ _ (trace w)).
      destruct w as [m t0]. simpl in *. by rewrite Hmk. }
    rewrite (save_google_search_run _ _ _ _ _ Hmk'). fold k1 k2. simpl.
    rewrite H1, H2. unfold ret, written. simpl. by rewrite <-!app_assoc. }
  unfold get_webpage. unfold bind at 1. unfold warning. case_bool_decide as Hr.
  - unfold bind at 1. unfold warnings_warn, ret. rewrite Hrest.
    + by rewrite <-app_assoc.
    + destruct w as [m t0]. apply requests_made_warn.
  - unfold ret at 1. rewrite app_nil_l. destruct w as [m t0]. by apply Hrest.
Qed.

(** X9: When the request for the search page raises, [search_and_download]
    raises the same exception: the session directory is not made, nothing
    is written and no result is processed. *)
Theorem search_and_download_fetch_fails (url : string) (results : Z) (w : world) (e : exn) :
  let clamped := if bool_decide (results > 100) then 100 else results in
  let query := url +:+ "&num=" +:+ str clamped in
  let warning :=
    if bool_decide (results > 100)
    then [Warn "SearchWarning"
            "More than 100 search results not implemented, setting to 100"]
    else [] in
  http (requests_made w) (Request query true headers None) = inl e →
  search_and_download http get_search_results utcnow url results w
  = (Raise e,
      World (fs w) (trace w ++ warning ++ [HttpGet (Request query true headers None)])).
Proof.
  intros clamped query warning Hreq.
  unfold search_and_download, get_webpage. unfold bind at 1. unfold bind at 1.
  unfold warning. case_bool_decide as Hr.
  - unfold bind at 1. unfold warnings_warn, ret. unfold bind at 1. unfold requests_get.
    destruct w as [m t0]. rewrite requests_made_warn.
    match goal with
    | |- context [http ?a ?b] =>
        change (http a b)
          with (http (requests_made (World m t0)) (Request query true headers None))
    end.
    rewrite Hreq. simpl. by rewrite <-app_assoc.
  - unfold ret at 1. unfold bind at 1. unfold requests_get.
    match goal with
    | |- context [http ?a ?b] =>
        change (http a b) with (http (requests_made w) (Request query true headers None))
    end.
    by rewrite Hreq.
Qed.

End RunnerMore.

Section RecorderMore.
Import Str OsPath.

(** Writing a file where no directory is does not undo the directories
    that [makedirs] made: the same [makedirs] then finds everything
    there. *)
Lemma makedirs_after_file (p : string) (w w1 : world) (k : list string) :
  Fs.makedirs p w = (Return tt, w1) →
  fs w1 !! k ≠ Some Dir →
  ∀ d t, Fs.makedirs p (World (<[k := File d]> (fs w1)) t)
         = (Return tt, World (<[k := File d]> (fs w1)) t).
Proof.
  intros Hmk Hk d t.
  apply makedirs_ok in Hmk as (_ & _ & _ & _ & _ & Hidem).
  unfold Fs.makedirs in *. simpl. case_bool_decide; [done|].
  destruct (Fs.mkdir_walk _ _ (fs w1)) as [[e|] m] eqn:E; [done|].
  assert (m = fs w1) as -> by (destruct w1; by simplify_eq).
  by rewrite (mkdir_walk_insert_file _ _ _ k d E Hk).
Qed.

(** X10: The summary is append-only: two calls of [results_summary] leave the
    rows of both, in the order of the calls, after what the file held (or
    after the header, written once, when the file is new). *)
Theorem results_summary_twice (n1 n2 : Z) (t1 l1 t2 l2 base_dir : string) (w w1 : world) :
  let k := Fs.resolve base_dir ++ ["results_summary.csv"] in
  let row1 := zfill 3 (str n1) +:+ ", " +:+ t1 +:+ ", " +:+ l1 +:+ nl in
  let row2 := zfill 3 (str n2) +:+ ", " +:+ t2 +:+ ", " +:+ l2 +:+ nl in
  let start := match fs w1 !! k with
               | Some (File old) => old
               | _ => "search number, title, link" +:+ nl
               end in
  Fs.makedirs base_dir w = (Return tt, w1) →
  fs w1 !! k ≠ Some Dir →
  ∃ w',
    (results_summary n1 t1 l1 base_dir ;; results_summary n2 t2 l2 base_dir) w
    = (Return tt, w')
    ∧ fs w' = <[k := File (start +:+ row1 +:+ row2)]> (fs w1).
Proof.
  intros k row1 row2 start Hmk Hk.
  assert (∃ t, results_summary n1 t1 l1 base_dir w
               = (Return tt, World (<[k := File (start +:+ row1)]> (fs w1)) t))
    as (t & H1).
  { rewrite results_summary_run, Hmk. fold k row1. unfold start.
    destruct (fs w1 !! k) as [[|old]|]; [done|by eexists..]. }
  unfold bind. rewrite H1.
  rewrite results_summary_run, (makedirs_after_file _ _ _ _ Hmk Hk). fold k row2. simpl.
  rewrite lookup_insert_eq. eexists. split; [reflexivity|]. simpl.
  by rewrite insert_insert_eq, !sapp_assoc.
Qed.

(** X11: A second [save_link] for the same index replaces the recorded link and
    changes nothing else; with the same link the file system is as it was. *)
Theorem save_link_again (n : Z) (link1 link2 base_dir : string) (w w1 : world) :
  let k := Fs.resolve base_dir ++ [zfill 3 (str n); "website_link.txt"] in
  save_link n link1 base_dir w = (Return tt, w1) →
  ∃ w2,
    save_link n link2 base_dir w1 = (Return tt, w2)
    ∧ fs w2 = <[k := File link2]> (fs w1)
    ∧ (link2 = link1 → fs w2 = fs w1).
Proof.
  intros k Hrun.
  destruct (save_link_run n link1 base_dir w) as (Heq & _). fold k in Heq.
  rewrite Heq in Hrun.
  destruct (Fs.makedirs (join base_dir (zfill 3 (str n))) w) as [[[]|e] wm] eqn:Hmk; [|done].
  destruct (Fs.is_dir (fs wm) k) eqn:Ek; [done|]. simplify_eq.
  destruct (save_link_run n link2 base_dir
              (World (<[k := File link1]> (fs wm))
                 (trace wm ++ [FileWrite (join (join base_dir (zfill 3 (str n)))
                                            "website_link.txt") link1])))
    as (Heq2 & _).
  fold k in Heq2.
  rewrite (makedirs_after_file _ _ _ _ Hmk (is_dir_false_not_dir _ _ Ek)) in Heq2.
  simpl in Heq2.
  assert (Fs.is_dir (<[k := File link1]> (fs wm)) k = false) as Ek2.
  { unfold Fs.is_dir. rewrite lookup_insert_eq, orb_false_r.
    unfold k, Fs.implicit_dir. rewrite forallb_app. simpl. by rewrite !andb_false_r. }
  rewrite Ek2 in Heq2. eexists. split; [exact Heq2|]. simpl. split; [done|].
  intros ->. by rewrite insert_insert_eq.
Qed.

(** A regular file in the place of a directory that [makedirs] needs makes
    it fail. *)
Lemma makedirs_blocked (p : string) (w : world) (i : nat) (d : string) :
  fs w !! take i (Fs.resolve p) = Some (File d) →
  Fs.implicit_dir (take i (Fs.resolve p)) = false →
  (∃ e, (Fs.makedirs p w).1 = Raise e ∧ isinstance_Exception e = true)
  ∧ trace (Fs.makedirs p w).2 = trace w
  ∧ ∀ k v, fs w !! k = Some v → fs (Fs.makedirs p w).2 !! k = Some v.
Proof.
  intros Hf Himp. destruct (Fs.makedirs p w) as [[[]|e] w1] eqn:Hmk; simpl.
  - exfalso. pose proof Hmk as (_ & Hd)%makedirs_ready.
    apply makedirs_ok in Hmk as (_ & _ & _ & Hmono & _).
    specialize (Hd i). unfold Fs.is_dir in Hd.
    by rewrite Himp, (Hmono _ _ Hf) in Hd.
  - apply makedirs_raise in Hmk as (He & Htr & Hmono & _).
    split; [by exists e|done].
Qed.

Variable http : nat → request → exn + response.

(** X12: When [base_dir] is a regular file, the three writers raise before they
    do anything else: no request is made, nothing is written and nothing
    that exists is changed. *)
Theorem writers_blocked_by_file (n : Z) (title link base_dir : string) (timeout : Z)
    (w : world) (d : string) :
  fs w !! Fs.resolve base_dir = Some (File d) →
  Fs.implicit_dir (Fs.resolve base_dir) = false →
  let blocked (r : result unit * world) :=
    (∃ e, r.1 = Raise e ∧ isinstance_Exception e = true)
    ∧ trace r.2 = trace w
    ∧ ∀ k v, fs w !! k = Some v → fs r.2 !! k = Some v in
  blocked (results_summary n title link base_dir w)
  ∧ blocked (save_pdf http n link base_dir timeout w)
  ∧ blocked (save_link n link base_dir w).
Proof.
  intros Hf Himp blocked.
  destruct (save_dir_shape base_dir n) as (_ & _ & Hres).
  assert (blocked (Fs.makedirs (join base_dir (zfill 3 (str n))) w)) as Hsd.
  { apply (makedirs_blocked _ w (length (Fs.resolve base_dir)) d);
      by rewrite Hres, take_app_length. }
  assert (blocked (Fs.makedirs base_dir w)) as Hbd.
  { apply (makedirs_blocked _ w (length (Fs.resolve base_dir)) d);
      by rewrite firstn_all. }
  split_and!.
  - unfold results_summary, bind.
    destruct (Fs.makedirs base_dir w) as [[[]|e] w'];
      [by destruct Hbd as ((e & ? & _) & _)|done].
  - unfold save_pdf, bind.
    destruct (Fs.makedirs (join base_dir (zfill 3 (str n))) w) as [[[]|e] w'];
      [by destruct Hsd as ((e & ? & _) & _)|done].
  - unfold save_link, bind.
    destruct (Fs.makedirs (join base_dir (zfill 3 (str n))) w) as [[[]|e] w'];
      [by destruct Hsd as ((e & ? & _) & _)|done].
Qed.

End RecorderMore.

(** * What each step may change *)

Section Footprints.
Import Str OsPath.

Variable http : nat → request → exn + response.

Lemma touches_mono {A} (c : M A) (P Q : list string → Prop) :
  (∀ k, P k → Q k) → touches_only c P → touches_only c Q.
Proof. intros HPQ Hc w k Hk. by apply HPQ, (Hc w). Qed.

Lemma touches_ret {A} (a : A) (P : list string → Prop) : touches_only (ret a) P.
Proof. by intros w k Hk. Qed.

Lemma touches_bind {A B} (c : M A) (f : A → M B) (P : list string → Prop) :
  touches_only c P → (∀ a, touches_only (f a) P) → touches_only (bind c f) P.
Proof.
  intros Hc Hf w k Hk. unfold bind in Hk.
  pose proof (Hc w k) as Hcw.
  destruct (c w) as [[a|e] w'] eqn:E; simpl in *; [|by apply Hcw].
  destruct (decide (fs w' !! k = fs w !! k)) as [Hsame|Hdiff]; [|by apply Hcw].
  apply (Hf a w'). by rewrite Hsame.
Qed.

Lemma touches_makedirs (p : string) :
  Fs.no_dotdot p = true → touches_only (Fs.makedirs p) (on_the_way (Fs.resolve p)).
Proof. intros Hno w k Hk. by apply (makedirs_way p w). Qed.

Lemma touches_open_w (p data : string) :
  touches_only (Fs.open_w p data) (λ k, k = Fs.resolve p).
Proof.
  intros w k Hk. unfold Fs.open_w in Hk.
  destruct (Fs.open_target p (fs w)) as [e|k'] eqn:Ho; [done|].
  apply open_target_inr in Ho as (-> & _). simpl in Hk.
  destruct (decide (k = Fs.resolve p)) as [|Hne]; [done|].
  by rewrite lookup_insert_ne in Hk.
Qed.

Lemma touches_open_a (p data : string) :
  touches_only (Fs.open_a p data) (λ k, k = Fs.resolve p).
Proof.
  intros w k Hk. unfold Fs.open_a in Hk.
  destruct (Fs.open_target p (fs w)) as [e|k'] eqn:Ho; [done|].
  apply open_target_inr in Ho as (-> & _). simpl in Hk.
  destruct (decide (k = Fs.resolve p)) as [|Hne]; [done|].
  by rewrite lookup_insert_ne in Hk.
Qed.

Lemma touches_results_summary (n : Z) (title link base_dir : string) :
  Fs.no_dotdot base_dir = true →
  touches_only (results_summary n title link base_dir)
    (λ k, on_the_way (Fs.resolve base_dir) k
          ∨ k = Fs.resolve base_dir ++ ["results_summary.csv"]).
Proof.
  intros Hno.
  assert (Fs.resolve (join base_dir "results_summary.csv")
          = Fs.resolve base_dir ++ ["results_summary.csv"]) as Hk by by apply resolve_join.
  unfold results_summary. apply touches_bind.
  { eapply touches_mono; [|by apply touches_makedirs]. by left. }
  intros _. apply touches_bind.
  { by intros w k Hdiff. }
  intros present. apply touches_bind.
  - destruct (negb present); [|apply touches_ret].
    eapply touches_mono; [|apply touches_open_w]. intros k ->. by right.
  - intros _. eapply touches_mono; [|apply touches_open_a]. intros k ->. by right.
Qed.

Lemma touches_save_link (n : Z) (link base_dir : string) :
  Fs.no_dotdot base_dir = true →
  touches_only (save_link n link base_dir)
    (λ k, on_the_way (Fs.resolve base_dir ++ [zfill 3 (str n)]) k
          ∨ ∃ name, k = Fs.resolve base_dir ++ [zfill 3 (str n); name]).
Proof.
  intros Hno. destruct (save_dir_shape base_dir n) as (_ & _ & Hres).
  unfold save_link. apply touches_bind.
  { eapply touches_mono; [|by apply touches_makedirs, no_dotdot_join, index_plain].
    intros k Hk. left. by rewrite <-Hres. }
  intros _. eapply touches_mono; [|apply touches_open_w]. intros k ->. right.
  exists "website_link.txt". by rewrite resolve_join, Hres, <-app_assoc.
Qed.

Lemma touches_save_pdf (n : Z) (link base_dir : string) (timeout : Z) :
  Fs.no_dotdot base_dir = true →
  touches_only (save_pdf http n link base_dir timeout)
    (λ k, on_the_way (Fs.resolve base_dir ++ [zfill 3 (str n)]) k
          ∨ ∃ name, k = Fs.resolve base_dir ++ [zfill 3 (str n); name]).
Proof.
  intros Hno w k Hk. apply save_pdf_footprint in Hk as [Hk|(name & ->)]; [by left| |done].
  right. exists name. by rewrite <-app_assoc.
Qed.

Lemma touches_process_result (st : string) (i : Z) (r : SearchResult) :
  Fs.no_dotdot st = true →
  touches_only (process_result http st i r)
    (λ k, on_the_way (Fs.resolve st) k
          ∨ k = Fs.resolve st ++ ["results_summary.csv"]
          ∨ k = Fs.resolve st ++ [zfill 3 (str i)]
          ∨ ∃ name, k = Fs.resolve st ++ [zfill 3 (str i); name]).
Proof.
  intros Hno.
  assert (∀ k, on_the_way (Fs.resolve st ++ [zfill 3 (str i)]) k →
               on_the_way (Fs.resolve st) k ∨ k = Fs.resolve st ++ [zfill 3 (str i)])
    as Hway.
  { intros k (j & Hj & ->). rewrite length_app in Hj. simpl in Hj.
    destruct (decide (j ≤ length (Fs.resolve st))%nat) as [Hle|Hgt].
    - left. exists j. split; [lia|]. by rewrite take_app_le.
    - right. rewrite take_ge; [done|]. rewrite length_app. simpl. lia. }
  unfold process_result. apply touches_bind.
  - eapply touches_mono; [|by apply touches_results_summary]. intros k [?|?]; auto.
  - intros _. destruct (do_download r).
    + eapply touches_mono; [|by apply touches_save_pdf].
      intros k [[?| ->]%Hway|?]; auto.
    + eapply touches_mono; [|by apply touches_save_link].
      intros k [[?| ->]%Hway|?]; auto.
Qed.

(** X13: The results of a session do not get in each other's way: for a
    session directory that is one ordinary path component, as the name
    made from the clock is, processing result [j] changes nothing at or
    below the directory of another index [i], whatever the outcome and
    however large the indices are. *)
Theorem process_result_isolated (st : string) (i j : Z) (r : SearchResult) (w : world)
    (below : list string) :
  plain st = true →
  0 ≤ i → 0 ≤ j → i ≠ j →
  fs (process_result http st j r w).2 !! (Fs.resolve st ++ zfill 3 (str i) :: below)
  = fs w !! (Fs.resolve st ++ zfill 3 (str i) :: below).
Proof.
  intros Hst Hi Hj Hij.
  set (k := Fs.resolve st ++ zfill 3 (str i) :: below).
  destruct (decide (fs (process_result http st j r w).2 !! k = fs w !! k)) as [|Hne]; [done|].
  exfalso.
  assert (zfill 3 (str i) ≠ zfill 3 (str j)) as Hidx.
  { intros E. apply index_inj in E; lia. }
  assert (zfill 3 (str i) ≠ "results_summary.csv") as Hsum by by apply index_not_name.
  apply touches_process_result in Hne as [(n & Hn & E)|[E|[E|(name & E)]]];
    [| | | |by apply no_dotdot_plain]; unfold k in E.
  - apply (f_equal length) in E. rewrite length_take, length_app in E. simpl in E. lia.
  - apply app_inv_head in E. by simplify_eq.
  - apply app_inv_head in E. by simplify_eq.
  - apply app_inv_head in E. by simplify_eq.
Qed.

(** X14: A failing download does not take the row back: when the summary was
    written and [save_pdf] then raises, the loop stops with that exception,
    the later results are not processed, and the summary file is what
    [results_summary] left, with the row of the result as its last line. *)
Theorem aborted_download_keeps_row (st : string) (i : Z) (r : SearchResult)
    (rest : list SearchResult) (w wa wb : world) (e : exn) :
  let ks := Fs.resolve st ++ ["results_summary.csv"] in
  do_download r = true →
  results_summary i (title r) (primary_link r) st w = (Return tt, wa) →
  save_pdf http i (primary_link r) st default_timeout wa = (Raise e, wb) →
  for_enumerate (process_result http st) i (r :: rest) w = (Raise e, wb)
  ∧ ∃ start, fs wb !! ks = Some (File (start +:+ summary_row i r)).
Proof.
  intros ks Hd Hrs Hpdf. split.
  - simpl. unfold bind, process_result, bind. by rewrite Hrs, Hd, Hpdf.
  - assert (∃ start, fs wa !! ks = Some (File (start +:+ summary_row i r)))
      as (start & Hsum).
    { rewrite results_summary_run in Hrs.
      destruct (Fs.makedirs st w) as [[[]|e'] w1]; [|done]. fold ks in Hrs.
      destruct (fs w1 !! ks) as [[|old]|]; simplify_eq; simpl;
        rewrite lookup_insert_eq; by eexists. }
    exists start.
    assert (wb = (save_pdf http i (primary_link r) st default_timeout wa).2) as ->
      by by rewrite Hpdf.
    apply save_pdf_keeps_outside; [done|].
    intros name E. apply (f_equal length) in E. unfold ks in E.
    rewrite !length_app in E. simpl in E. lia.
Qed.

(** X4: [save_pdf] keeps what is there and, when no component of [base_dir]
    is [..], stays in its directory: whatever exists outside
    [<base_dir>/<index>] holds the same afterwards, and for such a
    [base_dir] no other name directly in [base_dir] is made or changed, so
    a download cannot reach the summary or the saved search. *)
Theorem save_pdf_preserves_outside (n : Z) (link base_dir : string) (timeout : Z)
    (w : world) :
  let w' := (save_pdf http n link base_dir timeout w).2 in
  (∀ k v, fs w !! k = Some v →
          (∀ name, k ≠ Fs.resolve base_dir ++ [zfill 3 (str n); name]) →
          fs w' !! k = Some v)
  ∧ (Fs.no_dotdot base_dir = true →
     ∀ name, name ≠ zfill 3 (str n) →
             fs w' !! (Fs.resolve base_dir ++ [name])
             = fs w !! (Fs.resolve base_dir ++ [name])).
Proof.
  intros w'. split.
  - intros k v Hv Hout. by apply save_pdf_keeps_outside.
  - intros Hno name Hname.
    destruct (decide (fs w' !! (Fs.resolve base_dir ++ [name])
                      = fs w !! (Fs.resolve base_dir ++ [name]))) as [|Hne]; [done|].
    exfalso. apply touches_save_pdf in Hne as [(j & Hj & E)|(name' & E)]; [| |done].
    + rewrite length_app in Hj. simpl in Hj.
      destruct (decide (j ≤ length (Fs.resolve base_dir))%nat) as [Hle|Hgt].
      * apply (f_equal length) in E. rewrite length_take, !length_app in E. simpl in E. lia.
      * rewrite take_ge in E by (rewrite length_app; simpl; lia).
        apply app_inv_head in E. by simplify_eq.
    + apply (f_equal length) in E. rewrite !length_app in E. simpl in E. lia.
Qed.

End Footprints.

Section SessionFootprint.
Import Str OsPath.

Variable http : nat → request → exn + response.
Variable get_search_results : string → string → list SearchResult.
Variable utcnow : datetime.

Lemma touches_for_enumerate {A} (body : Z → A → M unit) (P : list string → Prop)
    (xs : list A) :
  (∀ i x, touches_only (body i x) P) →
  ∀ start, touches_only (for_enumerate body start xs) P.
Proof.
  intros Hbody. induction xs as [|x xs IH]; intros start; simpl.
  - apply touches_ret.
  - apply touches_bind; [apply Hbody|]. intros _. apply IH.
Qed.

Lemma touches_get_webpage (url : string) (results : Z) (st : string) :
  plain st = true →
  touches_only (get_webpage http url results st) (λ k, ∃ below, k = st :: below).
Proof.
  intros Hst. unfold get_webpage. apply touches_bind.
  { case_bool_decide; [|apply touches_ret].
    apply touches_bind; [by intros w k Hdiff|]. intros _. apply touches_ret. }
  intros n. apply touches_bind.
  { intros w k Hdiff. unfold requests_get in Hdiff. by destruct (http _ _). }
  intros page. apply touches_bind; [|intros _; apply touches_ret].
  unfold save_google_search. apply touches_bind.
  { eapply touches_mono; [|by apply touches_makedirs, no_dotdot_plain].
    intros k (i & Hi & ->). rewrite resolve_plain in * by done. simpl in Hi.
    assert (i = 1%nat) as -> by lia. by exists []. }
  intros _. apply touches_bind; [|intros _];
    (eapply touches_mono; [|apply touches_open_w]); intros k ->;
    rewrite resolve_join, resolve_plain by done; by eexists.
Qed.

(** X15: A session stays in its own directory: whatever the network does and
    whatever the results are, [search_and_download] makes or changes
    nothing outside the directory named after the time of the call. *)
Theorem session_stays_in_its_directory (url : string) (results : Z) (w : world)
    (k : list string) :
  (∀ below, k ≠ strftime_Ymd_HMS utcnow :: below) →
  fs (search_and_download http get_search_results utcnow url results w).2 !! k = fs w !! k.
Proof.
  intros Hout.
  set (st := strftime_Ymd_HMS utcnow) in *.
  pose proof (strftime_plain utcnow) as Hst. fold st in Hst.
  destruct (decide (fs (search_and_download http get_search_results utcnow url results w).2
                      !! k = fs w !! k)) as [|Hne]; [done|].
  exfalso.
  assert (touches_only (search_and_download http get_search_results utcnow url results)
            (λ k, ∃ below, k = st :: below)) as Htouch.
  { unfold search_and_download. fold st. apply touches_bind.
    - by apply touches_get_webpage.
    - intros page. apply touches_for_enumerate. intros i r.
      eapply touches_mono; [|by apply touches_process_result, no_dotdot_plain].
      rewrite resolve_plain by done.
      intros k' [(j & Hj & ->)|[->|[->|(name & ->)]]]; [|by eexists..].
      simpl in Hj. assert (j = 1%nat) as -> by lia. by exists []. }
  destruct (Htouch w k Hne) as (below & ->). by apply (Hout below).
Qed.

End SessionFootprint.

(** * Concrete runs of the further properties *)

Lemma save_pdf_base_exception_propagates_witness :
  save_pdf net_interrupt 0 link_a "output" 60 w_empty
  = (Raise KeyboardInterrupt, World (fs w1_000) (trace w1_000 ++ [HttpGet (pdf_request link_a)])).
Proof.
  apply (save_pdf_base_exception_propagates net_interrupt 0 link_a "output" 60
           w_empty w1_000 KeyboardInterrupt); run.
Defined.

Lemma save_pdf_error_status_marker_witness :
  save_pdf net_503 0 link_a "output" 60 w_empty
  = (Return tt,
      World (<[ Fs.resolve "output" ++ ["000"; "a.pdf" +:+ ".404error.txt"]
                := File ("recieved 404 error when trying to download" +:+ nl +:+ link_a) ]>
             (fs w1_000))
            (trace w1_000
             ++ [HttpGet (pdf_request link_a);
                 FileWrite ("output/000/a.pdf" +:+ ".404error.txt")
                   ("recieved 404 error when trying to download" +:+ nl +:+ link_a)]))
  ∧ ∃ e, save_pdf net_503 0 link_long "output" 60 w_empty
         = (Raise e, World (fs w1_000) (trace w1_000 ++ [HttpGet (pdf_request link_long)])).
Proof.
  split.
  - destruct (save_pdf_error_status_marker net_503 0 link_a "output" 60 w_empty w1_000
                (Response 503 "busy" "<html>busy</html>") ltac:(run) ltac:(run)
                ltac:(simpl; lia)) as (H & _).
    etrans; [apply H; run|run].
  - destruct (save_pdf_error_status_marker net_503 0 link_long "output" 60 w_empty w1_000
                (Response 503 "busy" "<html>busy</html>") ltac:(run) ltac:(run)
                ltac:(simpl; lia)) as (_ & H).
    destruct H as (e & _ & Hrun); [left; vm_compute; discriminate|]. by exists e.
Defined.

Lemma save_pdf_single_attempt_witness :
  requests_made (save_pdf net_404 0 link_a "output" 60 w_empty).2 = 1%nat.
Proof.
  by destruct (save_pdf_single_attempt net_404 0 link_a "output" 60 w_empty w1_000
                 ltac:(run)) as (H & _).
Defined.

Lemma save_pdf_preserves_outside_witness :
  fs (save_pdf net_200 1 link_a "output" 60 w_old_session).2
    !! ["output"; "results_summary.csv"] = Some (File "old")
  ∧ fs (save_pdf net_200 1 link_a "output" 60 w_empty).2
      !! (Fs.resolve "output" ++ ["results_summary.csv"]) = None.
Proof.
  split.
  - destruct (save_pdf_preserves_outside net_200 1 link_a "output" 60 w_old_session)
      as (H & _).
    apply H; [run|]. intros name E. revert E. vm_compute. discriminate.
  - destruct (save_pdf_preserves_outside net_200 1 link_a "output" 60 w_empty)
      as (_ & H).
    etrans; [apply H; [run|vm_compute; discriminate]|run].
Defined.

Lemma marker_writers_bare_name_witness :
  write_fail_msg "a.pdf" link_a w_empty = (Raise FileNotFoundError, w_empty).
Proof.
  by destruct (marker_writers_bare_name "a.pdf" link_a w_empty ltac:(run)) as (_ & H & _).
Defined.

Lemma marker_writers_make_directory_witness :
  write_timeout_msg (OsPath.join "out/x" "a.pdf") link_a w_empty
  = (Return tt,
      written (Fs.makedirs "out/x" w_empty).2 (Fs.resolve "out/x" ++ ["a.pdf" +:+ ".timedout.txt"])
        (OsPath.join "out/x" "a.pdf" +:+ ".timedout.txt") (msg_timedout +:+ nl +:+ link_a)).
Proof.
  destruct (marker_writers_make_directory "out/x" "a.pdf" link_a w_empty
              (Fs.makedirs "out/x" w_empty).2 ltac:(vm_compute; discriminate)
              ltac:(run) ltac:(run) ltac:(run))
    as ((H & _) & _).
  apply H; run.
Defined.

Lemma save_google_search_files_witness :
  save_google_search "http://g.com/?q=x&num=5" "<html>" "output" w_empty
  = (Return tt,
      World (<[ Fs.resolve "output" ++ ["google-search-result.html"] := File "<html>" ]>
             (<[ Fs.resolve "output" ++ ["google-search-term.txt"]
                 := File "http://g.com/?q=x&num=5" ]> (fs (Fs.makedirs "output" w_empty).2)))
            (trace w_empty
             ++ [FileWrite (OsPath.join "output" "google-search-term.txt")
                   "http://g.com/?q=x&num=5";
                 FileWrite (OsPath.join "output" "google-search-result.html") "<html>"])).
Proof.
  destruct (save_google_search_files "http://g.com/?q=x&num=5" "<html>" "output" w_empty
              (Fs.makedirs "output" w_empty).2 ltac:(run) ltac:(run)) as (H & _).
  apply H. run.
Defined.

Lemma get_webpage_saves_any_status_witness :
  (get_webpage net_503 "http://g.com/?q=x" 150 "output" w_empty).1
  = Return "<html>busy</html>".
Proof.
  by rewrite (get_webpage_saves_any_status net_503 "http://g.com/?q=x" 150 "output" w_empty
                (Fs.makedirs "output" w_empty).2 (Response 503 "busy" "<html>busy</html>")
                ltac:(run) ltac:(run) ltac:(run) ltac:(run)).
Defined.

Lemma search_and_download_fetch_fails_witness :
  search_and_download net_down three_results clock "http://g.com/?q=x" 50 w_empty
  = (Raise ConnectionError,
      World ∅ [HttpGet (Request "http://g.com/?q=x&num=50" true headers None)]).
Proof.
  apply (search_and_download_fetch_fails net_down three_results clock "http://g.com/?q=x" 50
           w_empty ConnectionError). run.
Defined.

Lemma results_summary_twice_witness :
  ∃ w',
    (results_summary 0 "a, b" "http://l0" "output" ;;
     results_summary 1 "c" "http://l1" "output") w_empty = (Return tt, w')
    ∧ fs w' !! ["output"; "results_summary.csv"]
      = Some (File ("search number, title, link" +:+ nl
                    +:+ "000, a, b, http://l0" +:+ nl +:+ "001, c, http://l1" +:+ nl)).
Proof.
  destruct (results_summary_twice 0 1 "a, b" "http://l0" "c" "http://l1" "output" w_empty
              (Fs.makedirs "output" w_empty).2 ltac:(run)) as (w' & Hrun & Hfs).
  - vm_compute. discriminate.
  - exists w'. split; [exact Hrun|]. rewrite Hfs. apply lookup_insert_eq.
Defined.

Lemma save_link_again_witness :
  ∃ w2,
    save_link 1 "http://new/" "output" (save_link 1 "http://old/" "output" w_empty).2
    = (Return tt, w2)
    ∧ fs w2 !! ["output"; "001"; "website_link.txt"] = Some (File "http://new/").
Proof.
  destruct (save_link_again 1 "http://old/" "http://new/" "output" w_empty
              (save_link 1 "http://old/" "output" w_empty).2 ltac:(run))
    as (w2 & Hrun & Hfs & _).
  exists w2. split; [exact Hrun|]. rewrite Hfs. apply lookup_insert_eq.
Defined.

Lemma writers_blocked_by_file_witness :
  ∃ e, (save_link 0 link_a "output" w_output_file).1 = Raise e
       ∧ isinstance_Exception e = true.
Proof.
  destruct (writers_blocked_by_file net_200 0 "t" link_a "output" 60 w_output_file "x"
              ltac:(run) ltac:(run)) as (_ & _ & H & _).
  exact H.
Defined.

Lemma process_result_isolated_witness :
  fs (process_result net_404 "output" 1000 (Result "t" link_a true) w_old_session).2
    !! ["output"; "001"; "website_link.txt"] = Some (File "http://old/").
Proof.
  pose proof (process_result_isolated net_404 "output" 1 1000 (Result "t" link_a true)
                w_old_session ["website_link.txt"] ltac:(run) ltac:(lia) ltac:(lia)
                ltac:(lia)) as H.
  etrans; [exact H|]. run.
Defined.

Lemma aborted_download_keeps_row_witness :
  (for_enumerate (process_result net_interrupt "output") 0
     (three_results "" "") w_empty).1 = Raise KeyboardInterrupt.
Proof.
  destruct (aborted_download_keeps_row net_interrupt "output" 0
              (Result "Report, 2019" "http://h.org/a.pdf" true)
              [Result "Home" "http://h.org/" false; Result "Docs" "http://h.org/docs/" true]
              w_empty
              (results_summary 0 "Report, 2019" "http://h.org/a.pdf" "output" w_empty).2
              (save_pdf net_interrupt 0 "http://h.org/a.pdf" "output" 60
                 (results_summary 0 "Report, 2019" "http://h.org/a.pdf" "output" w_empty).2).2
              KeyboardInterrupt ltac:(run) ltac:(run) ltac:(run)) as (H & _).
  unfold three_results. by rewrite H.
Defined.

Lemma session_stays_in_its_directory_witness :
  fs (search_and_download net_mixed three_results clock "http://g.com/?q=x" 50
        w_old_session).2 !! ["output"; "results_summary.csv"] = Some (File "old").
Proof.
  rewrite (session_stays_in_its_directory net_mixed three_results clock "http://g.com/?q=x" 50
             w_old_session ["output"; "results_summary.csv"]).
  - run.
  - intros below E. revert E. vm_compute. discriminate.
Defined.
